(** * Session / stage state machine, identity codec and presence tracker

    A shallow embedding of the writing-platform backend (the Express
    server): identifier derivation ([buildSessionKey], [makeSoloRoomId],
    [makePairRoomId]), the in-memory presence registry, the session store
    ([createSession], [findMatchForStudent], [ensureSession]), the stage
    handlers ([handleAdvanceToPeer], [handleAdvanceToFinal], [handleJump],
    [handleRegress]), the session routes and the administrative partner
    operations ([assignPartnerRecord], [clearPartnerRecord]).

    Conventions of the embedding.
    - A JavaScript string is a [string]; case mapping and white space are
      those of the ASCII range, other code units are carried unchanged, so
      [Js.toUpperCase] and [Js.trim] are the built-ins of the engine on
      strings of ASCII code units.  What is proved of the normalisation
      itself is proved of [Engine.buildSessionKey], for every upper-casing
      and trimming function.
    - A field that may be absent or falsy and is only read through
      [String(x || '')] or through a truthiness test is a [string], the
      absent value being [""].
    - A time stamp ([Date.now()]) is a [Z] handed to the function that
      reads the clock; one request reads one value.
    - A stage is a rational number: the jump route stores whatever number
      the clamp yields, and the handlers only compare stages.
    - [throw createHttpError(status, message)] is the [Err] result.  Every
      handler throws before its first assignment, so a failed request
      leaves the store as it was.
    - [store.sessions] is a list; a record found in it is named by its
      position, and assigning to a field of the record rewrites that
      position.
    - A route is given the decoded [:sessionKey] parameter and answers with
      the record itself; the projection [buildSessionState] of the answer
      and the write of the store to disk or bucket are left out.
    - [md5] of node's [crypto] module is a parameter of the definitions that
      derive room identifiers. *)

From Stdlib Require Import Ascii String QArith Lqa.
From stdpp Require Import base strings list gmap.

Local Open Scope Z_scope.

(** ** JavaScript values *)

Module Js.

(** Truthiness of a string: only the empty string is falsy. *)
Definition truthy (s : string) : bool := negb (String.eqb s "").

(** [a || b] on strings. *)
Definition or (a b : string) : string := if truthy a then a else b.

Definition upper_char (c : ascii) : ascii :=
  let n := N_of_ascii c in
  if ((97 <=? n) && (n <=? 122))%N then ascii_of_N (n - 32) else c.

(** [String.prototype.toUpperCase] on strings of ASCII code units: the
    letters a to z are mapped, every other code unit is kept as it is.  The
    engine also maps the letters outside ASCII. *)
Fixpoint toUpperCase (s : string) : string :=
  match s with
  | EmptyString => EmptyString
  | String c rest => String (upper_char c) (toUpperCase rest)
  end.

Fixpoint trimStart (s : string) : string :=
  match s with
  | EmptyString => EmptyString
  | String c rest => if Ascii.is_space c then trimStart rest else s
  end.

Definition trimEnd (s : string) : string :=
  String.rev (trimStart (String.rev s)).

(** [String.prototype.trim] on strings of ASCII code units: the white
    space stripped is tab, line feed, vertical tab, form feed, carriage
    return and space.  The engine also strips the white space of Unicode
    outside ASCII (U+00A0, U+3000 and the like). *)
Definition trim (s : string) : string := trimEnd (trimStart s).

(** [a < b] on strings: lexicographic on code units. *)
Definition lt (a b : string) : bool := String.ltb a b.

(** A value that is a number or a boolean, as the [online] field is. *)
Inductive value :=
| VNum (z : Z)
| VBool (b : bool).


(** The result of [Number(x)]: a finite number, an infinity or NaN. *)
Inductive number :=
| Finite (q : Q)
| PosInfinity
| NegInfinity
| NaN.

Definition Qltb (x y : Q) : bool := negb (Qle_bool y x).

End Js.

(** ** Errors *)

Record HttpError := { status : Z; message : string }.

Definition createHttpError (st : Z) (msg : string) : HttpError :=
  {| status := st;
     message := Js.or msg "요청 처리 중 오류가 발생했습니다." |}.

Inductive result (A : Type) :=
| Ok (a : A)
| Err (e : HttpError).
Arguments Ok {A} a.
Arguments Err {A} e.

Definition bind {A B : Type} (r : result A) (k : A -> result B) : result B :=
  match r with
  | Ok a => k a
  | Err e => Err e
  end.

Notation "'let*' x ':=' r 'in' k" := (bind r (fun x => k))
  (at level 10, x name, r at level 100, k at level 200).

(** The messages of the guards. *)
Definition MSG_KEY_REQUIRED : string := "집단과 식별 번호가 필요합니다.".
Definition MSG_NOT_FOUND : string := "세션을 찾을 수 없습니다.".
Definition MSG_PRE_ALREADY : string := "이미 사전 글쓰기가 제출되었습니다.".
Definition MSG_PRE_REQUIRED : string := "사전 글쓰기를 먼저 제출하세요.".
Definition MSG_DRAFT_REQUIRED : string := "2단계 메모를 먼저 저장하세요.".
Definition MSG_NOTES_REQUIRED : string := "3단계 메모를 먼저 저장하세요.".
Definition MSG_EARLIER_STAGES : string :=
  "최종 단계로 이동하기 전에 이전 단계를 완료하세요.".
Definition MSG_NO_STAGE_3 : string := "해당 집단은 3단계가 없습니다.".
Definition MSG_FINAL_CONDITION : string :=
  "최종 단계로 이동 조건이 충족되지 않았습니다.".
Definition MSG_FINAL_EMPTY : string := "최종 제출할 글이 없습니다.".
Definition MSG_SELF_PAIR : string := "자기 자신과 매칭할 수 없습니다.".
Definition MSG_TEXT_REQUIRED : string := "text 값이 필요합니다.".

(** ** Presence registry *)

Definition PRESENCE_TTL_MS : Z := 20000.

Definition presenceKey (roomId studentId : string) : string :=
  roomId +:+ "|" +:+ studentId.

Record touchResult := { ok : bool; timestamp : option Z }.

Definition touchPresence (now : Z) (roomId studentId : string)
    (presenceMap : gmap string Z) : touchResult * gmap string Z :=
  if negb (Js.truthy roomId) || negb (Js.truthy studentId)
  then ({| ok := false; timestamp := None |}, presenceMap)
  else ({| ok := true; timestamp := Some now |},
        <[presenceKey roomId studentId := now]> presenceMap).

Definition markLeave (roomId studentId : string)
    (presenceMap : gmap string Z) : gmap string Z :=
  delete (presenceKey roomId studentId) presenceMap.

Definition readPresence (roomId studentId : string)
    (presenceMap : gmap string Z) : Z :=
  if negb (Js.truthy roomId) || negb (Js.truthy studentId) then 0
  else match presenceMap !! presenceKey roomId studentId with
       | Some val => if val =? 0 then 0 else val
       | None => 0
       end.

Record presence := { lastSeen : Z; online : Js.value }.

Record presenceSummary := { self : presence; partner : option presence }.

(** [ts && now - ts < PRESENCE_TTL_MS]: a zero [ts] is returned as it is. *)
Definition isOnline (now ts : Z) : Js.value :=
  if ts =? 0 then Js.VNum ts else Js.VBool (now - ts <? PRESENCE_TTL_MS).

Definition buildPresenceSummary (now : Z)
    (roomId studentId partnerStudentId : string)
    (presenceMap : gmap string Z) : presenceSummary :=
  let selfTs := readPresence roomId studentId presenceMap in
  let partnerTs :=
    if Js.truthy partnerStudentId
    then readPresence roomId partnerStudentId presenceMap else 0 in
  {| self := {| lastSeen := selfTs; online := isOnline now selfTs |};
     partner :=
       if Js.truthy partnerStudentId
       then Some {| lastSeen := partnerTs; online := isOnline now partnerTs |}
       else None |}.

(** ** Identity codec *)

Definition buildSessionKey (group studentId : string) : result string :=
  let g := Js.toUpperCase group in
  let sid := Js.trim studentId in
  if negb (Js.truthy g) || negb (Js.truthy sid)
  then Err (createHttpError 400 MSG_KEY_REQUIRED)
  else Ok (g +:+ "|" +:+ sid).

(** [buildSessionKey] over the string functions of the engine.  The two
    built-ins it calls, [String.prototype.toUpperCase] and
    [String.prototype.trim], are parameters here: what is proved of this
    definition holds of the code whatever letters the engine maps and
    whatever white space it strips.  [buildSessionKey] above is its instance
    at [Js.toUpperCase] and [Js.trim], which are the two built-ins on
    strings of ASCII code units. *)
Module Engine.

Section Normalisation.

Variables toUpperCase trim : string -> string.

Definition buildSessionKey (group studentId : string) : result string :=
  let g := toUpperCase group in
  let sid := trim studentId in
  if negb (Js.truthy g) || negb (Js.truthy sid)
  then Err (createHttpError 400 MSG_KEY_REQUIRED)
  else Ok (g +:+ "|" +:+ sid).

End Normalisation.

End Engine.

Section Digest.

(** The hexadecimal MD5 digest of node's [crypto] module. *)
Variable md5 : string -> string.

Definition makeSoloRoomId (group studentId : string) : string :=
  let hash := String.substring 0 12 (md5 (group +:+ "|" +:+ studentId)) in
  "solo_" +:+ hash.

Definition makePairRoomId (keyA keyB : string) : string :=
  let a := Js.trim keyA in
  let b := Js.trim keyB in
  let left := if Js.lt a b then a else b in
  let right := if Js.lt a b then b else a in
  let hash := String.substring 0 12 (md5 (left +:+ "|" +:+ right)) in
  "r_" +:+ hash.

End Digest.

(** ** Session records *)

Record session := {
  sessionKey : string;
  group : string;
  studentId : string;
  studentName : string;
  roomId : string;
  stage : Q;
  preText : string;
  preSubmittedAt : Z;
  draftText : string;
  draftSavedAt : Z;
  notesText : string;
  notesUpdatedAt : Z;
  finalText : string;
  finalSubmittedAt : Z;
  partnerStudentId : string;
  partnerName : string;
  createdAt : Z;
  updatedAt : Z;
}.

(** Assignments to one field of a record. *)
Definition set_studentName (v : string) (r : session) : session :=
  {| sessionKey := sessionKey r; group := group r; studentId := studentId r;
     studentName := v; roomId := roomId r; stage := stage r;
     preText := preText r; preSubmittedAt := preSubmittedAt r;
     draftText := draftText r; draftSavedAt := draftSavedAt r;
     notesText := notesText r; notesUpdatedAt := notesUpdatedAt r;
     finalText := finalText r; finalSubmittedAt := finalSubmittedAt r;
     partnerStudentId := partnerStudentId r; partnerName := partnerName r;
     createdAt := createdAt r; updatedAt := updatedAt r |}.

Definition set_roomId (v : string) (r : session) : session :=
  {| sessionKey := sessionKey r; group := group r; studentId := studentId r;
     studentName := studentName r; roomId := v; stage := stage r;
     preText := preText r; preSubmittedAt := preSubmittedAt r;
     draftText := draftText r; draftSavedAt := draftSavedAt r;
     notesText := notesText r; notesUpdatedAt := notesUpdatedAt r;
     finalText := finalText r; finalSubmittedAt := finalSubmittedAt r;
     partnerStudentId := partnerStudentId r; partnerName := partnerName r;
     createdAt := createdAt r; updatedAt := updatedAt r |}.

Definition set_stage (v : Q) (r : session) : session :=
  {| sessionKey := sessionKey r; group := group r; studentId := studentId r;
     studentName := studentName r; roomId := roomId r; stage := v;
     preText := preText r; preSubmittedAt := preSubmittedAt r;
     draftText := draftText r; draftSavedAt := draftSavedAt r;
     notesText := notesText r; notesUpdatedAt := notesUpdatedAt r;
     finalText := finalText r; finalSubmittedAt := finalSubmittedAt r;
     partnerStudentId := partnerStudentId r; partnerName := partnerName r;
     createdAt := createdAt r; updatedAt := updatedAt r |}.

Definition set_pre (text : string) (at_ : Z) (r : session) : session :=
  {| sessionKey := sessionKey r; group := group r; studentId := studentId r;
     studentName := studentName r; roomId := roomId r; stage := stage r;
     preText := text; preSubmittedAt := at_;
     draftText := draftText r; draftSavedAt := draftSavedAt r;
     notesText := notesText r; notesUpdatedAt := notesUpdatedAt r;
     finalText := finalText r; finalSubmittedAt := finalSubmittedAt r;
     partnerStudentId := partnerStudentId r; partnerName := partnerName r;
     createdAt := createdAt r; updatedAt := updatedAt r |}.

Definition set_draft (text : string) (at_ : Z) (r : session) : session :=
  {| sessionKey := sessionKey r; group := group r; studentId := studentId r;
     studentName := studentName r; roomId := roomId r; stage := stage r;
     preText := preText r; preSubmittedAt := preSubmittedAt r;
     draftText := text; draftSavedAt := at_;
     notesText := notesText r; notesUpdatedAt := notesUpdatedAt r;
     finalText := finalText r; finalSubmittedAt := finalSubmittedAt r;
     partnerStudentId := partnerStudentId r; partnerName := partnerName r;
     createdAt := createdAt r; updatedAt := updatedAt r |}.

Definition set_notes (text : string) (at_ : Z) (r : session) : session :=
  {| sessionKey := sessionKey r; group := group r; studentId := studentId r;
     studentName := studentName r; roomId := roomId r; stage := stage r;
     preText := preText r; preSubmittedAt := preSubmittedAt r;
     draftText := draftText r; draftSavedAt := draftSavedAt r;
     notesText := text; notesUpdatedAt := at_;
     finalText := finalText r; finalSubmittedAt := finalSubmittedAt r;
     partnerStudentId := partnerStudentId r; partnerName := partnerName r;
     createdAt := createdAt r; updatedAt := updatedAt r |}.

Definition set_finalText (text : string) (r : session) : session :=
  {| sessionKey := sessionKey r; group := group r; studentId := studentId r;
     studentName := studentName r; roomId := roomId r; stage := stage r;
     preText := preText r; preSubmittedAt := preSubmittedAt r;
     draftText := draftText r; draftSavedAt := draftSavedAt r;
     notesText := notesText r; notesUpdatedAt := notesUpdatedAt r;
     finalText := text; finalSubmittedAt := finalSubmittedAt r;
     partnerStudentId := partnerStudentId r; partnerName := partnerName r;
     createdAt := createdAt r; updatedAt := updatedAt r |}.

Definition set_finalSubmittedAt (at_ : Z) (r : session) : session :=
  {| sessionKey := sessionKey r; group := group r; studentId := studentId r;
     studentName := studentName r; roomId := roomId r; stage := stage r;
     preText := preText r; preSubmittedAt := preSubmittedAt r;
     draftText := draftText r; draftSavedAt := draftSavedAt r;
     notesText := notesText r; notesUpdatedAt := notesUpdatedAt r;
     finalText := finalText r; finalSubmittedAt := at_;
     partnerStudentId := partnerStudentId r; partnerName := partnerName r;
     createdAt := createdAt r; updatedAt := updatedAt r |}.

Definition set_partner (id name : string) (r : session) : session :=
  {| sessionKey := sessionKey r; group := group r; studentId := studentId r;
     studentName := studentName r; roomId := roomId r; stage := stage r;
     preText := preText r; preSubmittedAt := preSubmittedAt r;
     draftText := draftText r; draftSavedAt := draftSavedAt r;
     notesText := notesText r; notesUpdatedAt := notesUpdatedAt r;
     finalText := finalText r; finalSubmittedAt := finalSubmittedAt r;
     partnerStudentId := id; partnerName := name;
     createdAt := createdAt r; updatedAt := updatedAt r |}.

Definition set_updatedAt (at_ : Z) (r : session) : session :=
  {| sessionKey := sessionKey r; group := group r; studentId := studentId r;
     studentName := studentName r; roomId := roomId r; stage := stage r;
     preText := preText r; preSubmittedAt := preSubmittedAt r;
     draftText := draftText r; draftSavedAt := draftSavedAt r;
     notesText := notesText r; notesUpdatedAt := notesUpdatedAt r;
     finalText := finalText r; finalSubmittedAt := finalSubmittedAt r;
     partnerStudentId := partnerStudentId r; partnerName := partnerName r;
     createdAt := createdAt r; updatedAt := at_ |}.

(** A row of [store.matchups]:
    [{ roomId?, studentIdA, nameA, studentIdB, nameB, group? }]. *)
Record matchup := {
  row_roomId : string;
  row_studentIdA : string;
  row_nameA : string;
  row_studentIdB : string;
  row_nameB : string;
  row_group : string;
}.

(** What [findMatchForStudent] returns for a matching row. *)
Record partnerHint := {
  hint_roomId : string;
  hint_partnerId : string;
  hint_partnerName : string;
  hint_keyA : string;
  hint_keyB : string;
}.

(** ** Session store *)

(** [store.sessions.find((s) => s.sessionKey === sessionKey) || null]:
    the first record with that key, and its position. *)
Definition findSession (key : string) (sessions : list session)
    : option (nat * session) :=
  list_find (fun s => sessionKey s = key) sessions.

(** The loop of [findMatchForStudent], over the rows that remain. *)
Section Pairing.

Variable md5 : string -> string.

Fixpoint findMatch_rows (upperGroup sid sname : string)
    (rows : list matchup) : option partnerHint :=
  match rows with
  | [] => None
  | row :: rest =>
      if Js.truthy (row_group row)
         && negb (String.eqb (Js.toUpperCase (row_group row)) upperGroup)
      then findMatch_rows upperGroup sid sname rest
      else
        let aId := Js.trim (row_studentIdA row) in
        let bId := Js.trim (row_studentIdB row) in
        let aName := Js.trim (row_nameA row) in
        let bName := Js.trim (row_nameB row) in
        let matches :=
          (Js.truthy aId && String.eqb aId sid)
          || (Js.truthy bId && String.eqb bId sid)
          || (Js.truthy aName && String.eqb aName sname)
          || (Js.truthy bName && String.eqb bName sname) in
        if negb matches then findMatch_rows upperGroup sid sname rest
        else
          Some {| hint_roomId :=
                    Js.or (row_roomId row)
                      (makePairRoomId md5 (Js.or aId aName) (Js.or bId bName));
                  hint_partnerId := if String.eqb aId sid then bId else aId;
                  hint_partnerName :=
                    if String.eqb aId sid then bName else aName;
                  hint_keyA := Js.or aId aName;
                  hint_keyB := Js.or bId bName |}
  end.

Definition findMatchForStudent (matchups : list matchup)
    (group studentId studentName : string) : option partnerHint :=
  findMatch_rows (Js.toUpperCase group) (Js.trim studentId)
    (Js.trim studentName) matchups.

Definition createSession (now : Z) (group studentId studentName : string)
    (hint : option partnerHint) : result session :=
  let* key := buildSessionKey group studentId in
  let upperGroup := Js.toUpperCase group in
  let room :=
    match hint with
    | Some h =>
        Js.or (hint_roomId h) (makePairRoomId md5 (hint_keyA h) (hint_keyB h))
    | None => makeSoloRoomId md5 group studentId
    end in
  let partnerId :=
    match hint with Some h => Js.or (hint_partnerId h) "" | None => "" end in
  let partnerNm :=
    match hint with Some h => Js.or (hint_partnerName h) "" | None => "" end in
  Ok {| sessionKey := key;
        group := upperGroup;
        studentId := Js.trim studentId;
        studentName := Js.trim studentName;
        roomId := room;
        stage := 1;
        preText := "";
        preSubmittedAt := 0;
        draftText := "";
        draftSavedAt := 0;
        notesText := "";
        notesUpdatedAt := 0;
        finalText := "";
        finalSubmittedAt := 0;
        partnerStudentId := partnerId;
        partnerName := partnerNm;
        createdAt := now;
        updatedAt := now |}.

(** [ensureSession] returns the record and leaves it in the store: the
    result is the record together with the store after the call. *)
Definition ensureSession (now : Z) (matchups : list matchup)
    (sessions : list session) (group studentId name : string)
    : result (session * list session) :=
  let* key := buildSessionKey group studentId in
  let upperGroup := Js.toUpperCase group in
  let hint :=
    if String.eqb upperGroup "A" || String.eqb upperGroup "B"
    then findMatchForStudent matchups group studentId name
    else None in
  match findSession key sessions with
  | None =>
      let* record := createSession now group studentId name hint in
      Ok (record, sessions ++ [record])
  | Some (i, record) =>
      let record :=
        set_studentName
          (Js.trim (Js.or name (Js.or (studentName record) "")))
          record in
      let record :=
        if negb (Js.truthy (roomId record))
        then set_roomId
               match hint with
               | Some h => Js.or (hint_roomId h) (roomId record)
               | None => makeSoloRoomId md5 group studentId
               end record
        else record in
      let record :=
        match hint with
        | Some h =>
            set_partner
              (Js.or (hint_partnerId h) (Js.or (partnerStudentId record) ""))
              (Js.or (hint_partnerName h) (Js.or (partnerName record) ""))
              record
        | None => record
        end in
      let record := set_updatedAt now record in
      Ok (record, <[i := record]> sessions)
  end.

End Pairing.

(** ** Stage transitions *)

(** [Number(record.stage || 1)]. *)
Definition currentStage (record : session) : Q :=
  if Qeq_bool (stage record) 0 then 1%Q else stage record.

Definition ensureStage (now : Z) (record : session) (target : Q) : session :=
  set_updatedAt now (set_stage target record).

Definition handleAdvanceToPeer (now : Z) (record : session) : result session :=
  let stage := currentStage record in
  let group := Js.toUpperCase (group record) in
  if Qeq_bool stage 2 then
    if negb (Js.truthy (draftText record))
    then Err (createHttpError 400 MSG_DRAFT_REQUIRED)
    else if String.eqb group "C"
         then Ok (ensureStage now record 4)
         else Ok (ensureStage now record 3)
  else if Qeq_bool stage 3 then
    if negb (Js.truthy (notesText record))
    then Err (createHttpError 400 MSG_NOTES_REQUIRED)
    else Ok (ensureStage now record 4)
  else if Js.Qltb stage 2 then Ok (ensureStage now record 2)
  else Ok record.

Definition handleAdvanceToFinal (now : Z) (record : session) : result session :=
  let group := Js.toUpperCase (group record) in
  let stage := currentStage record in
  if (String.eqb group "A" || String.eqb group "B")
     && negb (Js.truthy (notesText record))
  then Err (createHttpError 400 MSG_NOTES_REQUIRED)
  else if negb (String.eqb group "C") && Js.Qltb stage 3
  then Err (createHttpError 400 MSG_EARLIER_STAGES)
  else if negb (Js.truthy (draftText record))
  then Err (createHttpError 400 MSG_DRAFT_REQUIRED)
  else
    let record := set_finalText (Js.or (finalText record) "") record in
    Ok (ensureStage now record 4).

Definition handleJump (now : Z) (record : session) (desired : Q)
    : result session :=
  let group := Js.toUpperCase (group record) in
  let current := currentStage record in
  let peer := String.eqb group "A" || String.eqb group "B" in
  if Qeq_bool desired 3 && negb peer
  then Err (createHttpError 400 MSG_NO_STAGE_3)
  else if Qeq_bool desired current then Ok record
  else
    let movingForward := Js.Qltb current desired in
    if movingForward then
      if Qeq_bool desired 2 && negb (Js.truthy (preText record))
      then Err (createHttpError 400 MSG_PRE_REQUIRED)
      else if Qeq_bool desired 3 && negb (Js.truthy (draftText record))
      then Err (createHttpError 400 MSG_DRAFT_REQUIRED)
      else if Qeq_bool desired 4 then
        if peer then
          if negb (Js.truthy (notesText record))
          then Err (createHttpError 400 MSG_NOTES_REQUIRED)
          else Ok (ensureStage now record desired)
        else if String.eqb group "C" then
          if negb (Js.truthy (draftText record))
          then Err (createHttpError 400 MSG_DRAFT_REQUIRED)
          else Ok (ensureStage now record desired)
        else if negb (Js.truthy (finalText record))
                && (finalSubmittedAt record =? 0)
        then Err (createHttpError 400 MSG_FINAL_CONDITION)
        else Ok (ensureStage now record desired)
      else Ok (ensureStage now record desired)
    else
      if Qeq_bool desired 2 && negb (Js.truthy (preText record))
      then Err (createHttpError 400 MSG_PRE_REQUIRED)
      else if Qeq_bool desired 3 && negb (Js.truthy (draftText record))
      then Err (createHttpError 400 MSG_DRAFT_REQUIRED)
      else Ok (ensureStage now record desired).

Definition handleRegress (now : Z) (record : session) : session :=
  let current := currentStage record in
  let group := Js.toUpperCase (group record) in
  if Qle_bool current 1 then record
  else if Qeq_bool current 2 then ensureStage now record 1
  else if Qeq_bool current 3 then ensureStage now record 2
  else if Qle_bool 4 current
  then ensureStage now record (if String.eqb group "C" then 2 else 3)
  else record.

(** ** Session routes *)

(** The number a jump request carries, after [Number(req.body?.stage || 0)],
    clamped by [Math.min(5, Math.max(1, n || 1))]:
    - a zero or NaN is replaced by 1;
    - [Math.max(1, -Infinity)] is 1 and [Math.min(5, +Infinity)] is 5. *)
Definition desiredStage (n : Js.number) : Q :=
  match n with
  | Js.Finite q =>
      let q1 := if Qeq_bool q 0 then 1%Q else q in
      let q2 := if Qle_bool 1 q1 then q1 else 1%Q in
      if Qle_bool q2 5 then q2 else 5%Q
  | Js.PosInfinity => 5%Q
  | Js.NegInfinity => 1%Q
  | Js.NaN => 1%Q
  end.

(** [requireBodyFields(req.body, ['text'])]: an absent, null or empty
    [text] is refused. *)
Definition requireText (text : string) : result unit :=
  if negb (Js.truthy text)
  then Err (createHttpError 400 MSG_TEXT_REQUIRED)
  else Ok tt.

(** What each route does to the record it found. *)
Definition submitPrewriting (now : Z) (text : string) (record : session)
    : result session :=
  if Js.truthy (preText record)
  then Err (createHttpError 400 MSG_PRE_ALREADY)
  else
    let record := set_pre (Js.trim text) now record in
    let record :=
      if Js.Qltb (currentStage record) 2 then ensureStage now record 2
      else record in
    Ok (set_updatedAt now record).

Definition saveDraft (now : Z) (text : string) (record : session)
    : result session :=
  let record := set_draft (Js.trim text) now record in
  let record :=
    if Js.Qltb (currentStage record) 2 then ensureStage now record 2
    else record in
  Ok (set_updatedAt now record).

Definition saveNotes (now : Z) (text : string) (record : session)
    : result session :=
  let record := set_notes (Js.trim text) now record in
  let group := Js.toUpperCase (group record) in
  let record :=
    if Js.Qltb (currentStage record) 3
       && (String.eqb group "A" || String.eqb group "B")
    then ensureStage now record 3
    else record in
  Ok (set_updatedAt now record).

Definition submitFinal (now : Z) (text : string) (record : session)
    : result session :=
  let text := Js.trim text in
  if negb (Js.truthy text)
  then Err (createHttpError 400 MSG_FINAL_EMPTY)
  else
    let record := set_finalSubmittedAt now (set_finalText text record) in
    Ok (ensureStage now record 4).

(** A route looks the record up, runs its handler and answers with the
    record; the store after the request comes first in the result. *)
Definition onSession (key : string) (handler : session -> result session)
    (sessions : list session) : list session * result session :=
  match findSession key sessions with
  | None => (sessions, Err (createHttpError 404 MSG_NOT_FOUND))
  | Some (i, record) =>
      match handler record with
      | Ok record' => (<[i := record']> sessions, Ok record')
      | Err e => (sessions, Err e)
      end
  end.

Definition onSessionWithText (key text : string)
    (handler : session -> result session) (sessions : list session)
    : list session * result session :=
  match requireText text with
  | Err e => (sessions, Err e)
  | Ok _ => onSession key handler sessions
  end.

Inductive request :=
| PostPrewriting (key text : string)
| PostDraft (key text : string)
| PostNotes (key text : string)
| PostFinal (key text : string)
| PostAdvance (key : string)
| PostAdvanceFinal (key : string)
| PostJump (key : string) (stageField : Js.number)
| PostRegress (key : string).

Definition serve (now : Z) (req : request) (sessions : list session)
    : list session * result session :=
  match req with
  | PostPrewriting key text =>
      onSessionWithText key text (submitPrewriting now text) sessions
  | PostDraft key text =>
      onSessionWithText key text (saveDraft now text) sessions
  | PostNotes key text =>
      onSessionWithText key text (saveNotes now text) sessions
  | PostFinal key text =>
      onSessionWithText key text (submitFinal now text) sessions
  | PostAdvance key => onSession key (handleAdvanceToPeer now) sessions
  | PostAdvanceFinal key => onSession key (handleAdvanceToFinal now) sessions
  | PostJump key stageField =>
      onSession key
        (fun record => handleJump now record (desiredStage stageField))
        sessions
  | PostRegress key =>
      onSession key (fun record => Ok (handleRegress now record)) sessions
  end.

(** A run of requests, each with the clock value it reads; the answers are
    dropped, the store is kept. *)
Fixpoint serveAll (reqs : list (Z * request)) (sessions : list session)
    : list session :=
  match reqs with
  | [] => sessions
  | (now, req) :: rest => serveAll rest (serve now req sessions).1
  end.

(** ** Partner operations *)

Record partnerPayload := {
  payload_partnerSessionKey : string;
  payload_partnerId : string;
  payload_partnerName : string;
}.

Section Partner.

Variable md5 : string -> string.

(** The first part of [assignPartnerRecord]: the partner record, looked up
    by session key and, failing that, by group and participant id. *)
Definition resolvePartner (record : session) (payload : partnerPayload)
    (sessions : list session) : option (nat * session) :=
  let partnerSessionKey := Js.trim (payload_partnerSessionKey payload) in
  let partnerId := Js.trim (payload_partnerId payload) in
  let byKey :=
    if Js.truthy partnerSessionKey
    then findSession partnerSessionKey sessions else None in
  match byKey with
  | Some found => Some found
  | None =>
      if Js.truthy partnerId
      then list_find
             (fun s => group s = group record /\ studentId s = partnerId)
             sessions
      else None
  end.

(** [record] is the record at position [i] of the store. *)
Definition assignPartnerRecord (now : Z) (i : nat) (payload : partnerPayload)
    (sessions : list session) : result (list session) :=
  match sessions !! i with
  | None => Ok sessions
  | Some record =>
      let partnerId := Js.trim (payload_partnerId payload) in
      let partnerNm := Js.trim (payload_partnerName payload) in
      match resolvePartner record payload sessions with
      | Some (j, partnerRecord) =>
          if String.eqb (sessionKey partnerRecord) (sessionKey record)
          then Err (createHttpError 400 MSG_SELF_PAIR)
          else
            let room :=
              Js.or (roomId record)
                (Js.or (roomId partnerRecord)
                   (makePairRoomId md5 (sessionKey record)
                      (sessionKey partnerRecord))) in
            let record' :=
              set_updatedAt now
                (set_partner (studentId partnerRecord)
                   (studentName partnerRecord) (set_roomId room record)) in
            let partnerRecord' :=
              set_updatedAt now
                (set_partner (studentId record) (studentName record)
                   (set_roomId room partnerRecord)) in
            Ok (<[j := partnerRecord']> (<[i := record']> sessions))
      | None =>
          Ok (<[i := set_updatedAt now
                        (set_partner (Js.or partnerId "") (Js.or partnerNm "")
                           record)]> sessions)
      end
  end.

End Partner.

(** The partner of a record as [clearPartnerRecord], [buildSessionState] and
    [buildPartnerSnapshot] look it up: the first session of the same group
    whose participant id is the partner id of the record. *)
Definition findPartner (record : session) (sessions : list session)
    : option (nat * session) :=
  list_find
    (fun s => group s = group record
              /\ studentId s = partnerStudentId record)
    sessions.

(** The partner found by [clearPartnerRecord] may be the record itself, so
    the second assignment reads the store the first one left. *)
Definition clearPartnerRecord (now : Z) (i : nat) (sessions : list session)
    : list session :=
  match sessions !! i with
  | None => sessions
  | Some record =>
      let sessions1 :=
        if Js.truthy (partnerStudentId record) then
          match findPartner record sessions with
          | Some (j, partner) =>
              if String.eqb (partnerStudentId partner) (studentId record)
              then <[j := set_updatedAt now (set_partner "" "" partner)]>
                     sessions
              else sessions
          | None => sessions
          end
        else sessions in
      match sessions1 !! i with
      | Some record1 =>
          <[i := set_updatedAt now (set_partner "" "" record1)]> sessions1
      | None => sessions1
      end
  end.

(** ** Further text operations *)

Module JsText.

Definition lower_char (c : ascii) : ascii :=
  let n := N_of_ascii c in
  if ((65 <=? n) && (n <=? 90))%N then ascii_of_N (n + 32) else c.

(** [String.prototype.toLowerCase]. *)
Fixpoint toLowerCase (s : string) : string :=
  match s with
  | EmptyString => EmptyString
  | String c rest => String (lower_char c) (toLowerCase rest)
  end.

(** [s.charAt(0)]: the first code unit as a string, or the empty string. *)
Definition charAt0 (s : string) : string :=
  match s with
  | EmptyString => EmptyString
  | String c _ => String c EmptyString
  end.

(** [s.split(sep)] for a separator of one code unit; [cur] holds the
    current piece, last code unit first. *)
Fixpoint split_from (sep : ascii) (cur s : string) : list string :=
  match s with
  | EmptyString => [String.rev cur]
  | String c rest =>
      if Ascii.eqb c sep
      then String.rev cur :: split_from sep EmptyString rest
      else split_from sep (String c cur) rest
  end.

Definition split (sep : ascii) (s : string) : list string :=
  split_from sep EmptyString s.

(** [header.slice(n)]. *)
Definition sliceFrom (n : nat) (s : string) : string :=
  String.substring n (String.length s - n) s.

End JsText.

(** ** Request bodies *)

(** [requireBodyFields(body, fields)], the body given as the value of each
    required field in the order of [fields]; an absent or null value is the
    empty string. *)
Fixpoint requireBodyFields (fields : list (string * string)) : result unit :=
  match fields with
  | [] => Ok tt
  | (field, value) :: rest =>
      if negb (Js.truthy value)
      then Err (createHttpError 400 (field +:+ " 값이 필요합니다."))
      else requireBodyFields rest
  end.

(** ** Chat messages *)

(** A message of [store.messages]; its [ext] object, which no function
    modelled here reads, is left out. *)
Record chatMessage := {
  msg_ts : Z;
  msg_sessionId : string;
  msg_roomId : string;
  msg_channel : string;
  msg_group : string;
  msg_senderId : string;
  msg_senderName : string;
  msg_role : string;
  msg_text : string;
}.

Record messageView := {
  view_ts : Z;
  view_text : string;
  view_senderName : string;
  view_role : string;
}.

(** [list.sort((a, b) => Number(a.ts || 0) - Number(b.ts || 0))]: the sort
    of an array is stable, so a message goes before the first message that
    is not older than it. *)
Fixpoint insertByTs (m : chatMessage) (sorted : list chatMessage)
    : list chatMessage :=
  match sorted with
  | [] => [m]
  | x :: rest =>
      if msg_ts m <=? msg_ts x then m :: sorted else x :: insertByTs m rest
  end.

Definition sortByTs (l : list chatMessage) : list chatMessage :=
  foldr insertByTs [] l.

Definition collectMessages (sessionId channel : string)
    (messages : list chatMessage) : list messageView :=
  if negb (Js.truthy sessionId) || negb (Js.truthy channel) then []
  else
    map (fun msg =>
           {| view_ts := msg_ts msg;
              view_text := Js.or (msg_text msg) "";
              view_senderName := Js.or (msg_senderName msg) "";
              view_role := Js.or (msg_role msg) "" |})
      (sortByTs
         (filter (fun msg => msg_channel msg = channel
                             /\ msg_sessionId msg = sessionId)
            messages)).

(** [GET /chat/:channel/messages]: the messages of a session and channel
    that are newer than [since]. *)
Definition getChatMessages (channel sessionId : string) (since : Z)
    (messages : list chatMessage) : result (list chatMessage) :=
  if negb (Js.truthy sessionId)
  then Err (createHttpError 400 "sessionId가 필요합니다.")
  else
    Ok (sortByTs
          (filter (fun m => msg_channel m = channel
                            /\ msg_sessionId m = sessionId
                            /\ since < msg_ts m)
             messages)).

Definition MAX_MESSAGES : nat := 5000.

(** [FileStore.saveMessages]: only the last 5000 messages are kept. *)
Definition saveMessages (messages : list chatMessage) : list chatMessage :=
  if (MAX_MESSAGES <? length messages)%nat
  then drop (length messages - MAX_MESSAGES) messages
  else messages.

Record chatSendBody := {
  send_sessionId : string;
  send_group : string;
  send_userId : string;
  send_userName : string;
  send_role : string;
  send_text : string;
  send_roomId : string;
}.

(** [POST /chat/:channel/send]; [send_roomId] is [metadata?.roomId]. *)
Definition postChatSend (now : Z) (channel : string) (body : chatSendBody)
    (messages : list chatMessage) : list chatMessage * result Z :=
  match requireBodyFields [("sessionId", send_sessionId body);
                           ("text", send_text body)] with
  | Err e => (messages, Err e)
  | Ok _ =>
      let message :=
        {| msg_ts := now;
           msg_sessionId := send_sessionId body;
           msg_roomId := Js.or (send_roomId body) "";
           msg_channel := channel;
           msg_group := Js.toUpperCase (send_group body);
           msg_senderId := Js.or (send_userId body) "";
           msg_senderName := Js.or (send_userName body) "";
           msg_role := Js.or (send_role body) "user";
           msg_text := send_text body |} in
      (saveMessages (messages ++ [message]), Ok now)
  end.

(** ** Administrator tokens *)

Definition ADMIN_SESSION_TTL_MS : Z := 1000 * 60 * 60 * 12.

(** [adminTokens] maps a token to its [expiresAt]; [token] is the outcome
    of [crypto.randomBytes(24).toString('hex')]. *)
Definition issueAdminToken (now : Z) (token : string)
    (adminTokens : gmap string Z) : (string * Z) * gmap string Z :=
  let expiresAt := now + ADMIN_SESSION_TTL_MS in
  ((token, expiresAt), <[token := expiresAt]> adminTokens).

Definition extractAdminToken (authorization : string) : string :=
  if String.prefix "Bearer " authorization
  then Js.trim (JsText.sliceFrom 7 authorization)
  else "".

Definition validateAdminToken (now : Z) (token : string)
    (adminTokens : gmap string Z) : bool * gmap string Z :=
  if negb (Js.truthy token) then (false, adminTokens)
  else match adminTokens !! token with
       | None => (false, adminTokens)
       | Some expiresAt =>
           if expiresAt <? now then (false, delete token adminTokens)
           else (true, adminTokens)
       end.

Definition requireAdminAuth (now : Z) (authorization : string)
    (adminTokens : gmap string Z) : result string * gmap string Z :=
  let token := extractAdminToken authorization in
  let '(valid, adminTokens') := validateAdminToken now token adminTokens in
  if valid then (Ok token, adminTokens')
  else (Err (createHttpError 401 "관리자 인증이 필요합니다."), adminTokens').

Definition revokeAdminToken (token : string) (adminTokens : gmap string Z)
    : gmap string Z :=
  if Js.truthy token && bool_decide (is_Some (adminTokens !! token))
  then delete token adminTokens
  else adminTokens.

(** [POST /admin/login]; [ADMIN_PASSWORD] comes from the environment. *)
Definition adminLogin (ADMIN_PASSWORD : string) (now : Z) (token : string)
    (password : string) (adminTokens : gmap string Z)
    : result (string * Z) * gmap string Z :=
  if negb (Js.truthy ADMIN_PASSWORD)
  then (Err (createHttpError 500 "관리자 비밀번호가 설정되지 않았습니다."),
        adminTokens)
  else if negb (String.eqb password ADMIN_PASSWORD)
  then (Err (createHttpError 401 "비밀번호가 올바르지 않습니다."), adminTokens)
  else
    let '(session, adminTokens') := issueAdminToken now token adminTokens in
    (Ok session, adminTokens').

(** [POST /admin/logout], behind [requireAdminAuth]. *)
Definition adminLogout (now : Z) (authorization : string)
    (adminTokens : gmap string Z) : result unit * gmap string Z :=
  match requireAdminAuth now authorization adminTokens with
  | (Ok token, adminTokens') => (Ok tt, revokeAdminToken token adminTokens')
  | (Err e, adminTokens') => (Err e, adminTokens')
  end.

(** ** The state of the server and its administration *)

(** [store.sessions], [store.messages], [store.matchups] and the map
    [presenceMap]. *)
Record serverState := {
  store_sessions : list session;
  store_messages : list chatMessage;
  store_matchups : list matchup;
  presence_entries : gmap string Z;
}.

Definition with_sessions (sessions : list session) (st : serverState)
    : serverState :=
  {| store_sessions := sessions;
     store_messages := store_messages st;
     store_matchups := store_matchups st;
     presence_entries := presence_entries st |}.

(** The keys of a bulk deletion:
    [new Set((keys || []).map((key) => String(key || '').trim()).filter(Boolean))]. *)
Definition deletionKeySet (keys : list string) : gset string :=
  list_to_set (filter (fun key => Js.truthy key = true) (map Js.trim keys)).

Definition deleteSessionsByKeys (keys : list string) (st : serverState)
    : nat * serverState :=
  let keySet := deletionKeySet keys in
  if bool_decide (size keySet = 0%nat) then (0%nat, st)
  else
    let removed :=
      filter (fun record => sessionKey record ∈ keySet) (store_sessions st) in
    let removedSessionIds : gset string :=
      list_to_set (map (fun record => "ai:" +:+ sessionKey record) removed) in
    let removedPeerIds : gset string :=
      list_to_set
        (map (fun record => "peer:" +:+ roomId record)
           (filter (fun record => Js.truthy (roomId record) = true) removed)) in
    let removedStudentIds : gset string :=
      list_to_set (map studentId removed) in
    let presence :=
      foldr (fun record entries =>
               delete (presenceKey (roomId record) (studentId record)) entries)
        (presence_entries st) removed in
    let kept :=
      filter (fun record => sessionKey record ∉ keySet) (store_sessions st) in
    let sessions :=
      map (fun record =>
             if bool_decide (partnerStudentId record ∈ removedStudentIds)
             then set_partner "" "" record
             else record)
        kept in
    let messages :=
      filter (fun msg => (msg_sessionId msg ∉ removedSessionIds)
                         /\ (msg_sessionId msg ∉ removedPeerIds))
        (store_messages st) in
    (size removedSessionIds,
     {| store_sessions := sessions;
        store_messages := saveMessages messages;
        store_matchups := store_matchups st;
        presence_entries := presence |}).

(** [POST /admin/sessions/bulk-delete]. *)
Definition adminBulkDelete (keys : list string) (st : serverState)
    : serverState * result nat :=
  match keys with
  | [] => (st, Err (createHttpError 400 "삭제할 세션이 없습니다."))
  | _ =>
      let '(deleted, st') := deleteSessionsByKeys keys st in
      (st', Ok deleted)
  end.

(** ** The roster *)

Record rosterPerson := { person_id : string; person_name : string }.

Record rosterPairing := {
  pairing_primary : rosterPerson;
  pairing_partner : rosterPerson;
}.

Definition trimPerson (item : rosterPerson) : rosterPerson :=
  {| person_id := Js.trim (person_id item);
     person_name := Js.trim (person_name item) |}.

Definition normalizeRosterPayload (rawStudents : list rosterPerson)
    (rawPairings : list rosterPairing)
    : list rosterPerson * list rosterPairing :=
  let students :=
    filter (fun item => (Js.truthy (person_id item)
                         || Js.truthy (person_name item)) = true)
      (map trimPerson rawStudents) in
  let filteredStudents :=
    filter (fun item => Js.truthy (person_id item) = true) students in
  let idSet : gset string :=
    list_to_set
      (map (fun item => JsText.toLowerCase (person_id item)) filteredStudents) in
  let pairings :=
    filter (fun pair =>
              (JsText.toLowerCase (person_id (pairing_primary pair)) ∈ idSet)
              /\ (JsText.toLowerCase (person_id (pairing_partner pair))
                  ∈ idSet))
      (filter (fun pair =>
                 (Js.truthy (person_id (pairing_primary pair))
                  && Js.truthy (person_id (pairing_partner pair))) = true)
         (map (fun pair =>
                 {| pairing_primary := trimPerson (pairing_primary pair);
                    pairing_partner := trimPerson (pairing_partner pair) |})
            rawPairings)) in
  (filteredStudents, pairings).

(** [undefined] is the empty string. *)
Definition inferGroupFromId (id : string) : string :=
  if negb (Js.truthy id) then ""
  else Js.toUpperCase (JsText.charAt0 (Js.trim id)).

(** The rows [POST /admin/roster] derives from the pairings. *)
Definition matchupOfPairing (pair : rosterPairing) : matchup :=
  {| row_roomId := "";
     row_studentIdA := person_id (pairing_primary pair);
     row_nameA := Js.or (person_name (pairing_primary pair)) "";
     row_studentIdB := person_id (pairing_partner pair);
     row_nameB := Js.or (person_name (pairing_partner pair)) "";
     row_group := inferGroupFromId (person_id (pairing_primary pair)) |}.

(** [POST /admin/roster]: the matchups of the store after the upload. *)
Definition adminPostRoster (rawStudents : list rosterPerson)
    (rawPairings : list rosterPairing) (st : serverState) : serverState :=
  let '(students, pairings) := normalizeRosterPayload rawStudents rawPairings in
  {| store_sessions := store_sessions st;
     store_messages := store_messages st;
     store_matchups := map matchupOfPairing pairings;
     presence_entries := presence_entries st |}.

(** ** Export scopes *)

(** The [scopes] query parameter: absent, a string, an array of strings or
    another truthy value. *)
Inductive scopesInput :=
| ScopesAbsent
| ScopesString (s : string)
| ScopesArray (items : list string)
| ScopesOther.

Definition parseExportScopes (input : scopesInput) : list string :=
  let fallback := ["all"] in
  let normalize (raw : list string) :=
    let normalized :=
      filter (fun item => Js.truthy item = true)
        (map (fun item => JsText.toLowerCase (Js.trim item)) raw) in
    match normalized with
    | [] => fallback
    | _ => normalized
    end in
  match input with
  | ScopesAbsent => fallback
  | ScopesString s =>
      if negb (Js.truthy s) then fallback
      else normalize (JsText.split "," s)
  | ScopesArray items => normalize items
  | ScopesOther => normalize fallback
  end.

Definition shouldIncludeScope (scopes : list string) (value : string) : bool :=
  bool_decide ("all" ∈ scopes) || bool_decide (value ∈ scopes).

(** ** The calls that change the state of the server *)

(** What the administrator pages show of the partner of a record. *)
Record partnerSnapshot := {
  snap_id : string;
  snap_name : string;
  snap_sessionKey : string;
}.

Definition buildPartnerSnapshot (record : session) (sessions : list session)
    : option partnerSnapshot :=
  if Js.truthy (partnerStudentId record) then
    match findPartner record sessions with
    | Some (_, partner) =>
        Some {| snap_id := Js.or (studentId partner) "";
                snap_name := Js.or (studentName partner) "";
                snap_sessionKey := Js.or (sessionKey partner) "" |}
    | None =>
        Some {| snap_id := Js.or (partnerStudentId record) "";
                snap_name := Js.or (partnerName record) "";
                snap_sessionKey := "" |}
    end
  else if Js.truthy (partnerName record) then
    Some {| snap_id := Js.or (partnerStudentId record) "";
            snap_name := partnerName record;
            snap_sessionKey := "" |}
  else None.

Section Api.

Variable md5 : string -> string.

(** [POST /session/start]. *)
Definition postSessionStart (now : Z) (grp sid name : string)
    (st : serverState) : serverState * result session :=
  match requireBodyFields [("group", grp); ("studentId", sid);
                           ("studentName", name)] with
  | Err e => (st, Err e)
  | Ok _ =>
      match ensureSession md5 now (store_matchups st) (store_sessions st)
              grp sid name with
      | Ok (record, sessions) => (with_sessions sessions st, Ok record)
      | Err e => (st, Err e)
      end
  end.

(** [POST /session/:sessionKey/presence/touch]. *)
Definition postPresenceTouch (now : Z) (key : string) (st : serverState)
    : serverState * result touchResult :=
  match findSession key (store_sessions st) with
  | None => (st, Err (createHttpError 404 MSG_NOT_FOUND))
  | Some (_, record) =>
      let '(answer, entries) :=
        touchPresence now (roomId record) (studentId record)
          (presence_entries st) in
      ({| store_sessions := store_sessions st;
          store_messages := store_messages st;
          store_matchups := store_matchups st;
          presence_entries := entries |},
       Ok answer)
  end.

(** [POST /session/:sessionKey/presence/leave]. *)
Definition postPresenceLeave (key : string) (st : serverState) : serverState :=
  match findSession key (store_sessions st) with
  | None => st
  | Some (_, record) =>
      {| store_sessions := store_sessions st;
         store_messages := store_messages st;
         store_matchups := store_matchups st;
         presence_entries :=
           markLeave (roomId record) (studentId record) (presence_entries st) |}
  end.

(** [POST /admin/sessions/:sessionKey/partner]. *)
Definition adminAssignPartner (now : Z) (key : string)
    (payload : partnerPayload) (st : serverState)
    : serverState * result unit :=
  match findSession key (store_sessions st) with
  | None => (st, Err (createHttpError 404 MSG_NOT_FOUND))
  | Some (i, _) =>
      match assignPartnerRecord md5 now i payload (store_sessions st) with
      | Ok sessions => (with_sessions sessions st, Ok tt)
      | Err e => (st, Err e)
      end
  end.

(** [DELETE /admin/sessions/:sessionKey/partner]. *)
Definition adminClearPartner (now : Z) (key : string) (st : serverState)
    : serverState * result unit :=
  match findSession key (store_sessions st) with
  | None => (st, Err (createHttpError 404 MSG_NOT_FOUND))
  | Some (i, _) =>
      (with_sessions (clearPartnerRecord now i (store_sessions st)) st, Ok tt)
  end.

Inductive apiCall :=
| SessionStart (grp sid name : string)
| SessionRequest (req : request)
| PresenceTouch (key : string)
| PresenceLeave (key : string)
| ChatSend (channel : string) (body : chatSendBody)
| AdminAssignPartner (key : string) (payload : partnerPayload)
| AdminClearPartner (key : string)
| AdminBulkDelete (keys : list string)
| AdminPostRoster (students : list rosterPerson)
    (pairings : list rosterPairing).

(** The state after a call, whatever the answer was. *)
Definition handleCall (now : Z) (call : apiCall) (st : serverState)
    : serverState :=
  match call with
  | SessionStart grp sid name => (postSessionStart now grp sid name st).1
  | SessionRequest req =>
      with_sessions (serve now req (store_sessions st)).1 st
  | PresenceTouch key => (postPresenceTouch now key st).1
  | PresenceLeave key => postPresenceLeave key st
  | ChatSend channel body =>
      {| store_sessions := store_sessions st;
         store_messages :=
           (postChatSend now channel body (store_messages st)).1;
         store_matchups := store_matchups st;
         presence_entries := presence_entries st |}
  | AdminAssignPartner key payload =>
      (adminAssignPartner now key payload st).1
  | AdminClearPartner key => (adminClearPartner now key st).1
  | AdminBulkDelete keys => (adminBulkDelete keys st).1
  | AdminPostRoster students pairings => adminPostRoster students pairings st
  end.

Fixpoint handleCalls (calls : list (Z * apiCall)) (st : serverState)
    : serverState :=
  match calls with
  | [] => st
  | (now, call) :: rest => handleCalls rest (handleCall now call st)
  end.

End Api.

(** The server before its first call, with no stored file. *)
Definition initialState : serverState :=
  {| store_sessions := [];
     store_messages := [];
     store_matchups := [];
     presence_entries := ∅ |}.

(** ** Vocabulary of the statements *)

(** The string has no occurrence of the separator of [buildSessionKey]. *)
Fixpoint separatorFree (s : string) : bool :=
  match s with
  | EmptyString => true
  | String c rest => negb (Ascii.eqb c "|") && separatorFree rest
  end.

(** [peerEnabled] of [stepsFromRecord] and [buildSessionState]. *)
Definition peerEnabled (record : session) : bool :=
  let upperGroup := Js.toUpperCase (group record) in
  String.eqb upperGroup "A" || String.eqb upperGroup "B".

(** The handler a request runs on the record it names. *)
Definition requestHandler (now : Z) (req : request)
    : session -> result session :=
  match req with
  | PostPrewriting _ text => submitPrewriting now text
  | PostDraft _ text => saveDraft now text
  | PostNotes _ text => saveNotes now text
  | PostFinal _ text => submitFinal now text
  | PostAdvance _ => handleAdvanceToPeer now
  | PostAdvanceFinal _ => handleAdvanceToFinal now
  | PostJump _ stageField =>
      fun record => handleJump now record (desiredStage stageField)
  | PostRegress _ => fun record => Ok (handleRegress now record)
  end.

(** The stage lies between the first and the fifth stage label. *)
Definition stageInRange (record : session) : Prop :=
  (1 <= stage record /\ stage record <= 5)%Q.

(** A session of group C is not at the peer stage. *)
Definition peerStageFree (record : session) : Prop :=
  Js.toUpperCase (group record) = "C" -> ~ (stage record == 3)%Q.

(** A digest function to run the definitions with. *)
Definition sampleDigest (text : string) : string :=
  "d41d8cd98f00b204e9800998ecf8427e".

(** A session with the given group, stage and texts. *)
Definition sampleSession (grp : string) (stg : Q)
    (pre draft notes final : string) : session :=
  {| sessionKey := grp +:+ "|S1";
     group := grp;
     studentId := "S1";
     studentName := "Kim";
     roomId := "solo_d41d8cd98f00";
     stage := stg;
     preText := pre;
     preSubmittedAt := 0;
     draftText := draft;
     draftSavedAt := 0;
     notesText := notes;
     notesUpdatedAt := 0;
     finalText := final;
     finalSubmittedAt := 0;
     partnerStudentId := "";
     partnerName := "";
     createdAt := 1000;
     updatedAt := 1000 |}.

(** The room of a hint is the room the matching declaration names or, when
    it names none, the pair room of the two keys of the declaration. *)
Definition roomOfRow (md5 : string -> string) (row : matchup) : string :=
  Js.or (row_roomId row)
    (makePairRoomId md5
       (Js.or (Js.trim (row_studentIdA row)) (Js.trim (row_nameA row)))
       (Js.or (Js.trim (row_studentIdB row)) (Js.trim (row_nameB row)))).

(** A declaration that pairs the participants S1 and S2. *)
Definition sampleMatchups : list matchup :=
  [{| row_roomId := "";
      row_studentIdA := "S1"; row_nameA := "Kim";
      row_studentIdB := "S2"; row_nameB := "Lee";
      row_group := "" |}].




(** A request to pair a session with the one of the given key. *)
Definition pairWithKey (key : string) : partnerPayload :=
  {| payload_partnerSessionKey := key;
     payload_partnerId := "";
     payload_partnerName := "" |}.

(** No two sessions of the store share group and participant id, as in a
    store filled by [ensureSession]. *)
Definition uniqueIds (sessions : list session) : Prop :=
  forall (k l : nat) (s t : session),
    sessions !! k = Some s -> sessions !! l = Some t ->
    group s = group t -> studentId s = studentId t -> k = l.

(** A session as [createSession] makes it and as every call keeps it: the
    key is the group and the participant id joined by the separator, the
    group is upper-cased, group, id and room are not empty, and the stage is
    in range. *)
Definition sessionSound (s : session) : Prop :=
  sessionKey s = group s +:+ "|" +:+ studentId s
  /\ Js.toUpperCase (group s) = group s
  /\ group s <> "" /\ studentId s <> "" /\ roomId s <> ""
  /\ stageInRange s.

(** A store of sound sessions with pairwise different keys. *)
Definition storeSound (sessions : list session) : Prop :=
  Forall sessionSound sessions /\ NoDup (map sessionKey sessions).

(** The content block a request writes, if any. *)
Inductive block := Prewriting | Draft | Notes | Final.

Definition requestBlock (req : request) : option block :=
  match req with
  | PostPrewriting _ _ => Some Prewriting
  | PostDraft _ _ => Some Draft
  | PostNotes _ _ => Some Notes
  | PostFinal _ _ => Some Final
  | _ => None
  end.

(** The text and the time stamp of a block of a session. *)
Definition blockOf (b : block) (record : session) : string * Z :=
  match b with
  | Prewriting => (preText record, preSubmittedAt record)
  | Draft => (draftText record, draftSavedAt record)
  | Notes => (notesText record, notesUpdatedAt record)
  | Final => (finalText record, finalSubmittedAt record)
  end.

(** The session key and the text a request carries. *)
Definition requestKey (req : request) : string :=
  match req with
  | PostPrewriting key _ | PostDraft key _ | PostNotes key _
  | PostFinal key _ | PostAdvance key | PostAdvanceFinal key
  | PostJump key _ | PostRegress key => key
  end.

Definition requestText (req : request) : option string :=
  match req with
  | PostPrewriting _ text | PostDraft _ text | PostNotes _ text
  | PostFinal _ text => Some text
  | _ => None
  end.

(** A session of group A in the pair room, with the given partner fields. *)
Definition pairedSession (sid name partnerId partnerNm : string) : session :=
  {| sessionKey := "A|" +:+ sid;
     group := "A";
     studentId := sid;
     studentName := name;
     roomId := "r_0123456789ab";
     stage := 1;
     preText := "";
     preSubmittedAt := 0;
     draftText := "";
     draftSavedAt := 0;
     notesText := "";
     notesUpdatedAt := 0;
     finalText := "";
     finalSubmittedAt := 0;
     partnerStudentId := partnerId;
     partnerName := partnerNm;
     createdAt := 1000;
     updatedAt := 1000 |}.

(** A message of the given time, conversation and text. *)
Definition sampleMessage (ts : Z) (channel sessionId text : string)
    : chatMessage :=
  {| msg_ts := ts;
     msg_sessionId := sessionId;
     msg_roomId := "";
     msg_channel := channel;
     msg_group := "A";
     msg_senderId := "S1";
     msg_senderName := "Kim";
     msg_role := "user";
     msg_text := text |}.

(** A server with the paired sessions of S1 and S2, a message in the tutor
    conversation of each, one in their pair room, and both present. *)
Definition sampleState : serverState :=
  {| store_sessions :=
       [pairedSession "S1" "Kim" "S2" "Lee";
        pairedSession "S2" "Lee" "S1" "Kim"];
     store_messages :=
       [sampleMessage 1500 "ai" "ai:A|S1" "hello";
        sampleMessage 1600 "peer" "peer:r_0123456789ab" "hi";
        sampleMessage 1700 "ai" "ai:A|S2" "question"];
     store_matchups := [];
     presence_entries :=
       {[ presenceKey "r_0123456789ab" "S1" := 1400;
          presenceKey "r_0123456789ab" "S2" := 1450 ]} |}.

(** The messages are in the order of their time stamps: none is newer than
    a message after it. *)
Fixpoint inTimeOrder (l : list chatMessage) : Prop :=
  match l with
  | [] => True
  | m :: rest =>
      Forall (fun later => msg_ts m <= msg_ts later) rest /\ inTimeOrder rest
  end.

(** The messages of a conversation that are newer than [since]. *)
Definition inConversation (channel sessionId : string) (since : Z)
    (m : chatMessage) : Prop :=
  msg_channel m = channel /\ msg_sessionId m = sessionId /\ since < msg_ts m.

(** What a transcript shows of a message. *)
Definition viewOf (msg : chatMessage) : messageView :=
  {| view_ts := msg_ts msg;
     view_text := Js.or (msg_text msg) "";
     view_senderName := Js.or (msg_senderName msg) "";
     view_role := Js.or (msg_role msg) "" |}.

(** The body of a chat message of S1. *)
Definition sampleBody (sessionId text : string) : chatSendBody :=
  {| send_sessionId := sessionId;
     send_group := "a";
     send_userId := "S1";
     send_userName := "Kim";
     send_role := "";
     send_text := text;
     send_roomId := "" |}.

(** A pairing of the roster as [normalizeRosterPayload] keeps it: names and
    ids are trimmed and neither id is empty. *)
Definition pairingNormal (pair : rosterPairing) : Prop :=
  person_id (pairing_primary pair) <> ""
  /\ person_id (pairing_partner pair) <> ""
  /\ Js.trim (person_id (pairing_primary pair))
     = person_id (pairing_primary pair)
  /\ Js.trim (person_id (pairing_partner pair))
     = person_id (pairing_partner pair)
  /\ Js.trim (person_name (pairing_primary pair))
     = person_name (pairing_primary pair)
  /\ Js.trim (person_name (pairing_partner pair))
     = person_name (pairing_partner pair).

(** The id is, up to the case of its letters, the id of a student of the
    list. *)
Definition knownStudent (students : list rosterPerson) (id : string) : Prop :=
  exists student : rosterPerson,
    student ∈ students
    /\ JsText.toLowerCase (person_id student) = JsText.toLowerCase id.

(** A roster of two students of group A and their pairing, as uploaded. *)
Definition sampleRosterStudents : list rosterPerson :=
  [{| person_id := " a01"; person_name := "Kim " |};
   {| person_id := "A02"; person_name := "Lee" |}].

Definition sampleRosterPairings : list rosterPairing :=
  [{| pairing_primary := {| person_id := "A01 "; person_name := "Kim" |};
      pairing_partner := {| person_id := "A02"; person_name := "Lee" |} |}].

(** The second session continues the first with its prewriting: same key,
    same prewriting text and submission time. *)
Definition samePrewriting (record record' : session) : Prop :=
  sessionKey record' = sessionKey record
  /\ preText record' = preText record
  /\ preSubmittedAt record' = preSubmittedAt record.

(** Every session of the first store with a prewriting is continued in the
    second. *)
Definition prewritingsKept (sessions sessions' : list session) : Prop :=
  forall record : session,
    record ∈ sessions -> preText record <> "" ->
    exists record' : session,
      record' ∈ sessions' /\ samePrewriting record record'.

(** The call is no bulk deletion. *)
Definition keepsSessions (call : apiCall) : Prop :=
  match call with
  | AdminBulkDelete _ => False
  | _ => True
  end.

(** * Properties *)

(** ** Strings *)

Lemma truthy_true (s : string) : Js.truthy s = true <-> s <> "".
Proof.
  unfold Js.truthy. destruct (String.eqb_spec s ""); simpl; split;
    intros; congruence.
Qed.

Lemma truthy_false (s : string) : Js.truthy s = false <-> s = "".
Proof.
  unfold Js.truthy. destruct (String.eqb_spec s ""); simpl; split;
    intros; congruence.
Qed.

Lemma or_truthy (a b : string) : a <> "" -> Js.or a b = a.
Proof. intros H. unfold Js.or. apply truthy_true in H. now rewrite H. Qed.

Lemma lt_asym (a b : string) : Js.lt a b = true -> Js.lt b a = false.
Proof.
  unfold Js.lt, String.ltb. rewrite (String.compare_antisym b a).
  destruct (String.compare a b); simpl; congruence.
Qed.

Lemma lt_connected (a b : string) :
  Js.lt a b = false -> Js.lt b a = false -> a = b.
Proof.
  unfold Js.lt, String.ltb. rewrite (String.compare_antisym b a).
  destruct (String.compare a b) eqn:E; simpl; try congruence.
  intros _ _. now apply String.compare_eq_iff.
Qed.

Lemma lt_leb (a b : string) : Js.lt a b = true -> String.leb a b = true.
Proof.
  unfold Js.lt, String.ltb, String.leb.
  destruct (String.compare a b); congruence.
Qed.

Lemma not_lt_leb (a b : string) : Js.lt a b = false -> String.leb b a = true.
Proof.
  unfold Js.lt, String.ltb, String.leb. rewrite (String.compare_antisym b a).
  destruct (String.compare a b); simpl; congruence.
Qed.

(** ** Pair rooms *)

(** C3. The pair-room identifier does not depend on the order of its two
    keys: [makePairRoomId a b = makePairRoomId b a] for all strings, because
    the digest is taken of the two trimmed keys put in lexicographic order,
    the smaller one first. *)
Theorem makePairRoomId_symmetric (md5 : string -> string) (a b : string) :
  makePairRoomId md5 a b = makePairRoomId md5 b a
  /\ exists left right : string,
       String.leb left right = true
       /\ ((left = Js.trim a /\ right = Js.trim b)
           \/ (left = Js.trim b /\ right = Js.trim a))
       /\ makePairRoomId md5 a b
          = "r_" +:+ String.substring 0 12 (md5 (left +:+ "|" +:+ right)).
Proof.
  unfold makePairRoomId. split.
  - destruct (Js.lt (Js.trim a) (Js.trim b)) eqn:Hab.
    + now rewrite (lt_asym _ _ Hab).
    + destruct (Js.lt (Js.trim b) (Js.trim a)) eqn:Hba; [reflexivity|].
      now rewrite (lt_connected _ _ Hab Hba).
  - destruct (Js.lt (Js.trim a) (Js.trim b)) eqn:Hab.
    + exists (Js.trim a), (Js.trim b). split; [now apply lt_leb|]. auto.
    + exists (Js.trim b), (Js.trim a). split; [now apply not_lt_leb|]. auto.
Qed.

(** ** Session keys *)

Lemma app_cons (c : ascii) (s t : string) :
  String c s +:+ t = String c (s +:+ t).
Proof. reflexivity. Qed.

Lemma app_empty (t : string) : "" +:+ t = t.
Proof. reflexivity. Qed.

Lemma separator_split (g1 g2 s1 s2 : string) :
  separatorFree g1 = true -> separatorFree g2 = true ->
  g1 +:+ "|" +:+ s1 = g2 +:+ "|" +:+ s2 -> g1 = g2 /\ s1 = s2.
Proof.
  revert g2. induction g1 as [|c g1 IH]; intros [|d g2] F1 F2 E;
    rewrite ?app_cons, ?app_empty in E.
  - injection E as E. auto.
  - injection E as Ec E. subst d. simpl in F2. discriminate.
  - injection E as Ec E. subst c. simpl in F1. discriminate.
  - injection E as Ec E. subst d. simpl in F1, F2.
    apply andb_prop in F1 as [_ F1]. apply andb_prop in F2 as [_ F2].
    destruct (IH g2 F1 F2 E) as [-> ->]. auto.
Qed.

Lemma buildSessionKey_ok (group id : string) :
  Js.toUpperCase group <> "" -> Js.trim id <> "" ->
  buildSessionKey group id = Ok (Js.toUpperCase group +:+ "|" +:+ Js.trim id).
Proof.
  intros Hg Hi. unfold buildSessionKey.
  apply truthy_true in Hg, Hi. now rewrite Hg, Hi.
Qed.

Lemma buildSessionKey_inv (group id k : string) :
  buildSessionKey group id = Ok k ->
  Js.toUpperCase group <> "" /\ Js.trim id <> ""
  /\ k = Js.toUpperCase group +:+ "|" +:+ Js.trim id.
Proof.
  unfold buildSessionKey.
  destruct (Js.truthy (Js.toUpperCase group)) eqn:Hg;
    destruct (Js.truthy (Js.trim id)) eqn:Hi; simpl; try discriminate.
  intros [= <-]. apply truthy_true in Hg, Hi. auto.
Qed.

Lemma upper_char_idempotent (c : ascii) :
  Js.upper_char (Js.upper_char c) = Js.upper_char c.
Proof. destruct c as [[] [] [] [] [] [] [] []]; reflexivity. Qed.

Lemma toUpperCase_idempotent (s : string) :
  Js.toUpperCase (Js.toUpperCase s) = Js.toUpperCase s.
Proof.
  induction s as [|c s IH]; simpl; [reflexivity|].
  now rewrite upper_char_idempotent, IH.
Qed.

(** ** Trimming *)

Lemma app_assoc_string (a b c : string) : (a +:+ b) +:+ c = a +:+ (b +:+ c).
Proof.
  induction a as [|x a IH]; [reflexivity|]. now rewrite !app_cons, IH.
Qed.

Lemma app_empty_r (a : string) : a +:+ "" = a.
Proof.
  induction a as [|x a IH]; [reflexivity|]. now rewrite app_cons, IH.
Qed.

Lemma rev_app_spec (s1 s2 : string) :
  String.rev_app s1 s2 = String.rev s1 +:+ s2.
Proof.
  unfold String.rev. revert s2.
  induction s1 as [|c s1 IH]; intros s2; simpl; [reflexivity|].
  rewrite (IH (String c s2)), (IH (String c "")).
  now rewrite app_assoc_string.
Qed.

Lemma string_rev_cons (c : ascii) (s : string) :
  String.rev (String c s) = String.rev s +:+ String c "".
Proof. unfold String.rev at 1. simpl. apply rev_app_spec. Qed.

Lemma string_rev_app_distr (a b : string) :
  String.rev (a +:+ b) = String.rev b +:+ String.rev a.
Proof.
  induction a as [|c a IH].
  - change (String.rev "") with "". now rewrite app_empty, app_empty_r.
  - now rewrite app_cons, !string_rev_cons, IH, app_assoc_string.
Qed.

Lemma string_rev_involutive (s : string) : String.rev (String.rev s) = s.
Proof.
  induction s as [|c s IH]; [reflexivity|].
  rewrite string_rev_cons, string_rev_app_distr, IH. reflexivity.
Qed.

(** The string does not begin with white space. *)
Lemma trimStart_fixed (s : string) :
  match s with
  | EmptyString => True
  | String c _ => Ascii.is_space c = false
  end ->
  Js.trimStart s = s.
Proof. destruct s as [|c s]; simpl; [reflexivity|]. now intros ->. Qed.

Lemma trimStart_head (s : string) :
  match Js.trimStart s with
  | EmptyString => True
  | String c _ => Ascii.is_space c = false
  end.
Proof.
  induction s as [|c s IH]; simpl; [exact I|].
  destruct (Ascii.is_space c) eqn:Hc; [exact IH | exact Hc].
Qed.

Lemma trimStart_suffix (s : string) :
  exists blank : string, s = blank +:+ Js.trimStart s.
Proof.
  induction s as [|c s [blank IH]]; simpl; [now exists ""|].
  destruct (Ascii.is_space c).
  - exists (String c blank). rewrite app_cons. now f_equal.
  - now exists "".
Qed.

Lemma trimStart_idempotent (s : string) :
  Js.trimStart (Js.trimStart s) = Js.trimStart s.
Proof. apply trimStart_fixed, trimStart_head. Qed.

(** Trimming the end of a string that does not begin with white space
    leaves one that does not either. *)
Lemma trimEnd_head (s : string) :
  Js.trimStart s = s -> Js.trimStart (Js.trimEnd s) = Js.trimEnd s.
Proof.
  intros Hs. apply trimStart_fixed. unfold Js.trimEnd.
  destruct (trimStart_suffix (String.rev s)) as [blank Hsplit].
  apply (f_equal String.rev) in Hsplit.
  rewrite string_rev_involutive, string_rev_app_distr in Hsplit.
  destruct (String.rev (Js.trimStart (String.rev s))) as [|c rest];
    [exact I|].
  rewrite app_cons in Hsplit. rewrite Hsplit in Hs.
  pose proof (trimStart_head (String c (rest +:+ String.rev blank))) as Hh.
  rewrite Hs in Hh. exact Hh.
Qed.

Lemma trim_idempotent (s : string) : Js.trim (Js.trim s) = Js.trim s.
Proof.
  unfold Js.trim.
  rewrite (trimEnd_head (Js.trimStart s)) by apply trimStart_idempotent.
  unfold Js.trimEnd. now rewrite string_rev_involutive, trimStart_idempotent.
Qed.

Lemma trim_head (s : string) :
  match Js.trim s with
  | EmptyString => True
  | String c _ => Ascii.is_space c = false
  end.
Proof.
  unfold Js.trim.
  rewrite <- (trimEnd_head (Js.trimStart s)) by apply trimStart_idempotent.
  apply trimStart_head.
Qed.

(** ** The session key *)

Lemma engine_buildSessionKey_ok (toUpperCase trim : string -> string)
    (group id : string) :
  toUpperCase group <> "" -> trim id <> "" ->
  Engine.buildSessionKey toUpperCase trim group id
  = Ok (toUpperCase group +:+ "|" +:+ trim id).
Proof.
  intros Hg Hi. unfold Engine.buildSessionKey.
  apply truthy_true in Hg, Hi. now rewrite Hg, Hi.
Qed.

Lemma engine_buildSessionKey_inv (toUpperCase trim : string -> string)
    (group id k : string) :
  Engine.buildSessionKey toUpperCase trim group id = Ok k ->
  toUpperCase group <> "" /\ trim id <> ""
  /\ k = toUpperCase group +:+ "|" +:+ trim id.
Proof.
  unfold Engine.buildSessionKey.
  destruct (Js.truthy (toUpperCase group)) eqn:Hg;
    destruct (Js.truthy (trim id)) eqn:Hi; simpl; try discriminate.
  intros [= <-]. apply truthy_true in Hg, Hi. auto.
Qed.

(** C6, as the code has it, for the upper-casing and the trimming of the
    engine, whatever they map and strip.  [buildSessionKey] upper-cases the
    group, trims the participant id, fails with the 400 error when either of
    the two is then empty and otherwise returns the two joined by the
    separator.  Equal inputs give equal results, and so do inputs with equal
    upper-cased groups and equal trimmed ids: such pairs share their key.
    Two valid pairs get the same key only if their upper-cased groups and
    trimmed ids coincide, provided neither upper-cased group contains the
    separator.  The normal forms are canonical: when upper-casing and
    trimming are idempotent, as they are in the engine, the key of the
    upper-cased group and the trimmed id is the key of the pair itself.  The
    [buildSessionKey] of the rest of this development is the instance at
    the ASCII functions. *)
Theorem buildSessionKey_normalized_injective
    (toUpperCase trim : string -> string) (g1 i1 g2 i2 : string) :
  (toUpperCase g1 = "" \/ trim i1 = "" ->
   Engine.buildSessionKey toUpperCase trim g1 i1
   = Err (createHttpError 400 MSG_KEY_REQUIRED))
  /\ (toUpperCase g1 <> "" -> trim i1 <> "" ->
      Engine.buildSessionKey toUpperCase trim g1 i1
      = Ok (toUpperCase g1 +:+ "|" +:+ trim i1))
  /\ (g1 = g2 -> i1 = i2 ->
      Engine.buildSessionKey toUpperCase trim g1 i1
      = Engine.buildSessionKey toUpperCase trim g2 i2)
  /\ (toUpperCase g1 = toUpperCase g2 -> trim i1 = trim i2 ->
      Engine.buildSessionKey toUpperCase trim g1 i1
      = Engine.buildSessionKey toUpperCase trim g2 i2)
  /\ (separatorFree (toUpperCase g1) = true ->
      separatorFree (toUpperCase g2) = true ->
      forall k : string,
        Engine.buildSessionKey toUpperCase trim g1 i1 = Ok k ->
        Engine.buildSessionKey toUpperCase trim g2 i2 = Ok k ->
        toUpperCase g1 = toUpperCase g2 /\ trim i1 = trim i2)
  /\ ((forall s : string, toUpperCase (toUpperCase s) = toUpperCase s) ->
      (forall s : string, trim (trim s) = trim s) ->
      Engine.buildSessionKey toUpperCase trim (toUpperCase g1) (trim i1)
      = Engine.buildSessionKey toUpperCase trim g1 i1)
  /\ buildSessionKey g1 i1
     = Engine.buildSessionKey Js.toUpperCase Js.trim g1 i1.
Proof.
  split; [|split; [|split; [|split; [|split; [|split]]]]].
  - intros [H|H]; unfold Engine.buildSessionKey; apply truthy_false in H;
      rewrite H; [reflexivity | now rewrite orb_true_r].
  - apply engine_buildSessionKey_ok.
  - now intros -> ->.
  - intros Hg Hi. unfold Engine.buildSessionKey. now rewrite Hg, Hi.
  - intros F1 F2 k K1 K2.
    apply engine_buildSessionKey_inv in K1 as (_ & _ & ->).
    apply engine_buildSessionKey_inv in K2 as (_ & _ & E).
    exact (separator_split _ _ _ _ F1 F2 E).
  - intros Hupper Htrim. unfold Engine.buildSessionKey.
    now rewrite Hupper, Htrim.
  - reflexivity.
Qed.

Lemma buildSessionKey_normalized_injective_witness :
  Engine.buildSessionKey Js.toUpperCase Js.trim "a" "   "
  = Err (createHttpError 400 MSG_KEY_REQUIRED)
  /\ Engine.buildSessionKey Js.toUpperCase Js.trim "a" " s1 " = Ok "A|s1"
  /\ Engine.buildSessionKey Js.toUpperCase Js.trim "a" " s1 "
     = Engine.buildSessionKey Js.toUpperCase Js.trim "a" " s1 "
  /\ Engine.buildSessionKey Js.toUpperCase Js.trim "a" " s1 "
     = Engine.buildSessionKey Js.toUpperCase Js.trim "A" "s1"
  /\ (Js.toUpperCase "a" = Js.toUpperCase "A"
      /\ Js.trim " s1 " = Js.trim "s1")
  /\ Engine.buildSessionKey Js.toUpperCase Js.trim
       (Js.toUpperCase "a") (Js.trim " s1 ")
     = Engine.buildSessionKey Js.toUpperCase Js.trim "a" " s1 ".
Proof.
  split; [|split; [|split; [|split; [|split]]]].
  - apply (proj1 (buildSessionKey_normalized_injective
                    Js.toUpperCase Js.trim "a" "   " "a" "   ")).
    right. reflexivity.
  - apply (proj1 (proj2 (buildSessionKey_normalized_injective
                           Js.toUpperCase Js.trim "a" " s1 " "A" "s1")));
      vm_compute; discriminate.
  - apply (proj1 (proj2 (proj2 (buildSessionKey_normalized_injective
                                  Js.toUpperCase Js.trim
                                  "a" " s1 " "a" " s1 "))));
      reflexivity.
  - apply (proj1 (proj2 (proj2 (proj2 (buildSessionKey_normalized_injective
                                         Js.toUpperCase Js.trim
                                         "a" " s1 " "A" "s1")))));
      reflexivity.
  - refine (proj1 (proj2 (proj2 (proj2 (proj2
              (buildSessionKey_normalized_injective
                 Js.toUpperCase Js.trim "a" " s1 " "A" "s1")))))
              _ _ "A|s1" _ _); reflexivity.
  - apply (proj1 (proj2 (proj2 (proj2 (proj2 (proj2
             (buildSessionKey_normalized_injective
                Js.toUpperCase Js.trim "a" " s1 " "A" "s1"))))))).
    + apply toUpperCase_idempotent.
    + apply trim_idempotent.
Defined.

(** C6, as stated, fails: two distinct valid pairs that differ in the case
    of the group share a key, and so do two pairs, already upper-cased and
    trimmed, that place the separator differently. *)
Lemma buildSessionKey_collision :
  (("a", "1") <> ("A", "1")
   /\ buildSessionKey "a" "1" = Ok "A|1"
   /\ buildSessionKey "A" "1" = Ok "A|1")
  /\ (("A|B", "C") <> ("A", "B|C")
      /\ buildSessionKey "A|B" "C" = Ok "A|B|C"
      /\ buildSessionKey "A" "B|C" = Ok "A|B|C").
Proof. repeat split; (reflexivity || discriminate). Qed.

(** ** Presence *)


Lemma readPresence_recorded (roomId studentId : string)
    (presenceMap : gmap string Z) (ts : Z) :
  roomId <> "" -> studentId <> "" ->
  presenceMap !! presenceKey roomId studentId = Some ts ->
  readPresence roomId studentId presenceMap = ts.
Proof.
  intros Hr Hs Hts. unfold readPresence.
  apply truthy_true in Hr, Hs. rewrite Hr, Hs, Hts. simpl.
  now destruct (Z.eqb_spec ts 0).
Qed.

Lemma readPresence_absent (roomId studentId : string)
    (presenceMap : gmap string Z) :
  presenceMap !! presenceKey roomId studentId = None ->
  readPresence roomId studentId presenceMap = 0.
Proof.
  intros Hts. unfold readPresence. rewrite Hts.
  now destruct (negb (Js.truthy roomId) || negb (Js.truthy studentId)).
Qed.



(** ** Stage handlers *)

Lemma Qltb_true (x y : Q) : Js.Qltb x y = true <-> (x < y)%Q.
Proof.
  unfold Js.Qltb. rewrite negb_true_iff. split.
  - intros H. apply Qnot_le_lt. intros Hle.
    apply Qle_bool_iff in Hle. congruence.
  - intros H. destruct (Qle_bool y x) eqn:E; [|reflexivity].
    apply Qle_bool_iff in E. lra.
Qed.

Lemma Qltb_false (x y : Q) : Js.Qltb x y = false <-> (y <= x)%Q.
Proof.
  unfold Js.Qltb. rewrite negb_false_iff. apply Qle_bool_iff.
Qed.

Lemma Qle_bool_false (x y : Q) : Qle_bool x y = false -> (y < x)%Q.
Proof.
  intros H. apply Qnot_le_lt. intros Hle.
  apply Qle_bool_iff in Hle. congruence.
Qed.

(** Turn the boolean tests on stages in the context into propositions. *)
Ltac stage_props :=
  repeat match goal with
  | H : Qeq_bool _ _ = true |- _ => apply Qeq_bool_iff in H
  | H : Qeq_bool _ _ = false |- _ => apply Qeq_bool_neq in H
  | H : Qle_bool _ _ = true |- _ => apply Qle_bool_iff in H
  | H : Qle_bool _ _ = false |- _ => apply Qle_bool_false in H
  | H : Js.Qltb _ _ = true |- _ => apply Qltb_true in H
  | H : Js.Qltb _ _ = false |- _ => apply Qltb_false in H
  end.

(** Case analysis on every test of the goal. *)
Ltac split_tests :=
  repeat match goal with
  | |- context [if ?b then _ else _] => destruct b eqn:?
  end.

Lemma desiredStage_range (n : Js.number) :
  (1 <= desiredStage n /\ desiredStage n <= 5)%Q.
Proof.
  destruct n as [q| | |]; simpl; try lra.
  split_tests; stage_props; lra.
Qed.

Ltac unfold_handlers :=
  unfold submitPrewriting, saveDraft, saveNotes, submitFinal,
    handleAdvanceToPeer, handleAdvanceToFinal, handleJump, handleRegress,
    ensureStage.

Lemma handler_stage_range (now : Z) (req : request) (record record' : session) :
  stageInRange record ->
  requestHandler now req record = Ok record' ->
  stageInRange record'.
Proof.
  intros Hr.
  destruct req as [k t|k t|k t|k t|k|k|k n|k]; simpl;
    try (pose proof (desiredStage_range n) as Hd;
         generalize dependent (desiredStage n); intros d Hd);
    unfold_handlers; split_tests; intros [= <-];
    unfold stageInRange in *; simpl; lra.
Qed.

Lemma handler_group (now : Z) (req : request) (record record' : session) :
  requestHandler now req record = Ok record' ->
  group record' = group record /\ sessionKey record' = sessionKey record
  /\ studentId record' = studentId record.
Proof.
  destruct req as [k t|k t|k t|k t|k|k|k n|k]; simpl;
    unfold_handlers; split_tests; intros [= <-]; simpl; auto.
Qed.

Lemma handler_peerStageFree (now : Z) (req : request)
    (record record' : session) :
  peerStageFree record ->
  requestHandler now req record = Ok record' ->
  peerStageFree record'.
Proof.
  intros Hr Hrun HC.
  destruct (handler_group _ _ _ _ Hrun) as (Hg & _ & _).
  rewrite Hg in HC. specialize (Hr HC). revert Hrun.
  destruct req as [k t|k t|k t|k t|k|k|k n|k]; simpl;
    try (generalize (desiredStage n); intros d);
    unfold_handlers; simpl; rewrite ?HC; simpl; rewrite ?andb_true_r;
    split_tests; intros [= <-]; simpl; stage_props;
    try discriminate; try lra.
Qed.

(** ** Requests on the store *)

Lemma findSession_lookup (key : string) (sessions : list session)
    (i : nat) (record : session) :
  findSession key sessions = Some (i, record) ->
  sessions !! i = Some record /\ sessionKey record = key.
Proof.
  unfold findSession. intros H. apply list_find_Some in H. tauto.
Qed.

Lemma onSession_store (key : string) (handler : session -> result session)
    (sessions : list session) :
  (onSession key handler sessions).1 = sessions
  \/ exists (i : nat) (record record' : session),
       sessions !! i = Some record /\ handler record = Ok record'
       /\ (onSession key handler sessions).1 = <[i := record']> sessions.
Proof.
  unfold onSession. destruct (findSession key sessions) as [[i r]|] eqn:Hf;
    [|now left].
  destruct (handler r) as [r'|e] eqn:Hh; [|now left].
  right. exists i, r, r'. apply findSession_lookup in Hf. tauto.
Qed.

Lemma serve_store (now : Z) (req : request) (sessions : list session) :
  (serve now req sessions).1 = sessions
  \/ exists (i : nat) (record record' : session),
       sessions !! i = Some record
       /\ requestHandler now req record = Ok record'
       /\ (serve now req sessions).1 = <[i := record']> sessions.
Proof.
  destruct req; simpl; unfold onSessionWithText;
    try destruct (requireText _); try (now left); apply onSession_store.
Qed.

Lemma serveAll_invariant (P : session -> Prop) :
  (forall now req record record',
      P record -> requestHandler now req record = Ok record' -> P record') ->
  forall (reqs : list (Z * request)) (sessions : list session),
    Forall P sessions -> Forall P (serveAll reqs sessions).
Proof.
  intros Hstep reqs. induction reqs as [|[now req] reqs IH];
    intros sessions Hall; simpl; [assumption|].
  apply IH.
  destruct (serve_store now req sessions) as [->|(i & r & r' & Hi & Hh & ->)];
    [assumption|].
  apply Forall_insert; [assumption|].
  eapply Hstep; [|exact Hh]. eapply Forall_lookup_1; eassumption.
Qed.

Example sampleSession_fresh :
  ensureSession sampleDigest 1000 [] [] "A" "S1" "Kim"
  = Ok (sampleSession "A" 1 "" "" "" "", [sampleSession "A" 1 "" "" "" ""]).
Proof. reflexivity. Qed.

(** C1, as the code has it. Through every run of session requests
    (prewriting, draft, notes, final, advance, advance to final, jump with
    the clamp of its route, regress) the stage of every session of the store
    stays between 1 and 5 inclusive, when it was there before the run. *)
Theorem stage_stays_in_range (reqs : list (Z * request))
    (sessions : list session) :
  Forall stageInRange sessions ->
  Forall stageInRange (serveAll reqs sessions).
Proof. apply serveAll_invariant, handler_stage_range. Qed.

Lemma stage_stays_in_range_witness :
  Forall stageInRange
    (serveAll [(2000, PostJump "A|S1" (Js.Finite 7)); (3000, PostRegress "A|S1")]
       [sampleSession "A" 1 "" "" "" ""]).
Proof.
  apply stage_stays_in_range. repeat constructor; simpl; lra.
Defined.

(** C1, as stated, fails: a jump request for stage 5 on a fresh session
    passes the clamp of the route and every test of [handleJump], and leaves
    the session at stage 5, above 4. *)
Lemma jump_reaches_stage_5 :
  serveAll [(2000, PostJump "A|S1" (Js.Finite 5))]
    [sampleSession "A" 1 "" "" "" ""]
  = [ensureStage 2000 (sampleSession "A" 1 "" "" "" "") 5]
  /\ stage (ensureStage 2000 (sampleSession "A" 1 "" "" "" "") 5) = 5%Q
  /\ ~ (stage (ensureStage 2000 (sampleSession "A" 1 "" "" "" "") 5) <= 4)%Q.
Proof.
  split; [reflexivity|]. split; [reflexivity|]. simpl. lra.
Qed.

(** C4, as the code has it. For a session of a peer-enabled group (A or B)
    whose notes text is empty, whatever its stage and draft, and so for one
    of group A at stage 1 with no draft and no notes, [handleAdvanceToFinal]
    fails with the 400 error whose message asks for the stage-3 notes (that
    test comes before the one on the draft), and the advance-final request
    leaves the store, hence the stage of the session, as it was. *)
Theorem advanceToFinal_without_notes (now : Z) (record : session)
    (key : string) (sessions : list session) (i : nat) :
  peerEnabled record = true ->
  notesText record = "" ->
  findSession key sessions = Some (i, record) ->
  handleAdvanceToFinal now record
  = Err (createHttpError 400 MSG_NOTES_REQUIRED)
  /\ serve now (PostAdvanceFinal key) sessions
     = (sessions, Err (createHttpError 400 MSG_NOTES_REQUIRED)).
Proof.
  intros Hpeer Hnotes Hfind.
  assert (Hfail : handleAdvanceToFinal now record
                  = Err (createHttpError 400 MSG_NOTES_REQUIRED)).
  { unfold handleAdvanceToFinal. unfold peerEnabled in Hpeer.
    now rewrite Hpeer, Hnotes. }
  split; [exact Hfail|].
  simpl. unfold onSession. now rewrite Hfind, Hfail.
Qed.

Lemma advanceToFinal_without_notes_witness :
  handleAdvanceToFinal 2000 (sampleSession "A" 1 "" "" "" "")
  = Err (createHttpError 400 MSG_NOTES_REQUIRED)
  /\ serve 2000 (PostAdvanceFinal "A|S1") [sampleSession "A" 1 "" "" "" ""]
     = ([sampleSession "A" 1 "" "" "" ""],
        Err (createHttpError 400 MSG_NOTES_REQUIRED)).
Proof.
  apply (advanceToFinal_without_notes 2000 (sampleSession "A" 1 "" "" "" "")
           "A|S1" [sampleSession "A" 1 "" "" "" ""] 0%nat); reflexivity.
Defined.

(** C4, as stated, fails: for the session of group A at stage 1 with empty
    draft and empty notes the error of [handleAdvanceToFinal] is not the one
    that names the draft (the stage-2 text) but the one that names the
    stage-3 notes. *)
Lemma advanceToFinal_names_notes :
  handleAdvanceToFinal 2000 (sampleSession "A" 1 "" "" "" "")
  <> Err (createHttpError 400 MSG_DRAFT_REQUIRED)
  /\ handleAdvanceToFinal 2000 (sampleSession "A" 1 "" "" "" "")
     = Err (createHttpError 400 MSG_NOTES_REQUIRED).
Proof. split; [discriminate | reflexivity]. Qed.

(** What [handleAdvanceToPeer] does, case by case: the target of a session
    at stage 2 depends on whether its group is C. *)
Lemma handleAdvanceToPeer_cases (now : Z) (record : session) :
  ((currentStage record == 2)%Q -> draftText record = "" ->
   handleAdvanceToPeer now record
   = Err (createHttpError 400 MSG_DRAFT_REQUIRED))
  /\ ((currentStage record == 2)%Q -> draftText record <> "" ->
      handleAdvanceToPeer now record
      = Ok (ensureStage now record
              (if String.eqb (Js.toUpperCase (group record)) "C"
               then 4 else 3)))
  /\ ((currentStage record == 3)%Q -> notesText record = "" ->
      handleAdvanceToPeer now record
      = Err (createHttpError 400 MSG_NOTES_REQUIRED))
  /\ ((currentStage record == 3)%Q -> notesText record <> "" ->
      handleAdvanceToPeer now record = Ok (ensureStage now record 4))
  /\ ((currentStage record < 2)%Q ->
      handleAdvanceToPeer now record = Ok (ensureStage now record 2)).
Proof.
  unfold handleAdvanceToPeer. repeat split.
  - intros Hs Hd. apply Qeq_bool_iff in Hs. now rewrite Hs, Hd.
  - intros Hs Hd. apply Qeq_bool_iff in Hs. apply truthy_true in Hd.
    rewrite Hs, Hd. simpl.
    now destruct (String.eqb (Js.toUpperCase (group record)) "C").
  - intros Hs Hn.
    destruct (Qeq_bool (currentStage record) 2) eqn:E2; stage_props; [lra|].
    apply Qeq_bool_iff in Hs. now rewrite Hs, Hn.
  - intros Hs Hn.
    destruct (Qeq_bool (currentStage record) 2) eqn:E2; stage_props; [lra|].
    apply Qeq_bool_iff in Hs. apply truthy_true in Hn. now rewrite Hs, Hn.
  - intros Hs.
    destruct (Qeq_bool (currentStage record) 2) eqn:E2; stage_props; [lra|].
    destruct (Qeq_bool (currentStage record) 3) eqn:E3; stage_props; [lra|].
    apply Qltb_true in Hs. now rewrite Hs.
Qed.

(** C7 at a group that is neither peer-enabled nor C. A session of group D
    at stage 2 with a saved draft is not peer-enabled, yet
    [handleAdvanceToPeer] moves it to stage 3 and not to stage 4: the
    handler skips the peer stage for group C only. *)
Theorem advanceToPeer_group_D_lands_at_3 :
  peerEnabled (sampleSession "D" 2 "idea" "draft" "" "") = false
  /\ handleAdvanceToPeer 2000 (sampleSession "D" 2 "idea" "draft" "" "")
     = Ok (ensureStage 2000 (sampleSession "D" 2 "idea" "draft" "" "") 3)
  /\ stage (ensureStage 2000 (sampleSession "D" 2 "idea" "draft" "" "") 3)
     = 3%Q
  /\ handleJump 2000 (sampleSession "D" 2 "idea" "draft" "" "") 3
     = Err (createHttpError 400 MSG_NO_STAGE_3).
Proof. repeat split. Qed.

(** Group C never meets the peer stage: through every run of session
    requests a session of group C that is not at stage 3 stays away from
    it. *)
Lemma group_C_skips_peer_stage (reqs : list (Z * request))
    (sessions : list session) :
  Forall peerStageFree sessions ->
  Forall peerStageFree (serveAll reqs sessions).
Proof. apply serveAll_invariant, handler_peerStageFree. Qed.

(** C5 at a group that is neither peer-enabled nor C. A session of group D
    is created by the get-or-create path; it is not peer-enabled, and the
    jump route refuses stage 3 for it; after a prewriting, a draft and one
    advance request it is at stage 3. *)
Theorem nonpeer_group_reaches_stage_3 :
  exists fresh final : session,
    ensureSession sampleDigest 1000 [] [] "D" "S1" "Kim" = Ok (fresh, [fresh])
    /\ peerEnabled fresh = false
    /\ serveAll [(2000, PostPrewriting "D|S1" "idea");
                 (3000, PostDraft "D|S1" "draft");
                 (4000, PostAdvance "D|S1")] [fresh]
       = [final]
    /\ stage final = 3%Q
    /\ group final = "D".
Proof. eexists _, _. repeat split. Qed.

(** ** Write-once blocks *)

Lemma trim_nonempty (text : string) : Js.trim text <> "" -> text <> "".
Proof. intros H ->. now apply H. Qed.

(** C2, as the code has it. When the prewriting block of a session already
    holds text, every further prewriting request is refused with a 400 error
    and leaves the store as it was; a request that carries a text is refused
    with the error that says the prewriting was already submitted.  The
    final block has no such guard: a final request with a non-blank text is
    accepted whatever the block holds, and stores the trimmed text in it. *)
Theorem prewriting_write_once_final_overwrites (now : Z) (key text : string)
    (sessions : list session) (i : nat) (record : session) :
  findSession key sessions = Some (i, record) ->
  (preText record <> "" ->
   (exists e : HttpError,
      serve now (PostPrewriting key text) sessions = (sessions, Err e)
      /\ status e = 400)
   /\ (text <> "" ->
       serve now (PostPrewriting key text) sessions
       = (sessions, Err (createHttpError 400 MSG_PRE_ALREADY))))
  /\ (Js.trim text <> "" ->
      exists record' : session,
        serve now (PostFinal key text) sessions
        = (<[i := record']> sessions, Ok record')
        /\ finalText record' = Js.trim text
        /\ preText record' = preText record
        /\ stage record' = 4%Q)
  /\ (Js.trim text = "" ->
      exists e : HttpError,
        serve now (PostFinal key text) sessions = (sessions, Err e)
        /\ status e = 400).
Proof.
  intros Hfind. split.
  - intros Hpre. apply truthy_true in Hpre.
    assert (Hguard : forall t : string,
               t <> "" ->
               serve now (PostPrewriting key t) sessions
               = (sessions, Err (createHttpError 400 MSG_PRE_ALREADY))).
    { intros t Ht. apply truthy_true in Ht. simpl.
      unfold onSessionWithText, requireText, onSession, submitPrewriting.
      now rewrite Ht, Hfind, Hpre. }
    split; [|apply Hguard].
    destruct (String.eqb_spec text "") as [->|Ht].
    + eexists. split; reflexivity.
    + eexists. split; [now apply Hguard | reflexivity].
  - split.
    + intros Htrim. pose proof (trim_nonempty _ Htrim) as Ht.
      apply truthy_true in Htrim, Ht. eexists. simpl.
      unfold onSessionWithText, requireText, onSession, submitFinal.
      rewrite Ht, Hfind, Htrim. simpl. repeat split.
    + intros Htrim. apply truthy_false in Htrim. simpl.
      unfold onSessionWithText, requireText, onSession, submitFinal.
      destruct (Js.truthy text); simpl.
      * rewrite Hfind, Htrim. simpl. eexists. split; reflexivity.
      * eexists. split; reflexivity.
Qed.

Lemma prewriting_write_once_final_overwrites_witness :
  serve 5000 (PostPrewriting "A|S1" "again")
    [sampleSession "A" 2 "idea" "" "" ""]
  = ([sampleSession "A" 2 "idea" "" "" ""],
     Err (createHttpError 400 MSG_PRE_ALREADY))
  /\ (exists record' : session,
        serve 5000 (PostFinal "A|S1" "again")
          [sampleSession "A" 2 "idea" "" "" ""]
        = (<[0%nat := record']> [sampleSession "A" 2 "idea" "" "" ""],
           Ok record')
        /\ finalText record' = Js.trim "again"
        /\ preText record' = preText (sampleSession "A" 2 "idea" "" "" "")
        /\ stage record' = 4%Q)
  /\ (exists e : HttpError,
        serve 5000 (PostFinal "A|S1" "  ")
          [sampleSession "A" 2 "idea" "" "" ""]
        = ([sampleSession "A" 2 "idea" "" "" ""], Err e)
        /\ status e = 400).
Proof.
  split; [|split].
  - apply (proj1 (prewriting_write_once_final_overwrites 5000 "A|S1" "again"
                    [sampleSession "A" 2 "idea" "" "" ""] 0%nat
                    (sampleSession "A" 2 "idea" "" "" "") eq_refl));
      discriminate.
  - apply (proj1 (proj2
             (prewriting_write_once_final_overwrites 5000 "A|S1" "again"
                [sampleSession "A" 2 "idea" "" "" ""] 0%nat
                (sampleSession "A" 2 "idea" "" "" "") eq_refl))).
    vm_compute. discriminate.
  - apply (proj2 (proj2
             (prewriting_write_once_final_overwrites 5000 "A|S1" "  "
                [sampleSession "A" 2 "idea" "" "" ""] 0%nat
                (sampleSession "A" 2 "idea" "" "" "") eq_refl))).
    reflexivity.
Defined.

(** C2, as stated, fails for the final block: on a session whose final
    block holds ["first"] after one final request, a second final request is
    answered with the record and not with an error, and the block then holds
    the new text. *)
Lemma final_resubmission_overwrites :
  exists once twice : session,
    serve 2000 (PostFinal "A|S1" "first") [sampleSession "A" 1 "" "" "" ""]
    = ([once], Ok once)
    /\ finalText once = "first"
    /\ serve 3000 (PostFinal "A|S1" "second") [once] = ([twice], Ok twice)
    /\ finalText twice = "second"
    /\ finalText twice <> finalText once.
Proof. eexists _, _. repeat split. discriminate. Qed.

(** ** Creation of sessions *)

Lemma or_nonempty (a b : string) : b <> "" -> Js.or a b <> "".
Proof.
  intros Hb. unfold Js.or. destruct (Js.truthy a) eqn:Ha; [|assumption].
  now apply truthy_true.
Qed.

Lemma makePairRoomId_nonempty (md5 : string -> string) (a b : string) :
  makePairRoomId md5 a b <> "".
Proof. unfold makePairRoomId. rewrite !app_cons. discriminate. Qed.

Lemma makeSoloRoomId_nonempty (md5 : string -> string) (g sid : string) :
  makeSoloRoomId md5 g sid <> "".
Proof. unfold makeSoloRoomId. rewrite !app_cons. discriminate. Qed.

Lemma findMatch_rows_room (md5 : string -> string)
    (upperGroup sid sname : string) (rows : list matchup) (h : partnerHint) :
  findMatch_rows md5 upperGroup sid sname rows = Some h ->
  hint_roomId h <> ""
  /\ exists row : matchup, row ∈ rows /\ hint_roomId h = roomOfRow md5 row.
Proof.
  induction rows as [|row rows IH]; simpl; [discriminate|].
  intros Hfound.
  assert (Hrest : findMatch_rows md5 upperGroup sid sname rows = Some h ->
                  hint_roomId h <> ""
                  /\ exists row' : matchup,
                       row' ∈ row :: rows
                       /\ hint_roomId h = roomOfRow md5 row').
  { intros Hr. destruct (IH Hr) as (Hne & row' & Hin & Hroom).
    split; [assumption|]. exists row'. split; [now right | assumption]. }
  destruct (Js.truthy (row_group row)
            && negb (String.eqb (Js.toUpperCase (row_group row)) upperGroup));
    [now apply Hrest|].
  match type of Hfound with
  | (if negb ?m then _ else _) = _ => destruct m
  end; simpl in Hfound; [|now apply Hrest].
  injection Hfound as <-. simpl. split.
  - apply or_nonempty, makePairRoomId_nonempty.
  - exists row. split; [now left | reflexivity].
Qed.




(** ** Partner linkage *)

Lemma resolvePartner_lookup (record : session) (payload : partnerPayload)
    (sessions : list session) (j : nat) (partnerRecord : session) :
  resolvePartner record payload sessions = Some (j, partnerRecord) ->
  sessions !! j = Some partnerRecord.
Proof.
  unfold resolvePartner, findSession.
  destruct (Js.truthy (Js.trim (payload_partnerSessionKey payload))).
  - destruct (list_find _ sessions) as [[j' q]|] eqn:Hk.
    + intros [= -> ->]. apply list_find_Some in Hk. tauto.
    + destruct (Js.truthy (Js.trim (payload_partnerId payload)));
        [|discriminate].
      intros H. apply list_find_Some in H. tauto.
  - destruct (Js.truthy (Js.trim (payload_partnerId payload)));
      [|discriminate].
    intros H. apply list_find_Some in H. tauto.
Qed.

(** The first half of C8, for every store: when [assignPartnerRecord]
    resolves the payload to a partner record with another session key, it
    succeeds, each of the two records gets the participant id of the other
    as its partner id, and both carry the same non-empty [roomId]. *)
Lemma assignPartnerRecord_links (md5 : string -> string) (now : Z)
    (i j : nat) (payload : partnerPayload) (sessions : list session)
    (P Q : session) :
  sessions !! i = Some P ->
  resolvePartner P payload sessions = Some (j, Q) ->
  sessionKey Q <> sessionKey P ->
  exists (sessions' : list session) (P' Q' : session),
    assignPartnerRecord md5 now i payload sessions = Ok sessions'
    /\ i <> j
    /\ sessions' = <[j := Q']> (<[i := P']> sessions)
    /\ sessions' !! i = Some P' /\ sessions' !! j = Some Q'
    /\ partnerStudentId P' = studentId Q
    /\ partnerStudentId Q' = studentId P
    /\ (studentId P' = studentId P /\ group P' = group P)
    /\ (studentId Q' = studentId Q /\ group Q' = group Q)
    /\ roomId P' = roomId Q'
    /\ roomId P' <> "".
Proof.
  intros Hi Hres Hkey.
  pose proof (resolvePartner_lookup _ _ _ _ _ Hres) as Hj.
  assert (Hij : i <> j).
  { intros ->. rewrite Hi in Hj. injection Hj as ->. now apply Hkey. }
  unfold assignPartnerRecord. rewrite Hi, Hres.
  apply String.eqb_neq in Hkey. rewrite Hkey.
  eexists _, _, _. split; [reflexivity|]. split; [assumption|].
  split; [reflexivity|]. split.
  { rewrite list_lookup_insert_ne by congruence.
    apply list_lookup_insert_eq. eapply lookup_lt_Some. exact Hi. }
  split.
  { apply list_lookup_insert_eq. rewrite length_insert.
    eapply lookup_lt_Some. exact Hj. }
  simpl. repeat split.
  apply or_nonempty, or_nonempty, makePairRoomId_nonempty.
Qed.

Lemma findPartner_unique (sessions : list session) (P Q : session) (j : nat) :
  uniqueIds sessions ->
  sessions !! j = Some Q ->
  group Q = group P ->
  studentId Q = partnerStudentId P ->
  findPartner P sessions = Some (j, Q).
Proof.
  intros Huniq Hj Hg Hs. unfold findPartner. apply list_find_Some.
  split; [assumption|]. split; [auto|].
  intros k y Hk Hlt [Hgy Hsy].
  assert (k = j) by (eapply Huniq; eauto; congruence).
  lia.
Qed.

Lemma uniqueIds_insert (sessions : list session) (i : nat) (s s' : session) :
  uniqueIds sessions ->
  sessions !! i = Some s ->
  group s' = group s -> studentId s' = studentId s ->
  uniqueIds (<[i := s']> sessions).
Proof.
  intros Huniq Hi Hg Hs k l a b Hk Hl Hgab Hsab.
  apply list_lookup_insert_Some in Hk as [(<- & <- & _)|(Hik & Hk)];
    apply list_lookup_insert_Some in Hl as [(<- & <- & _)|(Hil & Hl)];
    try reflexivity.
  - eapply Huniq; eauto; congruence.
  - eapply Huniq; eauto; congruence.
  - eapply Huniq; eauto.
Qed.

(** [clearPartnerRecord] always clears the side it is called on. *)
Lemma clearPartnerRecord_clears_self (now : Z) (i : nat)
    (sessions : list session) (P : session) :
  sessions !! i = Some P ->
  exists P' : session,
    clearPartnerRecord now i sessions !! i = Some P'
    /\ partnerStudentId P' = "" /\ partnerName P' = "".
Proof.
  intros Hi. unfold clearPartnerRecord. rewrite Hi.
  match goal with
  | |- context [match ?l !! i with _ => _ end] =>
      set (sessions1 := l);
      assert (Hlen : (i < length sessions1)%nat)
  end.
  { subst sessions1. apply lookup_lt_Some in Hi.
    destruct (Js.truthy (partnerStudentId P)); [|assumption].
    destruct (findPartner P sessions) as [[j q]|]; [|assumption].
    destruct (String.eqb (partnerStudentId q) (studentId P));
      [now rewrite length_insert | assumption]. }
  destruct (lookup_lt_is_Some_2 _ _ Hlen) as [r Hr]. rewrite Hr.
  eexists. split; [now apply list_lookup_insert_eq|]. auto.
Qed.

(** The second half of C8 where the lookup of [clearPartnerRecord] finds the
    partner: when that record points back, both sides are cleared. *)
Lemma clearPartnerRecord_unlinks (now : Z) (i j : nat)
    (sessions : list session) (P Q : session) :
  sessions !! i = Some P ->
  i <> j ->
  partnerStudentId P <> "" ->
  findPartner P sessions = Some (j, Q) ->
  partnerStudentId Q = studentId P ->
  exists P' Q' : session,
    clearPartnerRecord now i sessions !! i = Some P'
    /\ clearPartnerRecord now i sessions !! j = Some Q'
    /\ partnerStudentId P' = "" /\ partnerStudentId Q' = ""
    /\ studentId P' = studentId P /\ studentId Q' = studentId Q.
Proof.
  intros Hi Hij Hp Hfind Hback.
  pose proof Hfind as Hj. unfold findPartner in Hj.
  apply list_find_Some in Hj as (Hj & _ & _).
  unfold clearPartnerRecord. apply truthy_true in Hp.
  rewrite Hi, Hp, Hfind, Hback, String.eqb_refl.
  rewrite list_lookup_insert_ne by congruence. rewrite Hi.
  eexists _, _. split.
  { apply list_lookup_insert_eq. rewrite length_insert.
    eapply lookup_lt_Some. exact Hi. }
  split.
  { rewrite list_lookup_insert_ne by assumption.
    apply list_lookup_insert_eq. eapply lookup_lt_Some. exact Hj. }
  simpl. auto.
Qed.

(** C8 for partners of one group: in a store where group and participant
    id name one session, an assignment that resolves to a partner of the
    same group links the two records to each other in one room, and clearing
    the first one afterwards leaves neither of them with a partner id. *)
Lemma assign_then_clear_same_group (md5 : string -> string) (now now' : Z)
    (i j : nat) (payload : partnerPayload) (sessions : list session)
    (P Q : session) :
  uniqueIds sessions ->
  sessions !! i = Some P ->
  resolvePartner P payload sessions = Some (j, Q) ->
  sessionKey Q <> sessionKey P ->
  group Q = group P ->
  studentId Q <> "" ->
  exists (linked : list session) (P1 Q1 P2 Q2 : session),
    assignPartnerRecord md5 now i payload sessions = Ok linked
    /\ linked !! i = Some P1 /\ linked !! j = Some Q1
    /\ partnerStudentId P1 = studentId Q
    /\ partnerStudentId Q1 = studentId P
    /\ roomId P1 = roomId Q1
    /\ clearPartnerRecord now' i linked !! i = Some P2
    /\ clearPartnerRecord now' i linked !! j = Some Q2
    /\ partnerStudentId P2 = "" /\ partnerStudentId Q2 = "".
Proof.
  intros Huniq Hi Hres Hkey Hgroup Hsid.
  pose proof (resolvePartner_lookup _ _ _ _ _ Hres) as Hj.
  destruct (assignPartnerRecord_links md5 now i j payload sessions P Q
              Hi Hres Hkey)
    as (linked & P1 & Q1 & Hrun & Hij & Hlinked & Hi1 & Hj1 & HP1 & HQ1
        & (HsP & HgP) & (HsQ & HgQ) & Hroom & _).
  assert (Huniq1 : uniqueIds linked).
  { subst linked. eapply uniqueIds_insert; [| |exact HgQ|exact HsQ].
    - eapply uniqueIds_insert; eauto.
    - rewrite list_lookup_insert_ne by assumption. exact Hj. }
  assert (Hfind : findPartner P1 linked = Some (j, Q1)).
  { apply findPartner_unique; try assumption; congruence. }
  destruct (clearPartnerRecord_unlinks now' i j linked P1 Q1)
    as (P2 & Q2 & Hi2 & Hj2 & HP2 & HQ2 & _); try assumption; try congruence.
  exists linked, P1, Q1, P2, Q2. repeat split; assumption.
Qed.

(** C8 across groups. The sessions A|S1 and B|S2 are created by the
    get-or-create path and the first is assigned the second by session key:
    the two are linked to each other in one room.  Clearing the first then
    empties its own partner field only: the lookup of the partner is by group
    and participant id, finds nothing in group A, and the session B|S2 still
    names S1 as its partner. *)
Theorem clear_leaves_cross_group_partner :
  exists p q p1 q1 p2 q2 : session,
    ensureSession sampleDigest 1000 [] [] "A" "S1" "Kim" = Ok (p, [p])
    /\ ensureSession sampleDigest 2000 [] [p] "B" "S2" "Lee" = Ok (q, [p; q])
    /\ assignPartnerRecord sampleDigest 3000 0 (pairWithKey "B|S2") [p; q]
       = Ok [p1; q1]
    /\ (partnerStudentId p1 = studentId q
        /\ partnerStudentId q1 = studentId p
        /\ roomId p1 = roomId q1)
    /\ clearPartnerRecord 4000 0 [p1; q1] = [p2; q2]
    /\ partnerStudentId p2 = ""
    /\ partnerStudentId q2 = studentId p2
    /\ partnerStudentId q2 = "S1".
Proof. eexists _, _, _, _, _, _. repeat split. Qed.

(** * Further properties of the server *)

(** ** Sound stores *)

Lemma handler_frame (now : Z) (req : request) (record record' : session) :
  requestHandler now req record = Ok record' ->
  sessionKey record' = sessionKey record
  /\ group record' = group record
  /\ studentId record' = studentId record
  /\ studentName record' = studentName record
  /\ roomId record' = roomId record
  /\ partnerStudentId record' = partnerStudentId record
  /\ partnerName record' = partnerName record
  /\ createdAt record' = createdAt record.
Proof.
  destruct req as [k t|k t|k t|k t|k|k|k n|k]; simpl;
    unfold_handlers; split_tests; intros [= <-]; simpl; auto 10.
Qed.

Lemma sessionSound_handler (now : Z) (req : request)
    (record record' : session) :
  sessionSound record ->
  requestHandler now req record = Ok record' ->
  sessionSound record'.
Proof.
  intros (Hk & Hu & Hg & Hs & Hr & Hstage) Hrun.
  pose proof (handler_stage_range _ _ _ _ Hstage Hrun) as Hstage'.
  destruct (handler_frame _ _ _ _ Hrun) as (Ek & Eg & Es & _ & Er & _).
  unfold sessionSound. rewrite Ek, Eg, Es, Er. auto 10.
Qed.

Lemma storeSound_insert (sessions : list session) (i : nat)
    (record record' : session) :
  storeSound sessions ->
  sessions !! i = Some record ->
  sessionKey record' = sessionKey record ->
  sessionSound record' ->
  storeSound (<[i := record']> sessions).
Proof.
  intros [Hall Hnodup] Hi Hkey Hsound. split.
  - now apply Forall_insert.
  - change (NoDup (sessionKey <$> <[i := record']> sessions)).
    rewrite list_fmap_insert, Hkey, list_insert_id; [assumption|].
    now rewrite list_lookup_fmap, Hi.
Qed.

Lemma storeSound_lookup (sessions : list session) (i : nat)
    (record : session) :
  storeSound sessions -> sessions !! i = Some record -> sessionSound record.
Proof. intros [Hall _] Hi. eapply Forall_lookup_1; eassumption. Qed.

Lemma storeSound_serve (now : Z) (req : request) (sessions : list session) :
  storeSound sessions -> storeSound (serve now req sessions).1.
Proof.
  intros Hs.
  destruct (serve_store now req sessions)
    as [->|(i & r & r' & Hi & Hh & ->)]; [assumption|].
  eapply storeSound_insert; eauto.
  - now destruct (handler_frame _ _ _ _ Hh).
  - eapply sessionSound_handler; eauto. eapply storeSound_lookup; eauto.
Qed.

Lemma sessionSound_set_partner (id name : string) (now : Z)
    (record : session) :
  sessionSound record ->
  sessionSound (set_updatedAt now (set_partner id name record)).
Proof. intros H. exact H. Qed.

Lemma storeSound_uniqueIds (sessions : list session) :
  storeSound sessions -> uniqueIds sessions.
Proof.
  intros [Hall Hnodup] k l s t Hk Hl Hg Hs.
  destruct (Forall_lookup_1 _ _ _ _ Hall Hk) as (Ks & _).
  destruct (Forall_lookup_1 _ _ _ _ Hall Hl) as (Kt & _).
  eapply NoDup_lookup; [exact Hnodup| |].
  - rewrite list_lookup_fmap, Hk. reflexivity.
  - rewrite list_lookup_fmap, Hl. simpl. now rewrite Ks, Kt, Hg, Hs.
Qed.

Lemma findSession_None_fresh (key : string) (sessions : list session) :
  findSession key sessions = None -> key ∉ map sessionKey sessions.
Proof.
  unfold findSession. intros H. apply list_find_None in H.
  intros Hin. apply list_elem_of_fmap in Hin as (s & -> & Hin).
  rewrite Forall_forall in H. exact (H s Hin eq_refl).
Qed.

Lemma createSession_sound (md5 : string -> string) (now : Z)
    (grp sid name : string) (hint : option partnerHint) (record : session) :
  createSession md5 now grp sid name hint = Ok record ->
  sessionSound record
  /\ buildSessionKey grp sid = Ok (sessionKey record).
Proof.
  unfold createSession.
  destruct (buildSessionKey grp sid) as [key|e] eqn:Hkey; simpl;
    [|discriminate].
  intros [= <-]. split; [|reflexivity].
  apply buildSessionKey_inv in Hkey as (Hg & Hs & ->).
  unfold sessionSound, stageInRange. simpl.
  split; [reflexivity|]. split; [apply toUpperCase_idempotent|].
  split; [assumption|]. split; [assumption|]. split; [|lra].
  destruct hint as [h|].
  - apply or_nonempty, makePairRoomId_nonempty.
  - apply makeSoloRoomId_nonempty.
Qed.

Lemma ensureSession_sound (md5 : string -> string) (now : Z)
    (matchups : list matchup) (sessions sessions' : list session)
    (grp sid name : string) (record : session) :
  storeSound sessions ->
  ensureSession md5 now matchups sessions grp sid name
  = Ok (record, sessions') ->
  storeSound sessions' /\ sessionSound record.
Proof.
  intros Hs. unfold ensureSession.
  destruct (buildSessionKey grp sid) as [key|e] eqn:Hkey; simpl;
    [|discriminate].
  match goal with
  | |- context [match findSession _ _ with _ => _ end] =>
      generalize (if String.eqb (Js.toUpperCase grp) "A"
                     || String.eqb (Js.toUpperCase grp) "B"
                  then findMatchForStudent md5 matchups grp sid name
                  else None)
  end.
  intros hint.
  destruct (findSession key sessions) as [[i r]|] eqn:Hf.
  - apply findSession_lookup in Hf as [Hi _].
    pose proof (storeSound_lookup _ _ _ Hs Hi) as Hr.
    destruct Hr as (Hk & Hu & Hg & Hsid & Hroom & Hstage).
    pose proof Hroom as Htruthy. apply truthy_true in Htruthy.
    simpl. rewrite Htruthy. simpl.
    intros [= <- <-].
    assert (Hsound : sessionSound
              (set_updatedAt now
                 match hint with
                 | Some h =>
                     set_partner
                       (Js.or (hint_partnerId h)
                          (Js.or (partnerStudentId
                                    (set_studentName
                                       (Js.trim
                                          (Js.or name (Js.or (studentName r) "")))
                                       r)) ""))
                       (Js.or (hint_partnerName h)
                          (Js.or (partnerName
                                    (set_studentName
                                       (Js.trim
                                          (Js.or name (Js.or (studentName r) "")))
                                       r)) ""))
                       (set_studentName
                          (Js.trim (Js.or name (Js.or (studentName r) ""))) r)
                 | None =>
                     set_studentName
                       (Js.trim (Js.or name (Js.or (studentName r) ""))) r
                 end)).
    { unfold sessionSound, stageInRange. destruct hint; simpl; auto 10. }
    split; [|exact Hsound].
    eapply storeSound_insert; eauto. destruct hint; reflexivity.
  - destruct (createSession md5 now grp sid name hint) as [r|e] eqn:Hc;
      simpl; [|discriminate].
    intros [= <- <-].
    destruct (createSession_sound _ _ _ _ _ _ _ Hc) as [Hr Hk].
    rewrite Hkey in Hk. injection Hk as Hk.
    split; [|exact Hr]. destruct Hs as [Hall Hnodup]. split.
    + apply Forall_app. split; [assumption|]. now constructor.
    + change (NoDup (sessionKey <$> sessions ++ [r])).
      rewrite fmap_app. apply NoDup_app. split; [assumption|]. split.
      * intros x Hx Hx'. apply list_elem_of_singleton in Hx'. subst x.
        apply (findSession_None_fresh _ _ Hf). now rewrite Hk.
      * apply NoDup_singleton.
Qed.

Lemma storeSound_assign (md5 : string -> string) (now : Z) (i : nat)
    (payload : partnerPayload) (sessions sessions' : list session) :
  storeSound sessions ->
  assignPartnerRecord md5 now i payload sessions = Ok sessions' ->
  storeSound sessions'.
Proof.
  intros Hs. unfold assignPartnerRecord.
  destruct (sessions !! i) as [P|] eqn:Hi; [|now intros [= <-]].
  pose proof (storeSound_lookup _ _ _ Hs Hi) as HP.
  destruct (resolvePartner P payload sessions) as [[j Q]|] eqn:Hres.
  - pose proof (resolvePartner_lookup _ _ _ _ _ Hres) as Hj.
    pose proof (storeSound_lookup _ _ _ Hs Hj) as HQ.
    destruct (String.eqb (sessionKey Q) (sessionKey P)) eqn:Hkey;
      [discriminate|].
    intros [= <-].
    assert (Hij : i <> j).
    { intros ->. rewrite Hi in Hj. injection Hj as ->.
      now rewrite String.eqb_refl in Hkey. }
    destruct HP as (Pk & Pu & Pg & Ps & Pr & Pstage).
    destruct HQ as (Qk & Qu & Qg & Qs & Qr & Qstage).
    eapply storeSound_insert;
      [eapply storeSound_insert; [exact Hs|exact Hi|reflexivity|]
      |rewrite list_lookup_insert_ne by assumption; exact Hj
      |reflexivity|].
    + unfold sessionSound, stageInRange. simpl. repeat split; try assumption;
        try apply Pstage.
      now rewrite (or_truthy _ _ Pr).
    + unfold sessionSound, stageInRange. simpl. repeat split; try assumption;
        try apply Qstage.
      now rewrite (or_truthy _ _ Pr).
  - intros [= <-]. eapply storeSound_insert; eauto.
Qed.

Lemma storeSound_clear (now : Z) (i : nat) (sessions : list session) :
  storeSound sessions -> storeSound (clearPartnerRecord now i sessions).
Proof.
  intros Hs. unfold clearPartnerRecord.
  destruct (sessions !! i) as [P|] eqn:Hi; [|assumption].
  match goal with
  | |- context [match ?l !! i with _ => _ end] =>
      set (sessions1 := l); assert (Hs1 : storeSound sessions1)
  end.
  { subst sessions1. destruct (Js.truthy (partnerStudentId P)); [|assumption].
    destruct (findPartner P sessions) as [[j Q]|] eqn:Hf; [|assumption].
    destruct (String.eqb (partnerStudentId Q) (studentId P)); [|assumption].
    unfold findPartner in Hf. apply list_find_Some in Hf as (Hj & _ & _).
    eapply storeSound_insert; eauto.
    exact (storeSound_lookup _ _ _ Hs Hj). }
  destruct (sessions1 !! i) as [P1|] eqn:Hi1; [|assumption].
  eapply storeSound_insert; eauto.
  exact (storeSound_lookup _ _ _ Hs1 Hi1).
Qed.

Lemma storeSound_delete (keys : list string) (st : serverState) :
  storeSound (store_sessions st) ->
  storeSound (store_sessions (deleteSessionsByKeys keys st).2).
Proof.
  intros [Hall Hnodup]. unfold deleteSessionsByKeys.
  destruct (bool_decide (size (deletionKeySet keys) = 0%nat)); simpl;
    [now split|].
  match goal with
  | |- storeSound (map ?f ?l) => set (clean := f); set (kept := l)
  end.
  assert (Hkey : forall r, sessionKey (clean r) = sessionKey r).
  { intros r. unfold clean. now destruct (bool_decide _). }
  split.
  - apply Forall_fmap. apply Forall_forall. intros r Hr.
    subst kept. apply list_elem_of_filter in Hr as [_ Hr].
    rewrite Forall_forall in Hall. specialize (Hall r Hr).
    unfold compose, clean. now destruct (bool_decide _).
  - rewrite map_map. rewrite (map_ext _ sessionKey Hkey).
    eapply sublist_NoDup; [exact Hnodup|].
    apply fmap_sublist. subst kept. apply sublist_filter.
Qed.

Lemma storeSound_handleCall (md5 : string -> string) (now : Z)
    (call : apiCall) (st : serverState) :
  storeSound (store_sessions st) ->
  storeSound (store_sessions (handleCall md5 now call st)).
Proof.
  intros Hs. destruct call as [g s n|req|k|k|ch body|k p|k|keys|studs pairs];
    simpl.
  - unfold postSessionStart. destruct (requireBodyFields _); [|assumption].
    destruct (ensureSession md5 now (store_matchups st) (store_sessions st)
                g s n) as [[r sessions']|e] eqn:He; [|assumption].
    simpl. now destruct (ensureSession_sound _ _ _ _ _ _ _ _ _ Hs He).
  - now apply storeSound_serve.
  - unfold postPresenceTouch.
    destruct (findSession k (store_sessions st)) as [[i r]|]; [|assumption].
    now destruct (touchPresence now (roomId r) (studentId r)
                    (presence_entries st)).
  - unfold postPresenceLeave.
    now destruct (findSession k (store_sessions st)) as [[i r]|].
  - assumption.
  - unfold adminAssignPartner.
    destruct (findSession k (store_sessions st)) as [[i r]|]; [|assumption].
    destruct (assignPartnerRecord md5 now i p (store_sessions st))
      as [sessions'|e] eqn:Ha; [|assumption].
    simpl. eapply storeSound_assign; eauto.
  - unfold adminClearPartner.
    destruct (findSession k (store_sessions st)) as [[i r]|]; [|assumption].
    simpl. now apply storeSound_clear.
  - unfold adminBulkDelete. destruct keys as [|key keys]; [assumption|].
    pose proof (storeSound_delete (key :: keys) st Hs) as Hd.
    now destruct (deleteSessionsByKeys (key :: keys) st).
  - unfold adminPostRoster.
    now destruct (normalizeRosterPayload studs pairs).
Qed.

(** X1. Every state the server reaches from a sound store, and so every
    state it reaches from the empty one, through any calls (session start,
    session requests, presence, chat, partner assignment and clearing, bulk
    deletion, roster upload) has a sound store: each session has the key
    [group|id] of its upper-cased non-empty group and non-empty participant
    id, a non-empty room and a stage from 1 to 5, and no two sessions share a
    key or share group and participant id. *)
Theorem reachable_stores_sound (md5 : string -> string)
    (calls : list (Z * apiCall)) (st : serverState) :
  storeSound (store_sessions st) ->
  storeSound (store_sessions (handleCalls md5 calls st))
  /\ uniqueIds (store_sessions (handleCalls md5 calls st)).
Proof.
  revert st. induction calls as [|[now call] calls IH]; intros st Hs; simpl.
  - split; [assumption | now apply storeSound_uniqueIds].
  - apply IH. now apply storeSound_handleCall.
Qed.

Lemma reachable_stores_sound_witness :
  storeSound
    (store_sessions
       (handleCalls sampleDigest
          [(1000, SessionStart "a" " S1 " "Kim");
           (2000, SessionStart "A" "S2" "Lee");
           (3000, AdminAssignPartner "A|S1" (pairWithKey "A|S2"));
           (4000, SessionRequest (PostJump "A|S2" (Js.Finite 9)));
           (5000, AdminBulkDelete ["A|S1"])]
          initialState))
  /\ uniqueIds
       (store_sessions
          (handleCalls sampleDigest
             [(1000, SessionStart "a" " S1 " "Kim");
              (2000, SessionStart "A" "S2" "Lee");
              (3000, AdminAssignPartner "A|S1" (pairWithKey "A|S2"));
              (4000, SessionRequest (PostJump "A|S2" (Js.Finite 9)));
              (5000, AdminBulkDelete ["A|S1"])]
             initialState)).
Proof.
  apply reachable_stores_sound. split; constructor.
Defined.

(** ** Get or create *)

Lemma findSession_insert (key : string) (sessions : list session) (i : nat)
    (record record' : session) :
  findSession key sessions = Some (i, record) ->
  sessionKey record' = key ->
  findSession key (<[i := record']> sessions) = Some (i, record').
Proof.
  unfold findSession. intros Hf Hk. apply list_find_Some in Hf as (Hi & _ & Hlt).
  apply list_find_Some. split.
  - apply list_lookup_insert_eq. eapply lookup_lt_Some. exact Hi.
  - split; [assumption|]. intros j y Hj Hji.
    rewrite list_lookup_insert_ne in Hj by lia. eapply Hlt; eauto.
Qed.

Lemma findSession_snoc (key : string) (sessions : list session)
    (record : session) :
  findSession key sessions = None ->
  sessionKey record = key ->
  findSession key (sessions ++ [record]) = Some (length sessions, record).
Proof.
  unfold findSession. intros Hf Hk. apply list_find_Some. split.
  - now rewrite lookup_app_r, Nat.sub_diag by lia.
  - split; [assumption|]. intros j y Hj Hlt.
    rewrite lookup_app_l in Hj by assumption.
    apply list_find_None in Hf. rewrite Forall_forall in Hf.
    apply Hf. eapply list_elem_of_lookup_2. exact Hj.
Qed.

(** Where a call of [ensureSession] leaves its record. *)
Lemma ensureSession_position (md5 : string -> string) (now : Z)
    (matchups : list matchup) (sessions sessions' : list session)
    (grp sid name : string) (record : session) :
  ensureSession md5 now matchups sessions grp sid name
  = Ok (record, sessions') ->
  exists (key : string) (i : nat),
    buildSessionKey grp sid = Ok key
    /\ sessionKey record = key
    /\ findSession key sessions' = Some (i, record)
    /\ (length sessions <= length sessions' <= S (length sessions))%nat.
Proof.
  unfold ensureSession.
  destruct (buildSessionKey grp sid) as [key|e] eqn:Hkey; simpl;
    [|discriminate].
  generalize (if String.eqb (Js.toUpperCase grp) "A"
                 || String.eqb (Js.toUpperCase grp) "B"
              then findMatchForStudent md5 matchups grp sid name
              else None).
  intros hint.
  destruct (findSession key sessions) as [[i r]|] eqn:Hf.
  - intros [= <- <-]. exists key, i. split; [reflexivity|].
    pose proof (findSession_lookup _ _ _ _ Hf) as [_ Hk].
    assert (Hk' : forall r0 : session,
               sessionKey r0 = key ->
               sessionKey
                 (set_updatedAt now
                    match hint with
                    | Some h =>
                        set_partner
                          (Js.or (hint_partnerId h)
                             (Js.or (partnerStudentId r0) ""))
                          (Js.or (hint_partnerName h)
                             (Js.or (partnerName r0) "")) r0
                    | None => r0
                    end) = key).
    { intros r0 H0. now destruct hint. }
    match goal with
    | |- sessionKey ?x = key /\ _ => assert (Hx : sessionKey x = key)
    end.
    { apply Hk'. now destruct (negb (Js.truthy (roomId _))). }
    split; [exact Hx|]. split; [now apply (findSession_insert _ _ _ r)|].
    rewrite length_insert. lia.
  - destruct (createSession md5 now grp sid name hint) as [r|e] eqn:Hc;
      simpl; [|discriminate].
    intros [= <- <-]. exists key, (length sessions).
    destruct (createSession_sound _ _ _ _ _ _ _ Hc) as [_ Hk].
    rewrite Hkey in Hk. injection Hk as Hk.
    split; [reflexivity|]. split; [now symmetry|].
    split; [now apply findSession_snoc|].
    rewrite length_app. simpl. lia.
Qed.

Lemma or_empty (a : string) : Js.or a "" = a.
Proof.
  unfold Js.or. destruct (Js.truthy a) eqn:Ha; [reflexivity|].
  apply truthy_false in Ha. now subst.
Qed.

Lemma or_absorb (a b : string) : Js.or a (Js.or (Js.or a b) "") = Js.or a b.
Proof.
  rewrite or_empty. unfold Js.or.
  now destruct (Js.truthy a).
Qed.

Lemma set_studentName_same (record : session) :
  set_studentName (studentName record) record = record.
Proof. now destruct record. Qed.

Lemma set_partner_same (record : session) :
  set_partner (partnerStudentId record) (partnerName record) record = record.
Proof. now destruct record. Qed.

(** What a call of [ensureSession] guarantees of the record it returns,
    [hint] being the declaration it looked up. *)
Lemma ensureSession_record (md5 : string -> string) (now : Z)
    (matchups : list matchup) (sessions sessions' : list session)
    (grp sid name : string) (record : session) :
  ensureSession md5 now matchups sessions grp sid name
  = Ok (record, sessions') ->
  roomId record <> ""
  /\ (name <> "" -> studentName record = Js.trim name)
  /\ match
       (if String.eqb (Js.toUpperCase grp) "A"
           || String.eqb (Js.toUpperCase grp) "B"
        then findMatchForStudent md5 matchups grp sid name
        else None)
     with
     | Some h =>
         Js.or (hint_partnerId h) (Js.or (partnerStudentId record) "")
         = partnerStudentId record
         /\ Js.or (hint_partnerName h) (Js.or (partnerName record) "")
            = partnerName record
     | None => True
     end.
Proof.
  unfold ensureSession.
  destruct (buildSessionKey grp sid) as [key|e] eqn:Hkey; simpl;
    [|discriminate].
  destruct (if String.eqb (Js.toUpperCase grp) "A"
               || String.eqb (Js.toUpperCase grp) "B"
            then findMatchForStudent md5 matchups grp sid name
            else None) as [h|] eqn:Hhint.
  - assert (Hroom : hint_roomId h <> "").
    { destruct (String.eqb (Js.toUpperCase grp) "A"
                || String.eqb (Js.toUpperCase grp) "B"); [|discriminate].
      now destruct (findMatch_rows_room _ _ _ _ _ _ Hhint). }
    destruct (findSession key sessions) as [[i r]|] eqn:Hf.
    + intros [= <- <-]. simpl. split; [|split; [|split]].
      * destruct (Js.truthy (roomId r)) eqn:Hr; simpl.
        -- now apply truthy_true.
        -- now rewrite (or_truthy _ _ Hroom).
      * intros Hn. destruct (negb (Js.truthy (roomId r)));
          simpl; now rewrite (or_truthy _ _ Hn).
      * destruct (negb (Js.truthy (roomId r))); simpl; apply or_absorb.
      * destruct (negb (Js.truthy (roomId r))); simpl; apply or_absorb.
    + unfold createSession. rewrite Hkey. simpl. intros [= <- <-]. simpl.
      split; [now rewrite (or_truthy _ _ Hroom)|]. split; [reflexivity|].
      rewrite !or_empty. unfold Js.or.
      split; [now destruct (Js.truthy (hint_partnerId h))
             |now destruct (Js.truthy (hint_partnerName h))].
  - destruct (findSession key sessions) as [[i r]|] eqn:Hf.
    + intros [= <- <-]. simpl. split; [|split; [|exact I]].
      * destruct (Js.truthy (roomId r)) eqn:Hr; simpl.
        -- now apply truthy_true.
        -- apply makeSoloRoomId_nonempty.
      * intros Hn. destruct (negb (Js.truthy (roomId r)));
          simpl; now rewrite (or_truthy _ _ Hn).
    + unfold createSession. rewrite Hkey. simpl. intros [= <- <-]. simpl.
      split; [apply makeSoloRoomId_nonempty|]. split; [reflexivity|exact I].
Qed.

(** X2. [ensureSession] is idempotent: when a call with a non-empty name
    (as the start route requires) has returned a record, the same call again
    on the store it left, with the same pairing table, returns that record
    with nothing but [updatedAt] changed, and adds no session. *)
Theorem ensureSession_idempotent (md5 : string -> string) (t1 t2 : Z)
    (matchups : list matchup) (sessions sessions1 : list session)
    (grp sid name : string) (record : session) :
  name <> "" ->
  ensureSession md5 t1 matchups sessions grp sid name
  = Ok (record, sessions1) ->
  exists i : nat,
    sessions1 !! i = Some record
    /\ ensureSession md5 t2 matchups sessions1 grp sid name
       = Ok (set_updatedAt t2 record,
             <[i := set_updatedAt t2 record]> sessions1).
Proof.
  intros Hname Hfirst.
  destruct (ensureSession_position _ _ _ _ _ _ _ _ _ Hfirst)
    as (key & i & Hkey & Hk & Hfind & _).
  destruct (ensureSession_record _ _ _ _ _ _ _ _ _ Hfirst)
    as (Hroom & Hnm & Hhint).
  specialize (Hnm Hname).
  exists i. split; [now apply findSession_lookup in Hfind|].
  unfold ensureSession. rewrite Hkey. simpl. rewrite Hfind.
  apply truthy_true in Hroom.
  assert (Hsame : set_studentName
                    (Js.trim (Js.or name (Js.or (studentName record) "")))
                    record = record).
  { rewrite (or_truthy _ _ Hname), <- Hnm. apply set_studentName_same. }
  rewrite Hsame. rewrite Hroom. simpl.
  destruct (if String.eqb (Js.toUpperCase grp) "A"
               || String.eqb (Js.toUpperCase grp) "B"
            then findMatchForStudent md5 matchups grp sid name
            else None) as [h|]; [|reflexivity].
  destruct Hhint as [-> ->]. now rewrite set_partner_same.
Qed.

Lemma ensureSession_idempotent_witness :
  exists i : nat,
    [sampleSession "A" 1 "" "" "" ""] !! i
    = Some (sampleSession "A" 1 "" "" "" "")
    /\ ensureSession sampleDigest 7000 [] [sampleSession "A" 1 "" "" "" ""]
         "A" "S1" "Kim"
       = Ok (set_updatedAt 7000 (sampleSession "A" 1 "" "" "" ""),
             <[i := set_updatedAt 7000 (sampleSession "A" 1 "" "" "" "")]>
               [sampleSession "A" 1 "" "" "" ""]).
Proof.
  apply (ensureSession_idempotent sampleDigest 1000 7000 [] [] _
           "A" "S1" "Kim").
  - discriminate.
  - reflexivity.
Defined.

Lemma toUpperCase_empty (s : string) : Js.toUpperCase s = "" <-> s = "".
Proof. destruct s; simpl; split; intros; congruence. Qed.

Lemma requireBodyFields_start (grp sid name : string) :
  grp <> "" -> sid <> "" -> name <> "" ->
  requireBodyFields [("group", grp); ("studentId", sid);
                     ("studentName", name)] = Ok tt.
Proof.
  intros Hg Hs Hn. apply truthy_true in Hg, Hs, Hn. simpl.
  now rewrite Hg, Hs, Hn.
Qed.

Lemma requireBodyFields_start_inv (grp sid name : string) (u : unit) :
  requireBodyFields [("group", grp); ("studentId", sid);
                     ("studentName", name)] = Ok u ->
  grp <> "" /\ sid <> "" /\ name <> "".
Proof.
  simpl. destruct (Js.truthy grp) eqn:Hg; simpl; [|discriminate].
  destruct (Js.truthy sid) eqn:Hs; simpl; [|discriminate].
  destruct (Js.truthy name) eqn:Hn; simpl; [|discriminate].
  intros _. apply truthy_true in Hg, Hs, Hn. auto.
Qed.

(** X3. Starting a session again resumes it: for a participant whose
    session exists, a start request with a non-empty name answers with that
    session, its stage, its four content blocks and their time stamps, its
    key, group, participant id, creation time and its non-empty room
    unchanged; the display name becomes the trimmed name of the request and
    [updatedAt] the time of the request; no session is added and messages,
    pairing table and presence are untouched. *)
Theorem session_start_resumes (md5 : string -> string) (now : Z)
    (grp sid name key : string) (st : serverState) (i : nat)
    (old : session) :
  buildSessionKey grp sid = Ok key ->
  name <> "" ->
  findSession key (store_sessions st) = Some (i, old) ->
  exists record : session,
    postSessionStart md5 now grp sid name st
    = (with_sessions (<[i := record]> (store_sessions st)) st, Ok record)
    /\ (sessionKey record = sessionKey old /\ group record = group old
        /\ studentId record = studentId old
        /\ createdAt record = createdAt old)
    /\ stage record = stage old
    /\ (preText record = preText old
        /\ preSubmittedAt record = preSubmittedAt old)
    /\ (draftText record = draftText old
        /\ draftSavedAt record = draftSavedAt old)
    /\ (notesText record = notesText old
        /\ notesUpdatedAt record = notesUpdatedAt old)
    /\ (finalText record = finalText old
        /\ finalSubmittedAt record = finalSubmittedAt old)
    /\ (roomId old <> "" -> roomId record = roomId old)
    /\ studentName record = Js.trim name
    /\ updatedAt record = now.
Proof.
  intros Hkey Hname Hfind.
  pose proof (buildSessionKey_inv _ _ _ Hkey) as (Hg & Hs & _).
  assert (Hg' : grp <> "") by (intros ->; now apply Hg).
  assert (Hs' : sid <> "") by (intros ->; now apply Hs).
  unfold postSessionStart.
  rewrite (requireBodyFields_start _ _ _ Hg' Hs' Hname).
  unfold ensureSession. rewrite Hkey. simpl. rewrite Hfind.
  generalize (if String.eqb (Js.toUpperCase grp) "A"
                 || String.eqb (Js.toUpperCase grp) "B"
              then findMatchForStudent md5 (store_matchups st) grp sid name
              else None).
  intros hint. eexists. split; [reflexivity|].
  rewrite (or_truthy _ _ Hname).
  destruct hint as [h|]; destruct (Js.truthy (roomId old)) eqn:Hr; simpl;
    repeat split; try reflexivity; intros Hroom;
    apply truthy_true in Hroom; congruence.
Qed.

Lemma session_start_resumes_witness :
  exists record : session,
    postSessionStart sampleDigest 9000 "a" " S1" "Kim Minji"
      (with_sessions [sampleSession "A" 3 "idea" "draft" "" ""] initialState)
    = (with_sessions
         (<[0%nat := record]> [sampleSession "A" 3 "idea" "draft" "" ""])
         (with_sessions [sampleSession "A" 3 "idea" "draft" "" ""]
            initialState),
       Ok record)
    /\ stage record = 3%Q
    /\ draftText record = "draft"
    /\ studentName record = "Kim Minji".
Proof.
  destruct (session_start_resumes sampleDigest 9000 "a" " S1" "Kim Minji"
              "A|S1"
              (with_sessions [sampleSession "A" 3 "idea" "draft" "" ""]
                 initialState)
              0%nat (sampleSession "A" 3 "idea" "draft" "" "")
              eq_refl ltac:(discriminate) eq_refl)
    as (record & Hrun & _ & Hstage & _ & (Hdraft & _) & _ & _ & _ & Hn & _).
  exists record. auto.
Defined.

(** X4. A session start that succeeds leaves its record where
    [findSession] finds it under its key, which is the key of the request;
    it adds at most one session and touches neither messages nor pairing
    table nor presence.  A start whose group, participant id or name is
    empty, or whose participant id is blank, is refused with a 400 error
    and changes nothing. *)
Theorem session_start_then_find (md5 : string -> string) (now : Z)
    (grp sid name : string) (st : serverState) :
  (forall (st' : serverState) (record : session),
      postSessionStart md5 now grp sid name st = (st', Ok record) ->
      buildSessionKey grp sid = Ok (sessionKey record)
      /\ (exists i : nat,
             findSession (sessionKey record) (store_sessions st')
             = Some (i, record))
      /\ (length (store_sessions st) <= length (store_sessions st')
          <= S (length (store_sessions st)))%nat
      /\ store_messages st' = store_messages st
      /\ store_matchups st' = store_matchups st
      /\ presence_entries st' = presence_entries st)
  /\ (grp = "" \/ sid = "" \/ name = "" \/ Js.trim sid = "" ->
      exists e : HttpError,
        postSessionStart md5 now grp sid name st = (st, Err e)
        /\ status e = 400).
Proof.
  split.
  - intros st' record. unfold postSessionStart.
    destruct (requireBodyFields _) as [u|e]; [|discriminate].
    destruct (ensureSession md5 now (store_matchups st) (store_sessions st)
                grp sid name) as [[r sessions']|e] eqn:He; [|discriminate].
    intros [= <- <-].
    destruct (ensureSession_position _ _ _ _ _ _ _ _ _ He)
      as (key & i & Hkey & Hk & Hfind & Hlen).
    simpl. rewrite Hk. repeat split; try assumption; try lia.
    exists i. assumption.
  - intros Hbad. unfold postSessionStart.
    destruct (requireBodyFields _) as [u|e] eqn:Hreq.
    + apply requireBodyFields_start_inv in Hreq as (Hg & Hs & Hn).
      destruct Hbad as [?|[?|[?|Htrim]]]; try contradiction.
      unfold ensureSession, buildSessionKey.
      apply truthy_false in Htrim. rewrite Htrim, orb_true_r. simpl.
      eexists. split; reflexivity.
    + exists e. split; [reflexivity|]. revert Hreq. simpl.
      destruct (Js.truthy grp); simpl; [|now intros [= <-]].
      destruct (Js.truthy sid); simpl; [|now intros [= <-]].
      destruct (Js.truthy name); simpl; [discriminate|now intros [= <-]].
Qed.

Lemma session_start_then_find_witness :
  (exists i : nat,
      findSession "A|S1"
        (store_sessions
           (postSessionStart sampleDigest 1000 "A" "S1" "Kim" initialState).1)
      = Some (i, sampleSession "A" 1 "" "" "" ""))
  /\ exists e : HttpError,
       postSessionStart sampleDigest 1000 "A" "   " "Kim" initialState
       = (initialState, Err e)
       /\ status e = 400.
Proof.
  split.
  - apply (proj1 (session_start_then_find sampleDigest 1000 "A" "S1" "Kim"
                    initialState)
             (postSessionStart sampleDigest 1000 "A" "S1" "Kim"
                initialState).1
             (sampleSession "A" 1 "" "" "" "") eq_refl).
  - apply (proj2 (session_start_then_find sampleDigest 1000 "A" "   " "Kim"
                    initialState)).
    right. right. right. reflexivity.
Defined.

(** ** Declared pairs *)

Lemma findMatch_first_row (md5 : string -> string) (row : matchup)
    (rest : list matchup) (grp sid name : string) :
  row_group row = "" \/ Js.toUpperCase (row_group row) = Js.toUpperCase grp ->
  Js.trim sid <> "" ->
  Js.trim sid = Js.trim (row_studentIdA row)
  \/ Js.trim sid = Js.trim (row_studentIdB row) ->
  findMatchForStudent md5 (row :: rest) grp sid name
  = Some {| hint_roomId := roomOfRow md5 row;
            hint_partnerId :=
              if String.eqb (Js.trim (row_studentIdA row)) (Js.trim sid)
              then Js.trim (row_studentIdB row)
              else Js.trim (row_studentIdA row);
            hint_partnerName :=
              if String.eqb (Js.trim (row_studentIdA row)) (Js.trim sid)
              then Js.trim (row_nameB row)
              else Js.trim (row_nameA row);
            hint_keyA :=
              Js.or (Js.trim (row_studentIdA row)) (Js.trim (row_nameA row));
            hint_keyB :=
              Js.or (Js.trim (row_studentIdB row)) (Js.trim (row_nameB row))
         |}.
Proof.
  intros Hgroup Hsid Hid. unfold findMatchForStudent. simpl.
  assert (Hskip : Js.truthy (row_group row)
                  && negb (String.eqb (Js.toUpperCase (row_group row))
                             (Js.toUpperCase grp)) = false).
  { destruct Hgroup as [->| ->]; [reflexivity|].
    now rewrite String.eqb_refl, andb_false_r. }
  rewrite Hskip.
  assert (Hm : (Js.truthy (Js.trim (row_studentIdA row))
                && String.eqb (Js.trim (row_studentIdA row)) (Js.trim sid))
               || (Js.truthy (Js.trim (row_studentIdB row))
                   && String.eqb (Js.trim (row_studentIdB row)) (Js.trim sid))
               = true).
  { apply truthy_true in Hsid.
    destruct Hid as [E|E]; rewrite <- E, Hsid, String.eqb_refl; simpl;
      [reflexivity | apply orb_true_r]. }
  rewrite Hm. reflexivity.
Qed.

(** X5. Two participants that a pairing declaration names converge on one
    room without coordination.  When the first row of the pairing table
    names two different non-empty ids and carries no group or the group of
    the request, a group A or B session created for the first id and one
    created afterwards for the second id both get the room of that row, and
    each gets the id of the other as its partner id. *)
Theorem declared_pair_converges (md5 : string -> string) (t1 t2 : Z)
    (row : matchup) (rest : list matchup) (sessions : list session)
    (grp sidA sidB nameA nameB : string) :
  Js.toUpperCase grp = "A" \/ Js.toUpperCase grp = "B" ->
  row_group row = "" \/ Js.toUpperCase (row_group row) = Js.toUpperCase grp ->
  Js.trim sidA = Js.trim (row_studentIdA row) ->
  Js.trim sidB = Js.trim (row_studentIdB row) ->
  Js.trim sidA <> "" -> Js.trim sidB <> "" -> Js.trim sidA <> Js.trim sidB ->
  findSession (Js.toUpperCase grp +:+ "|" +:+ Js.trim sidA) sessions = None ->
  findSession (Js.toUpperCase grp +:+ "|" +:+ Js.trim sidB) sessions = None ->
  exists rA rB : session,
    ensureSession md5 t1 (row :: rest) sessions grp sidA nameA
    = Ok (rA, sessions ++ [rA])
    /\ ensureSession md5 t2 (row :: rest) (sessions ++ [rA]) grp sidB nameB
       = Ok (rB, sessions ++ [rA; rB])
    /\ roomId rA = roomOfRow md5 row
    /\ roomId rB = roomOfRow md5 row
    /\ roomId rA <> ""
    /\ partnerStudentId rA = studentId rB
    /\ partnerStudentId rB = studentId rA.
Proof.
  intros Hpeer Hgroup HA HB HAne HBne Hdiff HfA HfB.
  assert (Hg : Js.toUpperCase grp <> "") by (destruct Hpeer as [-> | ->]; discriminate).
  assert (Hp : String.eqb (Js.toUpperCase grp) "A"
               || String.eqb (Js.toUpperCase grp) "B" = true).
  { destruct Hpeer as [-> | ->]; reflexivity. }
  assert (Hroom : roomOfRow md5 row <> "").
  { apply or_nonempty, makePairRoomId_nonempty. }
  pose proof (buildSessionKey_ok grp sidA Hg HAne) as HkA.
  pose proof (buildSessionKey_ok grp sidB Hg HBne) as HkB.
  eexists _, _. split; [|split].
  - unfold ensureSession. rewrite HkA. simpl. rewrite Hp, HfA.
    rewrite (findMatch_first_row md5 row rest grp sidA nameA Hgroup HAne
               (or_introl HA)).
    unfold createSession. rewrite HkA. simpl. reflexivity.
  - unfold ensureSession. rewrite HkB. simpl. rewrite Hp.
    match goal with
    | |- context [findSession ?k (sessions ++ [?r])] =>
        assert (Hf : findSession k (sessions ++ [r]) = None)
    end.
    { unfold findSession in *. apply list_find_None. apply Forall_app.
      split; [now apply list_find_None in HfB|].
      constructor; [|constructor]. simpl. intros E.
      apply (inj (String.app (Js.toUpperCase grp))) in E.
      apply Hdiff. now injection E. }
    rewrite Hf.
    rewrite (findMatch_first_row md5 row rest grp sidB nameB Hgroup HBne
               (or_intror HB)).
    unfold createSession. rewrite HkB. simpl.
    rewrite <- app_assoc. reflexivity.
  - simpl. rewrite !(or_truthy _ _ Hroom), !or_empty.
    rewrite <- HA, <- HB, String.eqb_refl.
    apply String.eqb_neq in Hdiff. rewrite Hdiff.
    repeat split; auto.
Qed.

Lemma declared_pair_converges_witness :
  exists rA rB : session,
    ensureSession sampleDigest 1000 sampleMatchups [] "A" "S1" "Kim"
    = Ok (rA, [] ++ [rA])
    /\ ensureSession sampleDigest 2000 sampleMatchups ([] ++ [rA]) "a" " S2"
         "Lee"
       = Ok (rB, [] ++ [rA; rB])
    /\ roomId rA = roomOfRow sampleDigest
                     {| row_roomId := "";
                        row_studentIdA := "S1"; row_nameA := "Kim";
                        row_studentIdB := "S2"; row_nameB := "Lee";
                        row_group := "" |}
    /\ roomId rB = roomId rA
    /\ partnerStudentId rA = studentId rB
    /\ partnerStudentId rB = studentId rA.
Proof.
  destruct (declared_pair_converges sampleDigest 1000 2000
              {| row_roomId := "";
                 row_studentIdA := "S1"; row_nameA := "Kim";
                 row_studentIdB := "S2"; row_nameB := "Lee";
                 row_group := "" |} [] [] "A" "S1" " S2" "Kim" "Lee")
    as (rA & rB & H1 & H2 & H3 & H4 & _ & H6 & H7);
    try (left; reflexivity); try reflexivity; try discriminate.
  exists rA, rB. repeat split; try assumption. congruence.
Defined.

(** ** Stage handlers, further *)

Lemma currentStage_eq (record : session) :
  ~ (stage record == 0)%Q -> currentStage record = stage record.
Proof.
  intros H. unfold currentStage.
  destruct (Qeq_bool (stage record) 0) eqn:E; [|reflexivity].
  apply Qeq_bool_iff in E. contradiction.
Qed.

Lemma regress_step (now : Z) (record : session) :
  ((stage record == 1)%Q -> handleRegress now record = record)
  /\ ((stage record == 2)%Q -> stage (handleRegress now record) = 1%Q)
  /\ ((stage record == 3)%Q -> stage (handleRegress now record) = 2%Q)
  /\ ((4 <= stage record)%Q ->
      stage (handleRegress now record)
      = if String.eqb (Js.toUpperCase (group record)) "C" then 2%Q else 3%Q).
Proof.
  unfold handleRegress.
  repeat split; intros Hs;
    (rewrite currentStage_eq by lra);
    split_tests; stage_props; simpl; try reflexivity; lra.
Qed.

(** X6. Regressing never fails and never raises the stage: the stage after
    [handleRegress] is at most the stage before.  At stage 1 or below the
    record is left as it is; stage 2 goes to 1, stage 3 to 2, and a stage of
    4 or more to 2 for group C and to 3 for every other group.  From any
    whole stage from 1 to 5, three regress steps end at stage 1. *)
Theorem regress_never_raises (now : Z) (record : session) :
  (stage (handleRegress now record) <= stage record)%Q
  /\ ((currentStage record <= 1)%Q -> handleRegress now record = record)
  /\ ((stage record == 2)%Q -> stage (handleRegress now record) = 1%Q)
  /\ ((stage record == 3)%Q -> stage (handleRegress now record) = 2%Q)
  /\ ((4 <= stage record)%Q ->
      stage (handleRegress now record)
      = if String.eqb (Js.toUpperCase (group record)) "C" then 2%Q else 3%Q)
  /\ (forall t2 t3 : Z,
        (stage record == 1 \/ stage record == 2 \/ stage record == 3
         \/ stage record == 4 \/ stage record == 5)%Q ->
        (stage (handleRegress t3 (handleRegress t2 (handleRegress now record)))
         == 1)%Q).
Proof.
  destruct (regress_step now record) as (R1 & R2 & R3 & R4).
  split; [|split; [|split; [|split; [|split]]]]; try assumption.
  - unfold handleRegress, currentStage.
    destruct (Qeq_bool (stage record) 0) eqn:E0;
      split_tests; stage_props; simpl; lra.
  - intros Hs. unfold handleRegress. apply Qle_bool_iff in Hs.
    now rewrite Hs.
  - intros t2 t3 Hs.
    assert (H1 : (stage (handleRegress now record) == 1
                  \/ stage (handleRegress now record) == 2
                  \/ stage (handleRegress now record) == 3)%Q).
    { destruct Hs as [H|[H|[H|[H|H]]]].
      - left. now rewrite (R1 H).
      - left. now rewrite (R2 H).
      - right. left. now rewrite (R3 H).
      - rewrite R4 by lra.
        destruct (String.eqb _ _); [right; left|right; right]; reflexivity.
      - rewrite R4 by lra.
        destruct (String.eqb _ _); [right; left|right; right]; reflexivity. }
    destruct (regress_step t2 (handleRegress now record))
      as (S1 & S2 & S3 & _).
    assert (H2 : (stage (handleRegress t2 (handleRegress now record)) == 1
                  \/ stage (handleRegress t2 (handleRegress now record)) == 2)%Q).
    { destruct H1 as [H|[H|H]].
      - left. now rewrite (S1 H).
      - left. now rewrite (S2 H).
      - right. now rewrite (S3 H). }
    destruct (regress_step t3 (handleRegress t2 (handleRegress now record)))
      as (T1 & T2 & _).
    destruct H2 as [H|H]; [now rewrite (T1 H) | now rewrite (T2 H)].
Qed.

Lemma regress_never_raises_witness :
  handleRegress 2000 (sampleSession "A" 1 "" "" "" "")
  = sampleSession "A" 1 "" "" "" ""
  /\ stage (handleRegress 2000 (sampleSession "C" 5 "" "" "" "")) = 2%Q
  /\ (stage (handleRegress 4000
               (handleRegress 3000
                  (handleRegress 2000 (sampleSession "A" 5 "" "" "" ""))))
      == 1)%Q.
Proof.
  split; [|split].
  - apply (proj1 (proj2 (regress_never_raises 2000
                           (sampleSession "A" 1 "" "" "" ""))));
      vm_compute; discriminate.
  - apply (proj1 (proj2 (proj2 (proj2 (proj2
             (regress_never_raises 2000
                (sampleSession "C" 5 "" "" "" "")))))));
      vm_compute; discriminate.
  - apply (proj2 (proj2 (proj2 (proj2 (proj2
             (regress_never_raises 2000
                (sampleSession "A" 5 "" "" "" ""))))))).
    right. right. right. right. reflexivity.
Defined.

Lemma set_finalText_same (record : session) :
  set_finalText (finalText record) record = record.
Proof. now destruct record. Qed.

(** X7. A request changes nothing of a session but what it is for.  Every
    content block other than the one the request writes keeps its text and
    time stamp; key, group, participant id and name, room, partner fields
    and creation time are never changed; and a stage request (advance,
    advance to final, jump, regress) leaves the record as it was or changes
    its stage and [updatedAt] only. *)
Theorem request_touches_own_block (now : Z) (req : request)
    (record record' : session) :
  requestHandler now req record = Ok record' ->
  (forall b : block,
      requestBlock req <> Some b -> blockOf b record' = blockOf b record)
  /\ (sessionKey record' = sessionKey record
      /\ group record' = group record
      /\ studentId record' = studentId record
      /\ studentName record' = studentName record
      /\ roomId record' = roomId record
      /\ partnerStudentId record' = partnerStudentId record
      /\ partnerName record' = partnerName record
      /\ createdAt record' = createdAt record)
  /\ (requestBlock req = None ->
      record' = record
      \/ record' = set_updatedAt now (set_stage (stage record') record)).
Proof.
  intros Hrun. split; [|split].
  - intros b Hb. revert Hrun.
    destruct req as [k t|k t|k t|k t|k|k|k n|k]; destruct b;
      try (now contradiction Hb); simpl;
      unfold_handlers; rewrite ?or_empty;
      split_tests; intros [= <-]; reflexivity.
  - exact (handler_frame _ _ _ _ Hrun).
  - revert Hrun.
    destruct req as [k t|k t|k t|k t|k|k|k n|k]; simpl; try discriminate;
      intros Hrun _; revert Hrun;
      unfold_handlers; rewrite ?or_empty, ?set_finalText_same;
      split_tests; intros [= <-]; auto.
Qed.

Lemma request_touches_own_block_witness :
  blockOf Draft
    (ensureStage 2000 (sampleSession "A" 4 "idea" "draft" "notes" "") 1)
  = blockOf Draft (sampleSession "A" 4 "idea" "draft" "notes" "")
  /\ (ensureStage 2000 (sampleSession "A" 4 "idea" "draft" "notes" "") 1
      = sampleSession "A" 4 "idea" "draft" "notes" ""
      \/ ensureStage 2000 (sampleSession "A" 4 "idea" "draft" "notes" "") 1
         = set_updatedAt 2000
             (set_stage
                (stage (ensureStage 2000
                          (sampleSession "A" 4 "idea" "draft" "notes" "") 1))
                (sampleSession "A" 4 "idea" "draft" "notes" ""))).
Proof.
  destruct (request_touches_own_block 2000
              (PostJump "A|S1" (Js.Finite 1))
              (sampleSession "A" 4 "idea" "draft" "notes" "")
              (ensureStage 2000 (sampleSession "A" 4 "idea" "draft" "notes" "")
                 1) eq_refl)
    as (Hblocks & _ & Hstage).
  split.
  - apply Hblocks. discriminate.
  - apply Hstage. reflexivity.
Defined.

Lemma advanceToFinal_ok (now : Z) (record : session) :
  draftText record <> "" ->
  (peerEnabled record = true -> notesText record <> "") ->
  (Js.toUpperCase (group record) <> "C" -> (3 <= currentStage record)%Q) ->
  handleAdvanceToFinal now record = Ok (set_updatedAt now (set_stage 4 record)).
Proof.
  intros Hd Hn Hs. unfold handleAdvanceToFinal. unfold peerEnabled in Hn.
  apply truthy_true in Hd.
  destruct (String.eqb (Js.toUpperCase (group record)) "A"
            || String.eqb (Js.toUpperCase (group record)) "B").
  - specialize (Hn eq_refl). apply truthy_true in Hn. rewrite Hn. simpl.
    destruct (String.eqb_spec (Js.toUpperCase (group record)) "C") as [HC|HC];
      simpl.
    + rewrite Hd. simpl. now rewrite or_empty, set_finalText_same.
    + specialize (Hs HC). apply Qltb_false in Hs. rewrite Hs, Hd. simpl.
      now rewrite or_empty, set_finalText_same.
  - simpl.
    destruct (String.eqb_spec (Js.toUpperCase (group record)) "C") as [HC|HC];
      simpl.
    + rewrite Hd. simpl. now rewrite or_empty, set_finalText_same.
    + specialize (Hs HC). apply Qltb_false in Hs. rewrite Hs, Hd. simpl.
      now rewrite or_empty, set_finalText_same.
Qed.

Lemma advanceToFinal_inv (now : Z) (record record' : session) :
  handleAdvanceToFinal now record = Ok record' ->
  draftText record <> ""
  /\ (peerEnabled record = true -> notesText record <> "")
  /\ (Js.toUpperCase (group record) <> "C" -> (3 <= currentStage record)%Q).
Proof.
  unfold handleAdvanceToFinal, peerEnabled.
  destruct (String.eqb (Js.toUpperCase (group record)) "A"
            || String.eqb (Js.toUpperCase (group record)) "B");
    destruct (Js.truthy (notesText record)) eqn:Hnotes; simpl;
    try discriminate;
    destruct (String.eqb_spec (Js.toUpperCase (group record)) "C") as [HC|HC];
    simpl;
    destruct (Js.Qltb (currentStage record) 3) eqn:Hstage; simpl;
    try discriminate;
    destruct (Js.truthy (draftText record)) eqn:Hdraft; simpl;
    try discriminate; intros _;
    apply truthy_true in Hdraft; try apply truthy_true in Hnotes;
    stage_props; repeat split; auto; try discriminate; try contradiction.
Qed.

(** X8. [handleAdvanceToFinal] succeeds exactly when the draft is not empty,
    the notes are not empty if the group is A or B, and the stage is at
    least 3 unless the group is C.  On success the stage is 4 and nothing
    else but [updatedAt] changes, and advancing to final again succeeds and
    changes [updatedAt] only. *)
Theorem advanceToFinal_succeeds_iff (now : Z) (record : session) :
  ((exists record' : session, handleAdvanceToFinal now record = Ok record')
   <-> draftText record <> ""
       /\ (peerEnabled record = true -> notesText record <> "")
       /\ (Js.toUpperCase (group record) <> "C" ->
           (3 <= currentStage record)%Q))
  /\ (forall record' : session,
        handleAdvanceToFinal now record = Ok record' ->
        record' = set_updatedAt now (set_stage 4 record)
        /\ forall t : Z,
             handleAdvanceToFinal t record' = Ok (set_updatedAt t record')).
Proof.
  split.
  - split.
    + intros [r' Hr']. exact (advanceToFinal_inv _ _ _ Hr').
    + intros (Hd & Hn & Hs). eexists. now apply advanceToFinal_ok.
  - intros r' Hr'.
    destruct (advanceToFinal_inv _ _ _ Hr') as (Hd & Hn & Hs).
    rewrite (advanceToFinal_ok now record Hd Hn Hs) in Hr'.
    injection Hr' as <-. split; [reflexivity|]. intros t.
    rewrite advanceToFinal_ok; try assumption.
    + now destruct record.
    + intros _. unfold currentStage. simpl. lra.
Qed.

Lemma advanceToFinal_succeeds_iff_witness :
  exists record' : session,
    handleAdvanceToFinal 2000 (sampleSession "C" 2 "idea" "draft" "" "")
    = Ok record'.
Proof.
  apply (proj1 (advanceToFinal_succeeds_iff 2000
                  (sampleSession "C" 2 "idea" "draft" "" ""))).
  split; [discriminate|]. split; [discriminate|].
  intros H. now contradiction H.
Defined.

(** ** Runs of requests *)

Lemma serve_found (now : Z) (req : request) (sessions : list session)
    (i : nat) (record record' : session) :
  findSession (requestKey req) sessions = Some (i, record) ->
  requestText req <> Some "" ->
  requestHandler now req record = Ok record' ->
  serve now req sessions = (<[i := record']> sessions, Ok record')
  /\ findSession (requestKey req) (<[i := record']> sessions)
     = Some (i, record').
Proof.
  intros Hf Ht Hh. split.
  - destruct req as [k t|k t|k t|k t|k|k|k n|k];
      cbn [serve requestHandler requestKey requestText] in *;
      unfold onSessionWithText, requireText, onSession;
      try (assert (Htr : Js.truthy t = true)
             by (apply truthy_true; congruence); rewrite Htr;
           cbn [negb]);
      rewrite Hf; try rewrite Hh; try (injection Hh as <-); reflexivity.
  - eapply findSession_insert; [exact Hf|].
    destruct (handler_frame _ _ _ _ Hh) as (-> & _).
    now apply findSession_lookup in Hf.
Qed.

(** X9. The forward path of the exercise always goes through.  For a
    session at stage 1 with no prewriting yet and non-blank texts: in a
    peer-enabled group, prewriting, draft, advance, notes, advance leave the
    session at stage 4; in group C, prewriting, draft, advance do.  The three
    texts are stored trimmed and no other session of the store changes. *)
Theorem forward_path_reaches_final (t1 t2 t3 t4 t5 : Z)
    (key pre draft notes : string) (sessions : list session) (i : nat)
    (record : session) :
  findSession key sessions = Some (i, record) ->
  (stage record == 1)%Q ->
  preText record = "" ->
  Js.trim pre <> "" -> Js.trim draft <> "" -> Js.trim notes <> "" ->
  (peerEnabled record = true ->
   exists final : session,
     serveAll [(t1, PostPrewriting key pre); (t2, PostDraft key draft);
               (t3, PostAdvance key); (t4, PostNotes key notes);
               (t5, PostAdvance key)] sessions
     = <[i := final]> sessions
     /\ stage final = 4%Q
     /\ preText final = Js.trim pre
     /\ draftText final = Js.trim draft
     /\ notesText final = Js.trim notes)
  /\ (Js.toUpperCase (group record) = "C" ->
      exists final : session,
        serveAll [(t1, PostPrewriting key pre); (t2, PostDraft key draft);
                  (t3, PostAdvance key)] sessions
        = <[i := final]> sessions
        /\ stage final = 4%Q
        /\ preText final = Js.trim pre
        /\ draftText final = Js.trim draft).
Proof.
  intros Hf Hstage Hpre Hp Hd Hn.
  pose proof (trim_nonempty _ Hp) as Hp'.
  pose proof (trim_nonempty _ Hd) as Hd'.
  pose proof (trim_nonempty _ Hn) as Hn'.
  assert (Hcur : currentStage record = stage record)
    by (apply currentStage_eq; lra).
  assert (Hlt : Js.Qltb (stage record) 2 = true) by (apply Qltb_true; lra).
  (* prewriting *)
  assert (H1 : requestHandler t1 (PostPrewriting key pre) record
               = Ok (set_updatedAt t1
                       (ensureStage t1 (set_pre (Js.trim pre) t1 record) 2))).
  { simpl. unfold submitPrewriting. rewrite Hpre. simpl.
    unfold currentStage in *. simpl. now rewrite Hcur, Hlt. }
  destruct (serve_found t1 (PostPrewriting key pre) sessions i record _ Hf
              ltac:(simpl; congruence) H1) as [S1 F1].
  set (r1 := set_updatedAt t1 _) in *.
  (* draft *)
  assert (H2 : requestHandler t2 (PostDraft key draft) r1
               = Ok (set_updatedAt t2 (set_draft (Js.trim draft) t2 r1)))
    by reflexivity.
  destruct (serve_found t2 (PostDraft key draft) _ i r1 _ F1
              ltac:(simpl; congruence) H2) as [S2 F2].
  set (r2 := set_updatedAt t2 _) in *.
  apply truthy_true in Hd.
  split.
  - intros Hpeer.
    assert (HC : String.eqb (Js.toUpperCase (group record)) "C" = false).
    { unfold peerEnabled in Hpeer. apply orb_true_iff in Hpeer as [E|E];
        apply String.eqb_eq in E; now rewrite E. }
    assert (H3 : requestHandler t3 (PostAdvance key) r2
                 = Ok (ensureStage t3 r2 3)).
    { simpl. unfold handleAdvanceToPeer. simpl. now rewrite Hd, HC. }
    destruct (serve_found t3 (PostAdvance key) _ i r2 _ F2
                ltac:(simpl; congruence) H3) as [S3 F3].
    set (r3 := ensureStage t3 r2 3) in *.
    assert (H4 : requestHandler t4 (PostNotes key notes) r3
                 = Ok (set_updatedAt t4 (set_notes (Js.trim notes) t4 r3)))
      by reflexivity.
    destruct (serve_found t4 (PostNotes key notes) _ i r3 _ F3
                ltac:(simpl; congruence) H4) as [S4 F4].
    set (r4 := set_updatedAt t4 _) in *.
    apply truthy_true in Hn.
    assert (H5 : requestHandler t5 (PostAdvance key) r4
                 = Ok (ensureStage t5 r4 4)).
    { simpl. unfold handleAdvanceToPeer. simpl. now rewrite Hn. }
    destruct (serve_found t5 (PostAdvance key) _ i r4 _ F4
                ltac:(simpl; congruence) H5) as [S5 F5].
    exists (ensureStage t5 r4 4). split.
    + cbn [serveAll]. rewrite S1. cbn [fst]. rewrite S2. cbn [fst].
      rewrite S3. cbn [fst]. rewrite S4. cbn [fst]. rewrite S5. cbn [fst].
      now rewrite !list_insert_insert_eq.
    + repeat split.
  - intros HC.
    assert (H3 : requestHandler t3 (PostAdvance key) r2
                 = Ok (ensureStage t3 r2 4)).
    { simpl. unfold handleAdvanceToPeer. simpl. now rewrite Hd, HC. }
    destruct (serve_found t3 (PostAdvance key) _ i r2 _ F2
                ltac:(simpl; congruence) H3) as [S3 F3].
    exists (ensureStage t3 r2 4). split.
    + cbn [serveAll]. rewrite S1. cbn [fst]. rewrite S2. cbn [fst].
      rewrite S3. cbn [fst]. now rewrite !list_insert_insert_eq.
    + repeat split.
Qed.

Lemma forward_path_reaches_final_witness :
  (exists final : session,
      serveAll [(2000, PostPrewriting "A|S1" " idea "); (3000, PostDraft "A|S1" "draft");
                (4000, PostAdvance "A|S1"); (5000, PostNotes "A|S1" "notes");
                (6000, PostAdvance "A|S1")]
        [sampleSession "A" 1 "" "" "" ""]
      = <[0%nat := final]> [sampleSession "A" 1 "" "" "" ""]
      /\ stage final = 4%Q
      /\ preText final = Js.trim " idea "
      /\ draftText final = Js.trim "draft"
      /\ notesText final = Js.trim "notes")
  /\ exists final : session,
       serveAll [(2000, PostPrewriting "C|S1" " idea ");
                 (3000, PostDraft "C|S1" "draft");
                 (4000, PostAdvance "C|S1")]
         [sampleSession "C" 1 "" "" "" ""]
       = <[0%nat := final]> [sampleSession "C" 1 "" "" "" ""]
       /\ stage final = 4%Q
       /\ preText final = Js.trim " idea "
       /\ draftText final = Js.trim "draft".
Proof.
  split.
  - apply (proj1 (forward_path_reaches_final 2000 3000 4000 5000 6000
                    "A|S1" " idea " "draft" "notes"
                    [sampleSession "A" 1 "" "" "" ""] 0%nat
                    (sampleSession "A" 1 "" "" "" "")
                    eq_refl ltac:(reflexivity) eq_refl
                    ltac:(vm_compute; discriminate)
                    ltac:(vm_compute; discriminate)
                    ltac:(vm_compute; discriminate))).
    reflexivity.
  - apply (proj2 (forward_path_reaches_final 2000 3000 4000 5000 6000
                    "C|S1" " idea " "draft" "notes"
                    [sampleSession "C" 1 "" "" "" ""] 0%nat
                    (sampleSession "C" 1 "" "" "" "")
                    eq_refl ltac:(reflexivity) eq_refl
                    ltac:(vm_compute; discriminate)
                    ltac:(vm_compute; discriminate)
                    ltac:(vm_compute; discriminate))).
    reflexivity.
Defined.

Lemma Qeq_bool_not (x y : Q) : ~ (x == y)%Q -> Qeq_bool x y = false.
Proof.
  intros H. destruct (Qeq_bool x y) eqn:E; [|reflexivity].
  apply Qeq_bool_iff in E. contradiction.
Qed.

(** X10. The jump guards.  When [handleJump] moves a session to another
    stage, the target tells what the session holds: a jump to stage 2 only
    succeeds with a prewriting text, a jump to stage 3 only for a group A or B
    session with a draft, and a forward jump to stage 4 only with notes in
    group A or B, with a draft in group C, and with a final text or final
    time stamp in any other group.  A jump to stage 1 always succeeds, as
    does a jump to any stage other than 2, 3 and 4 (stage 5 among them). *)
Theorem jump_guards (now : Z) (record record' : session) (desired : Q) :
  (handleJump now record desired = Ok record' ->
   ~ (desired == currentStage record)%Q ->
   stage record' = desired
   /\ ((desired == 2)%Q -> preText record <> "")
   /\ ((desired == 3)%Q ->
       peerEnabled record = true /\ draftText record <> "")
   /\ ((desired == 4)%Q -> (currentStage record < 4)%Q ->
       if peerEnabled record then notesText record <> ""
       else if String.eqb (Js.toUpperCase (group record)) "C"
            then draftText record <> ""
            else finalText record <> "" \/ finalSubmittedAt record <> 0))
  /\ (~ (desired == 2)%Q -> ~ (desired == 3)%Q -> ~ (desired == 4)%Q ->
      exists moved : session,
        handleJump now record desired = Ok moved
        /\ (moved = record \/ stage moved = desired)).
Proof.
  split.
  - intros Hrun Hne. apply Qeq_bool_not in Hne. revert Hrun.
    unfold handleJump, peerEnabled. rewrite Hne.
    destruct (String.eqb (Js.toUpperCase (group record)) "A"
              || String.eqb (Js.toUpperCase (group record)) "B") eqn:Hpeer;
      destruct (String.eqb (Js.toUpperCase (group record)) "C") eqn:HC;
      destruct (Qeq_bool desired 2) eqn:H2;
      destruct (Qeq_bool desired 3) eqn:H3;
      destruct (Qeq_bool desired 4) eqn:H4;
      stage_props; try lra;
      destruct (Js.Qltb (currentStage record) desired) eqn:Hfwd;
      cbn [andb negb orb];
      split_tests; intros Hrun; try discriminate;
      injection Hrun as <-; stage_props;
      repeat match goal with
             | H : negb _ = false |- _ => apply negb_false_iff in H
             | H : negb _ && _ = false |- _ =>
                 apply andb_false_iff in H as [H|H]
             | H : Js.truthy _ = true |- _ => apply truthy_true in H
             | H : (_ =? _) = false |- _ => apply Z.eqb_neq in H
             end;
      (split; [reflexivity|]);
      (split; [intros; try assumption; lra|]);
      (split; [intros; try (split; [reflexivity|assumption]); lra|]);
      intros; try assumption; try lra; auto.
  - intros N2 N3 N4. unfold handleJump.
    apply Qeq_bool_not in N2, N3, N4.
    rewrite N2, N3, N4. simpl.
    destruct (Qeq_bool desired (currentStage record)).
    + exists record. auto.
    + destruct (Js.Qltb (currentStage record) desired);
        eexists; (split; [reflexivity|]); right; reflexivity.
Qed.

Lemma jump_guards_witness :
  (peerEnabled (sampleSession "A" 2 "idea" "draft" "" "") = true
   /\ draftText (sampleSession "A" 2 "idea" "draft" "" "") <> "")
  /\ exists moved : session,
       handleJump 2000 (sampleSession "A" 2 "idea" "draft" "" "") 5
       = Ok moved
       /\ (moved = sampleSession "A" 2 "idea" "draft" "" ""
           \/ stage moved = 5%Q).
Proof.
  split.
  - apply (proj1 (proj2 (proj2
             (proj1 (jump_guards 2000
                       (sampleSession "A" 2 "idea" "draft" "" "")
                       (ensureStage 2000
                          (sampleSession "A" 2 "idea" "draft" "" "") 3) 3)
                eq_refl ltac:(vm_compute; discriminate))))).
    reflexivity.
  - apply (proj2 (jump_guards 2000
                    (sampleSession "A" 2 "idea" "draft" "" "")
                    (sampleSession "A" 2 "idea" "draft" "" "") 5));
      vm_compute; discriminate.
Defined.

(** ** Bulk deletion *)

(** A closed decidable statement, settled by evaluation. *)
Ltac by_evaluation :=
  apply (bool_decide_unpack _); vm_compute; reflexivity.

(** Membership in a list that evaluates to a literal. *)
Ltac in_list := vm_compute; repeat constructor.

Lemma elem_of_deletionKeySet (keys : list string) (k : string) :
  k ∈ deletionKeySet keys
  <-> k <> "" /\ exists key : string, key ∈ keys /\ Js.trim key = k.
Proof.
  unfold deletionKeySet. rewrite elem_of_list_to_set, list_elem_of_filter.
  rewrite list_elem_of_fmap, truthy_true. split.
  - intros (Hk & key & -> & Hin). eauto.
  - intros (Hk & key & Hin & <-). eauto.
Qed.

Lemma deletionKeySet_empty (keys : list string) (k : string) :
  size (deletionKeySet keys) = 0%nat -> k ∉ deletionKeySet keys.
Proof. intros H. apply size_empty_inv in H. set_solver. Qed.

Lemma map_filter_key (P : string -> Prop) (Q : session -> Prop)
    `{forall k, Decision (P k)} `{forall record, Decision (Q record)}
    (sessions : list session) :
  (forall record, Q record <-> P (sessionKey record)) ->
  map sessionKey (filter Q sessions) = filter P (map sessionKey sessions).
Proof.
  intros HPQ. induction sessions as [|r l IH]; [reflexivity|].
  simpl. rewrite !filter_cons.
  destruct (decide (Q r)) as [Hq|Hq], (decide (P (sessionKey r))) as [Hp|Hp];
    simpl; rewrite ?IH; try reflexivity; apply HPQ in Hq || apply HPQ in Hp;
    contradiction.
Qed.

Lemma filter_all {A : Type} (P : A -> Prop) `{forall x, Decision (P x)}
    (l : list A) :
  (forall x, x ∈ l -> P x) -> filter P l = l.
Proof.
  induction l as [|x l IH]; intros Hall; [reflexivity|].
  rewrite filter_cons_True by (apply Hall; left).
  f_equal. apply IH. intros y Hy. apply Hall. now right.
Qed.

Lemma length_filter_split {A : Type} (P : A -> Prop)
    `{forall x, Decision (P x)} (l : list A) :
  (length (filter P l) + length (filter (fun x => ~ P x) l))%nat = length l.
Proof.
  induction l as [|x l IH]; [reflexivity|].
  rewrite !filter_cons. destruct (decide (P x)), (decide (~ P x)); simpl;
    try contradiction; lia.
Qed.

(** The state a bulk deletion with at least one usable key leaves. *)
Lemma deleteSessionsByKeys_nonempty (keys : list string) (st : serverState) :
  size (deletionKeySet keys) <> 0%nat ->
  deleteSessionsByKeys keys st
  = let keySet := deletionKeySet keys in
    let removed :=
      filter (fun record => sessionKey record ∈ keySet) (store_sessions st) in
    (size (list_to_set (C := gset string)
             (map (fun record => "ai:" +:+ sessionKey record) removed)),
     {| store_sessions :=
          map (fun record =>
                 if bool_decide
                      (partnerStudentId record
                       ∈ list_to_set (C := gset string) (map studentId removed))
                 then set_partner "" "" record
                 else record)
            (filter (fun record => sessionKey record ∉ keySet)
               (store_sessions st));
        store_messages :=
          saveMessages
            (filter (fun msg =>
                       (msg_sessionId msg
                        ∉ list_to_set (C := gset string)
                            (map (fun record => "ai:" +:+ sessionKey record)
                               removed))
                       /\ (msg_sessionId msg
                           ∉ list_to_set (C := gset string)
                               (map (fun record => "peer:" +:+ roomId record)
                                  (filter (fun record =>
                                             Js.truthy (roomId record) = true)
                                     removed))))
               (store_messages st));
        store_matchups := store_matchups st;
        presence_entries :=
          foldr (fun record entries =>
                   delete (presenceKey (roomId record) (studentId record))
                     entries)
            (presence_entries st) removed |}).
Proof.
  intros Hne. unfold deleteSessionsByKeys.
  rewrite bool_decide_eq_false_2 by assumption. reflexivity.
Qed.

Lemma deleteSessionsByKeys_empty (keys : list string) (st : serverState) :
  size (deletionKeySet keys) = 0%nat ->
  deleteSessionsByKeys keys st = (0%nat, st).
Proof.
  intros He. unfold deleteSessionsByKeys.
  now rewrite bool_decide_eq_true_2 by assumption.
Qed.

(** X11. A bulk deletion removes exactly the sessions whose key is one of
    the given keys, trimmed and not empty.  No session that remains has such
    a key; the sessions with other keys all remain, in their order, each as
    it was or with its partner fields emptied; the pairing table is kept;
    and in a store with pairwise different keys the returned count is the
    number of sessions removed. *)
Theorem bulk_delete_removes (keys : list string) (st : serverState) :
  (forall k : string,
      k ∈ deletionKeySet keys
      <-> k <> "" /\ exists key : string, key ∈ keys /\ Js.trim key = k)
  /\ (forall r' : session,
        r' ∈ store_sessions (deleteSessionsByKeys keys st).2 ->
        sessionKey r' ∉ deletionKeySet keys)
  /\ map sessionKey (store_sessions (deleteSessionsByKeys keys st).2)
     = filter (fun k => k ∉ deletionKeySet keys)
         (map sessionKey (store_sessions st))
  /\ (forall r' : session,
        r' ∈ store_sessions (deleteSessionsByKeys keys st).2 ->
        exists r : session,
          r ∈ store_sessions st /\ (r' = r \/ r' = set_partner "" "" r))
  /\ store_matchups (deleteSessionsByKeys keys st).2 = store_matchups st
  /\ (NoDup (map sessionKey (store_sessions st)) ->
      (deleteSessionsByKeys keys st).1
      = (length (store_sessions st)
         - length (store_sessions (deleteSessionsByKeys keys st).2))%nat).
Proof.
  split; [apply elem_of_deletionKeySet|].
  destruct (decide (size (deletionKeySet keys) = 0%nat)) as [He|Hne].
  - rewrite (deleteSessionsByKeys_empty _ _ He). simpl.
    split; [intros; now apply deletionKeySet_empty|].
    split.
    { symmetry. apply filter_all. intros; now apply deletionKeySet_empty. }
    split; [eauto|]. split; [reflexivity|]. intros _. lia.
  - rewrite (deleteSessionsByKeys_nonempty _ _ Hne). cbn zeta. simpl.
    set (clean := fun record : session => if bool_decide _ then _ else _).
    assert (Hkey : forall r, sessionKey (clean r) = sessionKey r).
    { intros r. unfold clean. now destruct (bool_decide _). }
    split.
    { intros r' Hr'. apply list_elem_of_fmap in Hr' as (r & -> & Hr).
      apply list_elem_of_filter in Hr as [Hr _]. now rewrite Hkey. }
    split.
    { rewrite map_map, (map_ext _ sessionKey Hkey).
      now apply map_filter_key. }
    split.
    { intros r' Hr'. apply list_elem_of_fmap in Hr' as (r & -> & Hr).
      apply list_elem_of_filter in Hr as [_ Hr]. exists r.
      split; [assumption|]. unfold clean. destruct (bool_decide _); auto. }
    split; [reflexivity|].
    intros Hnodup. rewrite length_map.
    rewrite size_list_to_set.
    + rewrite length_map.
      pose proof (length_filter_split
                    (fun record => sessionKey record ∈ deletionKeySet keys)
                    (store_sessions st)) as Hlen.
      lia.
    + rewrite <- (map_map sessionKey (fun k => "ai:" +:+ k)).
      apply (NoDup_fmap_2 (String.app "ai:")).
      eapply sublist_NoDup; [exact Hnodup|].
      apply fmap_sublist, sublist_filter.
Qed.

Lemma bulk_delete_removes_witness :
  (deleteSessionsByKeys [" A|S1 "] sampleState).1
  = (length (store_sessions sampleState)
     - length (store_sessions
                 (deleteSessionsByKeys [" A|S1 "] sampleState).2))%nat.
Proof.
  apply (proj2 (proj2 (proj2 (proj2 (proj2
           (bulk_delete_removes [" A|S1 "] sampleState)))))).
  by_evaluation.
Defined.

Lemma elem_of_removed (keys : list string) (sessions : list session)
    (d : session) :
  d ∈ filter (fun record => sessionKey record ∈ deletionKeySet keys) sessions
  <-> sessionKey d ∈ deletionKeySet keys /\ d ∈ sessions.
Proof. now rewrite list_elem_of_filter. Qed.

Lemma removed_empty (keys : list string) (d : session) :
  size (deletionKeySet keys) = 0%nat -> sessionKey d ∉ deletionKeySet keys.
Proof. apply deletionKeySet_empty. Qed.

(** X12. A bulk deletion leaves no reference to a removed participant: no
    remaining session names the id of a removed session as its partner id;
    a remaining session that did, whatever the groups of the two, remains
    with its partner id and partner name emptied; and the remaining sessions
    whose partner id is the id of no removed session are kept as they
    were. *)
Theorem bulk_delete_clears_partner_links (keys : list string)
    (st : serverState) :
  (forall r' d : session,
      r' ∈ store_sessions (deleteSessionsByKeys keys st).2 ->
      d ∈ store_sessions st -> sessionKey d ∈ deletionKeySet keys ->
      studentId d <> "" -> partnerStudentId r' <> studentId d)
  /\ (forall r d : session,
        r ∈ store_sessions st -> sessionKey r ∉ deletionKeySet keys ->
        d ∈ store_sessions st -> sessionKey d ∈ deletionKeySet keys ->
        partnerStudentId r = studentId d ->
        set_partner "" "" r ∈ store_sessions (deleteSessionsByKeys keys st).2)
  /\ (forall r : session,
        r ∈ store_sessions st -> sessionKey r ∉ deletionKeySet keys ->
        (forall d : session,
            d ∈ store_sessions st -> sessionKey d ∈ deletionKeySet keys ->
            partnerStudentId r <> studentId d) ->
        r ∈ store_sessions (deleteSessionsByKeys keys st).2).
Proof.
  destruct (decide (size (deletionKeySet keys) = 0%nat)) as [He|Hne].
  - rewrite (deleteSessionsByKeys_empty _ _ He). simpl.
    split; [|split].
    + intros r' d _ _ Hd. now apply (removed_empty keys d) in Hd.
    + intros r d _ _ _ Hd. now apply (removed_empty keys d) in Hd.
    + auto.
  - rewrite (deleteSessionsByKeys_nonempty _ _ Hne). cbn zeta. simpl.
    split; [|split].
    + intros r' d Hr' Hd Hkey Hid Hp.
      apply list_elem_of_fmap in Hr' as (r & -> & Hr).
      destruct (bool_decide _) eqn:Hdec; [simpl in Hp; congruence|].
      apply bool_decide_eq_false in Hdec. apply Hdec.
      apply elem_of_list_to_set, list_elem_of_fmap. exists d.
      split; [assumption|]. now apply elem_of_removed.
    + intros r d Hr Hkept Hd Hkey Hp.
      apply list_elem_of_fmap. exists r. split.
      * rewrite bool_decide_eq_true_2; [reflexivity|].
        apply elem_of_list_to_set, list_elem_of_fmap. exists d.
        split; [assumption|]. now apply elem_of_removed.
      * now apply list_elem_of_filter.
    + intros r Hr Hkept Hfree.
      apply list_elem_of_fmap. exists r. split.
      * rewrite bool_decide_eq_false_2; [reflexivity|].
        intros Hin. apply elem_of_list_to_set, list_elem_of_fmap in Hin
          as (d & Hp & Hd).
        apply elem_of_removed in Hd as [Hkey Hd]. now apply (Hfree d).
      * now apply list_elem_of_filter.
Qed.

Lemma bulk_delete_clears_partner_links_witness :
  partnerStudentId (pairedSession "S2" "Lee" "" "")
  <> studentId (pairedSession "S1" "Kim" "S2" "Lee")
  /\ set_partner "" "" (pairedSession "S2" "Lee" "S1" "Kim")
     ∈ store_sessions (deleteSessionsByKeys ["A|S1"] sampleState).2
  /\ pairedSession "S1" "Kim" "S2" "Lee"
     ∈ store_sessions (deleteSessionsByKeys ["B|S9"] sampleState).2.
Proof.
  split; [|split].
  - apply (proj1 (bulk_delete_clears_partner_links ["A|S1"] sampleState)
             (pairedSession "S2" "Lee" "" "")
             (pairedSession "S1" "Kim" "S2" "Lee")).
    + in_list.
    + in_list.
    + by_evaluation.
    + discriminate.
  - apply (proj1 (proj2
             (bulk_delete_clears_partner_links ["A|S1"] sampleState))
             (pairedSession "S2" "Lee" "S1" "Kim")
             (pairedSession "S1" "Kim" "S2" "Lee")).
    + in_list.
    + by_evaluation.
    + in_list.
    + by_evaluation.
    + reflexivity.
  - apply (proj2 (proj2
             (bulk_delete_clears_partner_links ["B|S9"] sampleState))
             (pairedSession "S1" "Kim" "S2" "Lee")).
    + in_list.
    + by_evaluation.
    + intros d Hd Hkey. exfalso. revert d Hd Hkey.
      apply (proj1 (Forall_forall
                      (fun d => sessionKey d ∉ deletionKeySet ["B|S9"]) _)).
      by_evaluation.
Defined.

Lemma saveMessages_suffix (messages : list chatMessage) :
  suffix (saveMessages messages) messages.
Proof.
  unfold saveMessages. destruct (_ <? _)%nat; [apply suffix_drop|reflexivity].
Qed.

Lemma suffix_is_sublist {A : Type} (l1 l2 : list A) :
  suffix l1 l2 -> sublist l1 l2.
Proof. intros [k ->]. now apply sublist_inserts_l. Qed.

Lemma saveMessages_small (messages : list chatMessage) :
  (length messages <= MAX_MESSAGES)%nat -> saveMessages messages = messages.
Proof.
  unfold saveMessages. generalize MAX_MESSAGES. intros n Hn.
  destruct (Nat.ltb_spec n (length messages)); [lia|reflexivity].
Qed.

Lemma saveMessages_length (messages : list chatMessage) :
  (length (saveMessages messages) <= MAX_MESSAGES)%nat.
Proof.
  unfold saveMessages. generalize MAX_MESSAGES. intros n.
  destruct (Nat.ltb_spec n (length messages)); [|assumption].
  rewrite length_drop. lia.
Qed.

Lemma lookup_purged {A : Type} (key : A -> string) (l : list A)
    (entries : gmap string Z) (k : string) :
  foldr (fun x m => delete (key x) m) entries l !! k
  = if bool_decide (k ∈ map key l) then None else entries !! k.
Proof.
  induction l as [|x l IH]; simpl; [reflexivity|].
  destruct (decide (key x = k)) as [<-|Hk].
  - rewrite lookup_delete_eq, bool_decide_eq_true_2; [reflexivity | left].
  - rewrite lookup_delete_ne, IH by assumption.
    apply (f_equal (fun b : bool => if b then None else entries !! k)).
    apply bool_decide_ext. rewrite elem_of_cons. intuition congruence.
Qed.

(** X13. A bulk deletion purges the conversations and the presence of the
    removed sessions.  No message that remains belongs to the tutor
    conversation [ai:<key>] of a removed session or to the conversation
    [peer:<room>] of its room, a room it may share with a partner that
    remains; the messages that remain are messages of the store before, in
    their order; in a store of at most 5000 messages every message of
    another conversation remains.  The presence entry of each removed
    session is gone and every other entry is as before. *)
Theorem bulk_delete_purges_conversations (keys : list string)
    (st : serverState) :
  (forall (m : chatMessage) (d : session),
      m ∈ store_messages (deleteSessionsByKeys keys st).2 ->
      d ∈ store_sessions st -> sessionKey d ∈ deletionKeySet keys ->
      msg_sessionId m <> "ai:" +:+ sessionKey d
      /\ (roomId d <> "" -> msg_sessionId m <> "peer:" +:+ roomId d))
  /\ sublist (store_messages (deleteSessionsByKeys keys st).2)
       (store_messages st)
  /\ ((length (store_messages st) <= MAX_MESSAGES)%nat ->
      forall m : chatMessage,
        m ∈ store_messages st ->
        (forall d : session,
            d ∈ store_sessions st -> sessionKey d ∈ deletionKeySet keys ->
            msg_sessionId m <> "ai:" +:+ sessionKey d
            /\ msg_sessionId m <> "peer:" +:+ roomId d) ->
        m ∈ store_messages (deleteSessionsByKeys keys st).2)
  /\ (forall d : session,
        d ∈ store_sessions st -> sessionKey d ∈ deletionKeySet keys ->
        presence_entries (deleteSessionsByKeys keys st).2
          !! presenceKey (roomId d) (studentId d) = None)
  /\ (forall k : string,
        (forall d : session,
            d ∈ store_sessions st -> sessionKey d ∈ deletionKeySet keys ->
            k <> presenceKey (roomId d) (studentId d)) ->
        presence_entries (deleteSessionsByKeys keys st).2 !! k
        = presence_entries st !! k).
Proof.
  destruct (decide (size (deletionKeySet keys) = 0%nat)) as [He|Hne].
  - rewrite (deleteSessionsByKeys_empty _ _ He). simpl.
    split; [|split; [|split; [|split]]]; try done.
    + intros m d _ _ Hd. now apply (removed_empty keys d) in Hd.
    + intros d _ Hd. now apply (removed_empty keys d) in Hd.
  - rewrite (deleteSessionsByKeys_nonempty _ _ Hne). cbn zeta. simpl.
    split; [|split; [|split; [|split]]].
    + intros m d Hm Hd Hkey.
      apply (fun H => elem_of_sublist _ _ _ H
               (suffix_is_sublist _ _ (saveMessages_suffix _))) in Hm.
      apply list_elem_of_filter in Hm as [[Hai Hpeer] _].
      split.
      * intros E. apply Hai. rewrite E.
        apply elem_of_list_to_set, list_elem_of_fmap. exists d.
        split; [reflexivity|]. now apply elem_of_removed.
      * intros Hroom E. apply Hpeer. rewrite E.
        apply elem_of_list_to_set, list_elem_of_fmap. exists d.
        split; [reflexivity|]. apply list_elem_of_filter.
        split; [now apply truthy_true | now apply elem_of_removed].
    + etransitivity; [apply suffix_is_sublist, saveMessages_suffix|].
      apply sublist_filter.
    + intros Hlen m Hm Hother.
      rewrite saveMessages_small.
      * apply list_elem_of_filter. split; [|assumption].
        split; intros Hin;
          apply elem_of_list_to_set, list_elem_of_fmap in Hin
            as (d & E & Hd).
        -- apply elem_of_removed in Hd as [Hkey Hd].
           destruct (Hother d Hd Hkey); contradiction.
        -- apply list_elem_of_filter in Hd as [_ Hd].
           apply elem_of_removed in Hd as [Hkey Hd].
           destruct (Hother d Hd Hkey); contradiction.
      * etransitivity; [apply length_filter | exact Hlen].
    + intros d Hd Hkey.
      rewrite (lookup_purged
                 (fun record => presenceKey (roomId record) (studentId record))).
      rewrite bool_decide_eq_true_2; [reflexivity|].
      apply list_elem_of_fmap. exists d.
      split; [reflexivity | now apply elem_of_removed].
    + intros k Hk.
      rewrite (lookup_purged
                 (fun record => presenceKey (roomId record) (studentId record))).
      rewrite bool_decide_eq_false_2; [reflexivity|].
      intros Hin. apply list_elem_of_fmap in Hin as (d & E & Hd).
      apply elem_of_removed in Hd as [Hkey Hd]. now apply (Hk d Hd Hkey).
Qed.

Lemma bulk_delete_purges_conversations_witness :
  (msg_sessionId (sampleMessage 1700 "ai" "ai:A|S2" "question")
   <> "ai:" +:+ sessionKey (pairedSession "S1" "Kim" "S2" "Lee")
   /\ (roomId (pairedSession "S1" "Kim" "S2" "Lee") <> "" ->
       msg_sessionId (sampleMessage 1700 "ai" "ai:A|S2" "question")
       <> "peer:" +:+ roomId (pairedSession "S1" "Kim" "S2" "Lee")))
  /\ sampleMessage 1700 "ai" "ai:A|S2" "question"
     ∈ store_messages (deleteSessionsByKeys ["A|S1"] sampleState).2
  /\ presence_entries (deleteSessionsByKeys ["A|S1"] sampleState).2
       !! presenceKey "r_0123456789ab" "S1" = None
  /\ presence_entries (deleteSessionsByKeys ["A|S1"] sampleState).2
       !! presenceKey "r_0123456789ab" "S2"
     = presence_entries sampleState !! presenceKey "r_0123456789ab" "S2".
Proof.
  split; [|split; [|split]].
  - apply (proj1 (bulk_delete_purges_conversations ["A|S1"] sampleState)).
    + in_list.
    + in_list.
    + by_evaluation.
  - apply (proj1 (proj2 (proj2
             (bulk_delete_purges_conversations ["A|S1"] sampleState)))).
    + by_evaluation.
    + in_list.
    + apply (proj1 (Forall_forall
                      (fun d =>
                         sessionKey d ∈ deletionKeySet ["A|S1"] ->
                         "ai:A|S2" <> "ai:" +:+ sessionKey d
                         /\ "ai:A|S2" <> "peer:" +:+ roomId d) _)).
      by_evaluation.
  - apply (proj1 (proj2 (proj2 (proj2
             (bulk_delete_purges_conversations ["A|S1"] sampleState))))
             (pairedSession "S1" "Kim" "S2" "Lee")).
    + in_list.
    + by_evaluation.
  - apply (proj2 (proj2 (proj2 (proj2
             (bulk_delete_purges_conversations ["A|S1"] sampleState))))).
    apply (proj1 (Forall_forall
                    (fun d =>
                       sessionKey d ∈ deletionKeySet ["A|S1"] ->
                       presenceKey "r_0123456789ab" "S2"
                       <> presenceKey (roomId d) (studentId d)) _)).
    by_evaluation.
Defined.

(** ** Administrator sessions *)

Lemma substring_full (s : string) : String.substring 0 (String.length s) s = s.
Proof. induction s as [|c s IH]; simpl; [reflexivity | now rewrite IH]. Qed.

Lemma extractAdminToken_bearer (token : string) :
  extractAdminToken ("Bearer " +:+ token) = Js.trim token.
Proof.
  unfold extractAdminToken, JsText.sliceFrom. simpl.
  rewrite !app_empty. simpl. rewrite Nat.sub_0_r, substring_full.
  now destruct token.
Qed.

Lemma validateAdminToken_live (now expiresAt : Z) (token : string)
    (adminTokens : gmap string Z) :
  token <> "" -> adminTokens !! token = Some expiresAt -> now <= expiresAt ->
  validateAdminToken now token adminTokens = (true, adminTokens).
Proof.
  intros Ht Hl Hle. unfold validateAdminToken.
  apply truthy_true in Ht. rewrite Ht, Hl. simpl.
  destruct (Z.ltb_spec expiresAt now); [lia | reflexivity].
Qed.

Lemma validateAdminToken_expired (now expiresAt : Z) (token : string)
    (adminTokens : gmap string Z) :
  token <> "" -> adminTokens !! token = Some expiresAt -> expiresAt < now ->
  validateAdminToken now token adminTokens = (false, delete token adminTokens).
Proof.
  intros Ht Hl Hlt. unfold validateAdminToken.
  apply truthy_true in Ht. rewrite Ht, Hl. simpl.
  destruct (Z.ltb_spec expiresAt now); [reflexivity | lia].
Qed.

Lemma validateAdminToken_unknown (now : Z) (token : string)
    (adminTokens : gmap string Z) :
  adminTokens !! token = None ->
  validateAdminToken now token adminTokens = (false, adminTokens).
Proof.
  intros Hl. unfold validateAdminToken. rewrite Hl.
  now destruct (negb (Js.truthy token)).
Qed.

(** X14. Logging in with the configured password answers with the token and
    its expiry, twelve hours after the login; with the header
    [Bearer <token>] the administrator routes accept the token at every
    time up to and including the expiry, leaving the tokens as they are,
    and refuse it with status 401 at every later time, when they also
    forget it.  Another password is refused with status 401 and issues no
    token. *)
Theorem admin_login_opens_session (ADMIN_PASSWORD token password : string)
    (now : Z) (adminTokens : gmap string Z) :
  ADMIN_PASSWORD <> "" -> token <> "" -> Js.trim token = token ->
  (password = ADMIN_PASSWORD ->
   (adminLogin ADMIN_PASSWORD now token password adminTokens).1
   = Ok (token, now + 43200000)
   /\ (forall later : Z,
         later <= now + 43200000 ->
         requireAdminAuth later ("Bearer " +:+ token)
           (adminLogin ADMIN_PASSWORD now token password adminTokens).2
         = (Ok token,
            (adminLogin ADMIN_PASSWORD now token password adminTokens).2))
   /\ (forall later : Z,
         now + 43200000 < later ->
         (requireAdminAuth later ("Bearer " +:+ token)
            (adminLogin ADMIN_PASSWORD now token password adminTokens).2).1
         = Err (createHttpError 401 "관리자 인증이 필요합니다.")
         /\ (requireAdminAuth later ("Bearer " +:+ token)
               (adminLogin ADMIN_PASSWORD now token password adminTokens).2).2
              !! token = None))
  /\ (password <> ADMIN_PASSWORD ->
      adminLogin ADMIN_PASSWORD now token password adminTokens
      = (Err (createHttpError 401 "비밀번호가 올바르지 않습니다."),
         adminTokens)).
Proof.
  intros Hpw Htoken Htrim. unfold adminLogin.
  apply truthy_true in Hpw. rewrite Hpw. simpl. split.
  - intros ->. rewrite String.eqb_refl. simpl.
    change ADMIN_SESSION_TTL_MS with 43200000.
    split; [reflexivity|].
    assert (Hl : (<[token := now + 43200000]> adminTokens) !! token
                 = Some (now + 43200000)) by apply lookup_insert_eq.
    split; intros later Hlater; unfold requireAdminAuth;
      rewrite extractAdminToken_bearer, Htrim.
    + now rewrite (validateAdminToken_live later _ _ _ Htoken Hl Hlater).
    + rewrite (validateAdminToken_expired later _ _ _ Htoken Hl Hlater).
      simpl. split; [reflexivity | apply lookup_delete_eq].
  - intros Hne. apply String.eqb_neq in Hne. now rewrite Hne.
Qed.

Lemma admin_login_opens_session_witness :
  ((adminLogin "secret" 1000 "5f2c9a" "secret" ∅).1
   = Ok ("5f2c9a", 1000 + 43200000)
   /\ (forall later : Z,
         later <= 1000 + 43200000 ->
         requireAdminAuth later ("Bearer " +:+ "5f2c9a")
           (adminLogin "secret" 1000 "5f2c9a" "secret" ∅).2
         = (Ok "5f2c9a", (adminLogin "secret" 1000 "5f2c9a" "secret" ∅).2))
   /\ (forall later : Z,
         1000 + 43200000 < later ->
         (requireAdminAuth later ("Bearer " +:+ "5f2c9a")
            (adminLogin "secret" 1000 "5f2c9a" "secret" ∅).2).1
         = Err (createHttpError 401 "관리자 인증이 필요합니다.")
         /\ (requireAdminAuth later ("Bearer " +:+ "5f2c9a")
               (adminLogin "secret" 1000 "5f2c9a" "secret" ∅).2).2
              !! "5f2c9a" = None))
  /\ adminLogin "secret" 1000 "5f2c9a" "guess" ∅
     = (Err (createHttpError 401 "비밀번호가 올바르지 않습니다."), ∅).
Proof.
  split.
  - apply (proj1 (admin_login_opens_session "secret" "5f2c9a" "secret" 1000 ∅
                    ltac:(discriminate) ltac:(discriminate) eq_refl)).
    reflexivity.
  - apply (proj2 (admin_login_opens_session "secret" "5f2c9a" "guess" 1000 ∅
                    ltac:(discriminate) ltac:(discriminate) eq_refl)).
    discriminate.
Defined.

(** X15. A logout that is accepted revokes its token: the same header is
    refused with status 401 at every later time.  It is accepted exactly
    when the header carries a token that is not empty, is known and has not
    expired; and, accepted or not, it leaves every other token as it was. *)
Theorem admin_logout_revokes (now : Z) (authorization : string)
    (adminTokens : gmap string Z) :
  ((adminLogout now authorization adminTokens).1 = Ok tt
   <-> extractAdminToken authorization <> ""
       /\ exists expiresAt : Z,
            adminTokens !! extractAdminToken authorization = Some expiresAt
            /\ now <= expiresAt)
  /\ ((adminLogout now authorization adminTokens).1 = Ok tt ->
      forall later : Z,
        requireAdminAuth later authorization
          (adminLogout now authorization adminTokens).2
        = (Err (createHttpError 401 "관리자 인증이 필요합니다."),
           (adminLogout now authorization adminTokens).2))
  /\ (forall other : string,
        other <> extractAdminToken authorization ->
        (adminLogout now authorization adminTokens).2 !! other
        = adminTokens !! other).
Proof.
  unfold adminLogout, requireAdminAuth.
  set (token := extractAdminToken authorization).
  unfold validateAdminToken.
  destruct (Js.truthy token) eqn:Ht; simpl.
  2:{ apply truthy_false in Ht. split; [|split]; try done.
      split; [discriminate | now intros [? _]]. }
  assert (Hne : token <> "") by now apply truthy_true.
  destruct (adminTokens !! token) as [expiresAt|] eqn:Hl.
  2:{ split; [|split]; try done.
      split; [discriminate | now intros (_ & ? & ? & _)]. }
  destruct (Z.ltb_spec expiresAt now) as [Hlt|Hle]; simpl.
  { split; [|split]; try done.
    - split; [discriminate|]. intros (_ & e & [= <-] & He). lia.
    - intros other Hother. now apply lookup_delete_ne. }
  unfold revokeAdminToken. rewrite Ht, Hl. simpl.
  rewrite ?bool_decide_eq_true_2 by eauto.
  split; [|split].
  - split; [eauto | reflexivity].
  - intros _ later. now rewrite lookup_delete_eq.
  - intros other Hother. now apply lookup_delete_ne.
Qed.

Lemma admin_logout_revokes_witness :
  (forall later : Z,
      requireAdminAuth later "Bearer 5f2c9a"
        (adminLogout 2000 "Bearer 5f2c9a"
           {[ "5f2c9a" := 43201000; "77aa01" := 43201500 ]}).2
      = (Err (createHttpError 401 "관리자 인증이 필요합니다."),
         (adminLogout 2000 "Bearer 5f2c9a"
            {[ "5f2c9a" := 43201000; "77aa01" := 43201500 ]}).2))
  /\ (adminLogout 2000 "Bearer 5f2c9a"
        {[ "5f2c9a" := 43201000; "77aa01" := 43201500 ]}).2 !! "77aa01"
     = ({[ "5f2c9a" := 43201000; "77aa01" := 43201500 ]} : gmap string Z)
         !! "77aa01".
Proof.
  split.
  - apply (proj1 (proj2 (admin_logout_revokes 2000 "Bearer 5f2c9a"
                           {[ "5f2c9a" := 43201000; "77aa01" := 43201500 ]}))).
    vm_compute. reflexivity.
  - apply (proj2 (proj2 (admin_logout_revokes 2000 "Bearer 5f2c9a"
                           {[ "5f2c9a" := 43201000; "77aa01" := 43201500 ]}))).
    vm_compute. discriminate.
Defined.

(** ** Chat *)

Lemma insertByTs_perm (m : chatMessage) (l : list chatMessage) :
  insertByTs m l ≡ₚ m :: l.
Proof.
  induction l as [|x l IH]; simpl; [reflexivity|].
  destruct (msg_ts m <=? msg_ts x); [reflexivity|].
  rewrite IH. apply Permutation_swap.
Qed.

Lemma sortByTs_perm (l : list chatMessage) : sortByTs l ≡ₚ l.
Proof.
  induction l as [|x l IH]; simpl; [reflexivity|].
  now rewrite insertByTs_perm, IH.
Qed.

Lemma insertByTs_ordered (m : chatMessage) (l : list chatMessage) :
  inTimeOrder l -> inTimeOrder (insertByTs m l).
Proof.
  induction l as [|x l IH]; simpl; [auto|].
  intros [Hx Hl]. destruct (Z.leb_spec (msg_ts m) (msg_ts x)) as [Hle|Hlt].
  - simpl. split; [|auto]. constructor; [assumption|].
    eapply Forall_impl; [exact Hx|]. simpl. intros y Hy. lia.
  - simpl. split; [|auto].
    rewrite insertByTs_perm. constructor; [lia | assumption].
Qed.

Lemma sortByTs_ordered (l : list chatMessage) : inTimeOrder (sortByTs l).
Proof.
  induction l as [|x l IH]; simpl; [exact I | now apply insertByTs_ordered].
Qed.

Lemma sortByTs_fixed (l : list chatMessage) : inTimeOrder l -> sortByTs l = l.
Proof.
  induction l as [|x l IH]; simpl; [reflexivity|].
  intros [Hx Hl]. rewrite (IH Hl).
  destruct l as [|y l]; [reflexivity|]. simpl.
  apply Forall_cons in Hx as [Hxy _].
  now destruct (Z.leb_spec (msg_ts x) (msg_ts y)); [|lia].
Qed.

Lemma insertByTs_same_time (t : Z) (m : chatMessage) (l : list chatMessage) :
  filter (fun x => msg_ts x = t) (insertByTs m l)
  = filter (fun x => msg_ts x = t) (m :: l).
Proof.
  induction l as [|x l IH]; simpl; [reflexivity|].
  destruct (Z.leb_spec (msg_ts m) (msg_ts x)) as [Hle|Hlt]; [reflexivity|].
  rewrite (filter_cons _ x), IH, !filter_cons.
  destruct (decide (msg_ts x = t)), (decide (msg_ts m = t));
    try reflexivity; lia.
Qed.

Lemma sortByTs_same_time (t : Z) (l : list chatMessage) :
  filter (fun x => msg_ts x = t) (sortByTs l)
  = filter (fun x => msg_ts x = t) l.
Proof.
  induction l as [|x l IH]; simpl; [reflexivity|].
  rewrite insertByTs_same_time, !filter_cons, IH. reflexivity.
Qed.

Lemma inTimeOrder_filter (P : chatMessage -> Prop)
    `{forall m, Decision (P m)} (l : list chatMessage) :
  inTimeOrder l -> inTimeOrder (filter P l).
Proof.
  induction l as [|x l IH]; simpl; [auto|].
  intros [Hx Hl]. rewrite filter_cons. destruct (decide (P x)); [|auto].
  simpl. split; [|auto]. apply Forall_forall. intros y Hy.
  apply list_elem_of_filter in Hy as [_ Hy].
  rewrite Forall_forall in Hx. auto.
Qed.

Lemma chat_history_members (channel sessionId : string) (since : Z)
    (messages : list chatMessage) :
  (sessionId = "" ->
   getChatMessages channel sessionId since messages
   = Err (createHttpError 400 "sessionId가 필요합니다."))
  /\ (sessionId <> "" ->
      exists history : list chatMessage,
        getChatMessages channel sessionId since messages = Ok history
        /\ (forall m : chatMessage,
              m ∈ history
              <-> m ∈ messages /\ inConversation channel sessionId since m)).
Proof.
  unfold getChatMessages. split.
  - intros ->. reflexivity.
  - intros Hid. apply truthy_true in Hid. rewrite Hid. simpl.
    eexists. split; [reflexivity|].
    intros m. rewrite sortByTs_perm, list_elem_of_filter.
    split; intros [? ?]; split; assumption.
Qed.

(** X16. The chat route answers status 400 without a session id.  With one,
    it answers with exactly the stored messages of that channel and session
    id that are newer than [since], each as often as it is stored, in the
    order of their time stamps, those of one time stamp in the order they
    are stored in; when the store is in time order the answer is the
    matching messages in their stored order. *)
Theorem chat_history_in_time_order (channel sessionId : string) (since : Z)
    (messages : list chatMessage) :
  (sessionId = "" ->
   getChatMessages channel sessionId since messages
   = Err (createHttpError 400 "sessionId가 필요합니다."))
  /\ (sessionId <> "" ->
      exists history : list chatMessage,
        getChatMessages channel sessionId since messages = Ok history
        /\ inTimeOrder history
        /\ history ≡ₚ filter (inConversation channel sessionId since) messages
        /\ (forall m : chatMessage,
              m ∈ history
              <-> m ∈ messages /\ inConversation channel sessionId since m)
        /\ (forall t : Z,
              filter (fun m => msg_ts m = t) history
              = filter (fun m => msg_ts m = t)
                  (filter (inConversation channel sessionId since) messages))
        /\ (inTimeOrder messages ->
            history
            = filter (inConversation channel sessionId since) messages)).
Proof.
  unfold getChatMessages. split.
  - intros ->. reflexivity.
  - intros Hid. apply truthy_true in Hid. rewrite Hid. simpl.
    eexists. split; [reflexivity|].
    split; [apply sortByTs_ordered|].
    split; [apply sortByTs_perm|].
    split.
    { intros m. rewrite sortByTs_perm, list_elem_of_filter.
      split; intros [? ?]; split; assumption. }
    split; [intros t; apply sortByTs_same_time|].
    intros Hsorted. apply sortByTs_fixed. now apply inTimeOrder_filter.
Qed.

Lemma chat_history_in_time_order_witness :
  getChatMessages "ai" "" 0 (store_messages sampleState)
  = Err (createHttpError 400 "sessionId가 필요합니다.")
  /\ exists history : list chatMessage,
       getChatMessages "ai" "ai:A|S1" 0 (store_messages sampleState)
       = Ok history
       /\ history
          = filter (inConversation "ai" "ai:A|S1" 0)
              (store_messages sampleState).
Proof.
  split.
  - apply (proj1 (chat_history_in_time_order "ai" "" 0
                    (store_messages sampleState))).
    reflexivity.
  - destruct (proj2 (chat_history_in_time_order "ai" "ai:A|S1" 0
                       (store_messages sampleState))
                ltac:(discriminate))
      as (history & Hget & _ & _ & _ & _ & Hfixed).
    exists history. split; [exact Hget|].
    apply Hfixed. cbn. repeat constructor; cbn; lia.
Defined.

Lemma filter_agree {A : Type} (P Q : A -> Prop)
    `{forall x, Decision (P x)} `{forall x, Decision (Q x)} (l : list A) :
  Forall (fun x => P x <-> Q x) l -> filter P l = filter Q l.
Proof.
  induction 1 as [|x l Hx _ IH]; [reflexivity|].
  rewrite !filter_cons, IH.
  destruct (decide (P x)), (decide (Q x)); tauto.
Qed.

(** X17. The transcript of a conversation, as the administrator pages and
    the export collect it, is empty without a session id or a channel.
    Otherwise it shows, in the order of their time stamps, exactly the
    stored messages of that channel and session id, and when every stored
    message is newer than [since] they are the messages the chat route
    answers with, in the same order. *)
Theorem transcript_matches_history (sessionId channel : string)
    (messages : list chatMessage) :
  (sessionId = "" \/ channel = "" ->
   collectMessages sessionId channel messages = [])
  /\ (sessionId <> "" -> channel <> "" ->
      exists shown : list chatMessage,
        collectMessages sessionId channel messages = map viewOf shown
        /\ inTimeOrder shown
        /\ shown
           ≡ₚ filter (fun m => msg_channel m = channel
                               /\ msg_sessionId m = sessionId) messages
        /\ (forall since : Z,
              Forall (fun m => since < msg_ts m) messages ->
              getChatMessages channel sessionId since messages = Ok shown)).
Proof.
  unfold collectMessages, getChatMessages. split.
  - intros [-> | ->]; [reflexivity|].
    now destruct (negb (Js.truthy sessionId)).
  - intros Hid Hch. apply truthy_true in Hid, Hch. rewrite Hid, Hch. simpl.
    eexists. split; [reflexivity|].
    split; [apply sortByTs_ordered|].
    split; [apply sortByTs_perm|].
    intros since Hsince. do 2 f_equal. apply filter_agree.
    eapply Forall_impl; [exact Hsince|]. simpl. tauto.
Qed.

Lemma transcript_matches_history_witness :
  collectMessages "" "ai" (store_messages sampleState) = []
  /\ exists shown : list chatMessage,
       collectMessages "ai:A|S1" "ai" (store_messages sampleState)
       = map viewOf shown
       /\ getChatMessages "ai" "ai:A|S1" 0 (store_messages sampleState)
          = Ok shown.
Proof.
  split.
  - apply (proj1 (transcript_matches_history "" "ai"
                    (store_messages sampleState))).
    left. reflexivity.
  - destruct (proj2 (transcript_matches_history "ai:A|S1" "ai"
                       (store_messages sampleState))
                ltac:(discriminate) ltac:(discriminate))
      as (shown & Hshown & _ & _ & Hsince).
    exists shown. split; [exact Hshown|].
    apply Hsince. cbn. repeat constructor.
Defined.

Lemma drop_snoc_last {A : Type} (n : nat) (l : list A) (x : A) :
  (n <= length l)%nat -> last (drop n (l ++ [x])) = Some x.
Proof. intros Hn. rewrite drop_app_le by lia. apply last_snoc. Qed.

Lemma saveMessages_last (messages : list chatMessage) (m : chatMessage) :
  last (saveMessages (messages ++ [m])) = Some m.
Proof.
  unfold saveMessages.
  assert (Hpos : (0 < MAX_MESSAGES)%nat) by (apply Nat.ltb_lt; reflexivity).
  revert Hpos. generalize MAX_MESSAGES. intros n Hpos.
  destruct (Nat.ltb_spec n (length (messages ++ [m]))) as [Hlt|Hle];
    [|apply last_snoc].
  apply drop_snoc_last. rewrite length_app in *. simpl in *. lia.
Qed.

(** X18. Sending a chat message without a session id or without a text is
    refused with status 400 and stores nothing.  Otherwise the answer
    carries the time of the call and the message is stored last, with that
    time, the channel of the route, the session id and text of the body
    and the role of the body or [user]; the store holds at most 5000
    messages, the newest ones of the store before and the new one, all of
    them while there were fewer than 5000; and a history of that channel
    and session id read from before that time contains the message. *)
Theorem chat_send_stores_message (now : Z) (channel : string)
    (body : chatSendBody) (messages : list chatMessage) :
  (send_sessionId body = "" \/ send_text body = "" ->
   exists e : HttpError,
     postChatSend now channel body messages = (messages, Err e)
     /\ status e = 400)
  /\ (send_sessionId body <> "" -> send_text body <> "" ->
      exists sent : chatMessage,
        (postChatSend now channel body messages).2 = Ok now
        /\ last (postChatSend now channel body messages).1 = Some sent
        /\ msg_ts sent = now
        /\ msg_channel sent = channel
        /\ msg_sessionId sent = send_sessionId body
        /\ msg_text sent = send_text body
        /\ msg_role sent = Js.or (send_role body) "user"
        /\ (length (postChatSend now channel body messages).1
            <= MAX_MESSAGES)%nat
        /\ suffix (postChatSend now channel body messages).1
             (messages ++ [sent])
        /\ ((length messages < MAX_MESSAGES)%nat ->
            (postChatSend now channel body messages).1 = messages ++ [sent])
        /\ (forall (since : Z) (history : list chatMessage),
              since < now ->
              getChatMessages channel (send_sessionId body) since
                (postChatSend now channel body messages).1
              = Ok history ->
              sent ∈ history)).
Proof.
  unfold postChatSend. simpl. split.
  - intros [E|E]; rewrite E; simpl.
    + eexists. split; reflexivity.
    + destruct (negb (Js.truthy (send_sessionId body)));
        eexists; split; reflexivity.
  - intros Hid Htext. pose proof Hid as Hid'.
    apply truthy_true in Hid', Htext. rewrite Hid', Htext. simpl.
    set (sent := {| msg_ts := now |}).
    exists sent. split; [reflexivity|].
    assert (Hlast : last (saveMessages (messages ++ [sent])) = Some sent)
      by apply saveMessages_last.
    split; [exact Hlast|].
    do 5 (split; [reflexivity|]).
    split; [apply saveMessages_length|].
    split; [apply saveMessages_suffix|].
    split.
    { intros Hlen. apply saveMessages_small.
      rewrite length_app. simpl. lia. }
    intros since history Hsince Hget.
    destruct (proj2 (chat_history_members channel (send_sessionId body) since
                       (saveMessages (messages ++ [sent]))) Hid)
      as (history' & Hget' & Hmem).
    rewrite Hget in Hget'. injection Hget' as <-.
    apply Hmem. split.
    + apply last_Some_elem_of, Hlast.
    + unfold inConversation. simpl. auto.
Qed.

Lemma chat_send_stores_message_witness :
  (exists e : HttpError,
      postChatSend 2000 "ai" (sampleBody "" "hello")
        (store_messages sampleState)
      = (store_messages sampleState, Err e)
      /\ status e = 400)
  /\ exists (sent : chatMessage) (history : list chatMessage),
       (postChatSend 2000 "ai" (sampleBody "ai:A|S1" "hello")
          (store_messages sampleState)).1
       = store_messages sampleState ++ [sent]
       /\ getChatMessages "ai" "ai:A|S1" 0
            (postChatSend 2000 "ai" (sampleBody "ai:A|S1" "hello")
               (store_messages sampleState)).1
          = Ok history
       /\ sent ∈ history.
Proof.
  split.
  - apply (proj1 (chat_send_stores_message 2000 "ai" (sampleBody "" "hello")
                    (store_messages sampleState))).
    left. reflexivity.
  - destruct (proj2 (chat_send_stores_message 2000 "ai"
                       (sampleBody "ai:A|S1" "hello")
                       (store_messages sampleState))
                ltac:(discriminate) ltac:(discriminate))
      as (sent & _ & _ & _ & _ & _ & _ & _ & _ & _ & Hall & Hread).
    exists sent. eexists. split; [|split].
    + apply Hall. apply Nat.ltb_lt. reflexivity.
    + reflexivity.
    + apply (Hread 0); [reflexivity | reflexivity].
Defined.

(** ** The peer stage and group C *)

Lemma peerStageFree_same (record record' : session) :
  group record' = group record -> stage record' = stage record ->
  peerStageFree record -> peerStageFree record'.
Proof. unfold peerStageFree. intros -> ->. auto. Qed.

(** A call of [ensureSession] changes one record, keeping its group and
    stage, or adds a record at stage 1. *)
Lemma ensureSession_shape (md5 : string -> string) (now : Z)
    (matchups : list matchup) (sessions sessions' : list session)
    (grp sid name : string) (record : session) :
  ensureSession md5 now matchups sessions grp sid name
  = Ok (record, sessions') ->
  (exists (i : nat) (old : session),
      sessions !! i = Some old /\ sessions' = <[i := record]> sessions
      /\ group record = group old /\ stage record = stage old)
  \/ (sessions' = sessions ++ [record] /\ stage record = 1%Q).
Proof.
  unfold ensureSession.
  destruct (buildSessionKey grp sid) as [key|e] eqn:Hkey; simpl;
    [|discriminate].
  generalize (if String.eqb (Js.toUpperCase grp) "A"
                 || String.eqb (Js.toUpperCase grp) "B"
              then findMatchForStudent md5 matchups grp sid name
              else None).
  intros hint.
  destruct (findSession key sessions) as [[i r]|] eqn:Hf.
  - intros [= <- <-]. left. exists i, r.
    apply findSession_lookup in Hf as [Hi _].
    split; [exact Hi|]. split; [reflexivity|].
    destruct hint, (negb (Js.truthy (roomId _))); simpl; auto.
  - unfold createSession. rewrite Hkey. simpl.
    intros [= <- <-]. right. auto.
Qed.

Lemma peerStageFree_assign (md5 : string -> string) (now : Z) (i : nat)
    (payload : partnerPayload) (sessions sessions' : list session) :
  Forall peerStageFree sessions ->
  assignPartnerRecord md5 now i payload sessions = Ok sessions' ->
  Forall peerStageFree sessions'.
Proof.
  intros Hall. unfold assignPartnerRecord.
  destruct (sessions !! i) as [P|] eqn:Hi; [|now intros [= <-]].
  pose proof (Forall_lookup_1 _ _ _ _ Hall Hi) as HP.
  destruct (resolvePartner P payload sessions) as [[j Q]|] eqn:Hres.
  - pose proof (resolvePartner_lookup _ _ _ _ _ Hres) as Hj.
    pose proof (Forall_lookup_1 _ _ _ _ Hall Hj) as HQ.
    destruct (String.eqb (sessionKey Q) (sessionKey P)); [discriminate|].
    intros [= <-]. repeat apply Forall_insert; assumption.
  - intros [= <-]. now apply Forall_insert.
Qed.

Lemma peerStageFree_clear (now : Z) (i : nat) (sessions : list session) :
  Forall peerStageFree sessions ->
  Forall peerStageFree (clearPartnerRecord now i sessions).
Proof.
  intros Hall. unfold clearPartnerRecord.
  destruct (sessions !! i) as [P|] eqn:Hi; [|assumption].
  match goal with
  | |- context [match ?l !! i with _ => _ end] =>
      set (sessions1 := l); assert (Hall1 : Forall peerStageFree sessions1)
  end.
  { subst sessions1. destruct (Js.truthy (partnerStudentId P)); [|assumption].
    destruct (findPartner P sessions) as [[j Q]|] eqn:Hf; [|assumption].
    destruct (String.eqb (partnerStudentId Q) (studentId P)); [|assumption].
    unfold findPartner in Hf. apply list_find_Some in Hf as (Hj & _ & _).
    apply Forall_insert; [assumption|].
    exact (Forall_lookup_1 _ _ _ _ Hall Hj). }
  destruct (sessions1 !! i) as [P1|] eqn:Hi1; [|assumption].
  apply Forall_insert; [assumption|].
  exact (Forall_lookup_1 _ _ _ _ Hall1 Hi1).
Qed.

Lemma peerStageFree_delete (keys : list string) (st : serverState) :
  Forall peerStageFree (store_sessions st) ->
  Forall peerStageFree (store_sessions (deleteSessionsByKeys keys st).2).
Proof.
  intros Hall. unfold deleteSessionsByKeys.
  destruct (bool_decide (size (deletionKeySet keys) = 0%nat)); simpl;
    [assumption|].
  apply Forall_fmap, Forall_forall. intros r Hr.
  apply list_elem_of_filter in Hr as [_ Hr].
  rewrite Forall_forall in Hall. specialize (Hall r Hr).
  unfold compose. now destruct (bool_decide _).
Qed.

Lemma peerStageFree_handleCall (md5 : string -> string) (now : Z)
    (call : apiCall) (st : serverState) :
  Forall peerStageFree (store_sessions st) ->
  Forall peerStageFree (store_sessions (handleCall md5 now call st)).
Proof.
  intros Hall.
  destruct call as [grp sid name|req|k|k|ch body|k p|k|keys|studs pairs];
    simpl.
  - unfold postSessionStart. destruct (requireBodyFields _); [|assumption].
    destruct (ensureSession md5 now (store_matchups st) (store_sessions st)
                grp sid name) as [[record sessions']|e] eqn:He; [|assumption].
    simpl.
    destruct (ensureSession_shape _ _ _ _ _ _ _ _ _ He)
      as [(i & old & Hi & -> & Hg & Hs)|[-> Hs]].
    + apply Forall_insert; [assumption|].
      apply (peerStageFree_same old); try assumption.
      exact (Forall_lookup_1 _ _ _ _ Hall Hi).
    + apply Forall_app. split; [assumption|]. constructor; [|constructor].
      intros _. rewrite Hs. intros H. discriminate H.
  - destruct (serve_store now req (store_sessions st))
      as [->|(i & r & r' & Hi & Hh & ->)]; [assumption|].
    apply Forall_insert; [assumption|].
    eapply handler_peerStageFree; [|exact Hh].
    exact (Forall_lookup_1 _ _ _ _ Hall Hi).
  - unfold postPresenceTouch.
    destruct (findSession k (store_sessions st)) as [[i r]|]; [|assumption].
    now destruct (touchPresence now (roomId r) (studentId r)
                    (presence_entries st)).
  - unfold postPresenceLeave.
    now destruct (findSession k (store_sessions st)) as [[i r]|].
  - assumption.
  - unfold adminAssignPartner.
    destruct (findSession k (store_sessions st)) as [[i r]|]; [|assumption].
    destruct (assignPartnerRecord md5 now i p (store_sessions st))
      as [sessions'|e] eqn:Ha; [|assumption].
    simpl. eapply peerStageFree_assign; eauto.
  - unfold adminClearPartner.
    destruct (findSession k (store_sessions st)) as [[i r]|]; [|assumption].
    simpl. now apply peerStageFree_clear.
  - unfold adminBulkDelete. destruct keys as [|key keys]; [assumption|].
    pose proof (peerStageFree_delete (key :: keys) st Hall) as Hd.
    now destruct (deleteSessionsByKeys (key :: keys) st).
  - unfold adminPostRoster.
    now destruct (normalizeRosterPayload studs pairs).
Qed.

(** X19. A participant of group C is never at the peer stage.  Whatever
    calls the server handles (session start, session requests, presence,
    chat, partner assignment and clearing, bulk deletion, roster upload),
    starting from a store in which no session of group C is at stage 3, and
    so starting from the empty store, no session of group C is at stage 3
    afterwards. *)
Theorem group_C_never_at_peer_stage (md5 : string -> string)
    (calls : list (Z * apiCall)) (st : serverState) :
  Forall peerStageFree (store_sessions st) ->
  forall record : session,
    record ∈ store_sessions (handleCalls md5 calls st) ->
    Js.toUpperCase (group record) = "C" -> ~ (stage record == 3)%Q.
Proof.
  intros Hall.
  apply (proj1 (Forall_forall peerStageFree
                  (store_sessions (handleCalls md5 calls st)))).
  revert st Hall. induction calls as [|[now call] calls IH]; intros st Hall;
    simpl; [assumption|].
  apply IH. now apply peerStageFree_handleCall.
Qed.

Lemma group_C_never_at_peer_stage_witness :
  ~ (stage (set_updatedAt 3000
              (set_stage 4 (sampleSession "C" 2 "idea" "draft" "" "")))
     == 3)%Q.
Proof.
  apply (group_C_never_at_peer_stage sampleDigest
           [(3000, SessionRequest (PostAdvance "C|S1"))]
           (with_sessions [sampleSession "C" 2 "idea" "draft" "" ""]
              initialState)).
  - repeat constructor. intros _ H. vm_compute in H. discriminate H.
  - in_list.
  - reflexivity.
Defined.


(** ** The roster *)

Lemma normalizeRosterPayload_pairings (rawStudents : list rosterPerson)
    (rawPairings : list rosterPairing) (pair : rosterPairing) :
  pair ∈ (normalizeRosterPayload rawStudents rawPairings).2 ->
  pairingNormal pair
  /\ knownStudent (normalizeRosterPayload rawStudents rawPairings).1
       (person_id (pairing_primary pair))
  /\ knownStudent (normalizeRosterPayload rawStudents rawPairings).1
       (person_id (pairing_partner pair)).
Proof.
  unfold normalizeRosterPayload. simpl. intros Hin.
  apply list_elem_of_filter in Hin as [[HA HB] Hin].
  apply list_elem_of_filter in Hin as [Hids Hin].
  apply list_elem_of_fmap in Hin as (raw & -> & _).
  apply andb_prop in Hids as [Ha Hb]. apply truthy_true in Ha, Hb.
  simpl in *. split.
  - unfold pairingNormal. simpl.
    repeat split; try assumption; apply trim_idempotent.
  - split.
    + apply elem_of_list_to_set, list_elem_of_fmap in HA as (s & E & Hs).
      exists s. split; [exact Hs | now symmetry].
    + apply elem_of_list_to_set, list_elem_of_fmap in HB as (s & E & Hs).
      exists s. split; [exact Hs | now symmetry].
Qed.

Lemma inferGroupFromId_normal (id : string) :
  id <> "" -> Js.trim id = id ->
  inferGroupFromId id = Js.toUpperCase (JsText.charAt0 id)
  /\ inferGroupFromId id <> "".
Proof.
  intros Hid Htrim. unfold inferGroupFromId.
  apply truthy_true in Hid as Ht. rewrite Ht, Htrim. simpl.
  split; [reflexivity|]. now destruct id.
Qed.

Lemma findMatch_rows_roster (md5 : string -> string)
    (upperGroup sid sname : string) (pairings : list rosterPairing)
    (hint : partnerHint) :
  Forall pairingNormal pairings ->
  findMatch_rows md5 upperGroup sid sname (map matchupOfPairing pairings)
  = Some hint ->
  exists pair : rosterPairing,
    pair ∈ pairings
    /\ upperGroup
       = Js.toUpperCase (JsText.charAt0 (person_id (pairing_primary pair)))
    /\ (sid = person_id (pairing_primary pair)
        \/ sid = person_id (pairing_partner pair)
        \/ (sname <> ""
            /\ (sname = person_name (pairing_primary pair)
                \/ sname = person_name (pairing_partner pair))))
    /\ hint_roomId hint
       = makePairRoomId md5 (person_id (pairing_primary pair))
           (person_id (pairing_partner pair)).
Proof.
  induction 1 as [|pair pairings Hpair _ IH]; simpl; [discriminate|].
  destruct Hpair as (HA & HB & HtA & HtB & HnA & HnB).
  destruct (inferGroupFromId_normal _ HA HtA) as [Hg Hgne].
  apply truthy_true in Hgne. rewrite Hgne, Hg, toUpperCase_idempotent.
  rewrite !or_empty, HtA, HtB, HnA, HnB. simpl.
  assert (Hlater : findMatch_rows md5 upperGroup sid sname
                     (map matchupOfPairing pairings) = Some hint ->
                   exists pair0 : rosterPairing,
                     pair0 ∈ pair :: pairings
                     /\ upperGroup
                        = Js.toUpperCase
                            (JsText.charAt0 (person_id (pairing_primary pair0)))
                     /\ (sid = person_id (pairing_primary pair0)
                         \/ sid = person_id (pairing_partner pair0)
                         \/ (sname <> ""
                             /\ (sname = person_name (pairing_primary pair0)
                                 \/ sname
                                    = person_name (pairing_partner pair0))))
                     /\ hint_roomId hint
                        = makePairRoomId md5
                            (person_id (pairing_primary pair0))
                            (person_id (pairing_partner pair0))).
  { intros Hrest. destruct (IH Hrest) as (pair0 & Hin & Hrest').
    exists pair0. split; [now right | exact Hrest']. }
  destruct (String.eqb_spec
              (Js.toUpperCase
                 (JsText.charAt0 (person_id (pairing_primary pair))))
              upperGroup) as [Hup|Hup]; simpl; [|exact Hlater].
  match goal with
  | |- (if negb ?m then _ else _) = _ -> _ => destruct m eqn:Hm
  end; simpl; [|exact Hlater].
  intros [= <-]. exists pair. split; [left|]. split; [now symmetry|].
  simpl. split.
  - apply orb_prop in Hm as [Hm|Hm]; [apply orb_prop in Hm as [Hm|Hm];
      [apply orb_prop in Hm as [Hm|Hm]|]|];
      apply andb_prop in Hm as [Hne Heq];
      apply String.eqb_eq in Heq; apply truthy_true in Hne.
    + left. now symmetry.
    + right. left. now symmetry.
    + right. right. split; [congruence|]. left. now symmetry.
    + right. right. split; [congruence|]. right. now symmetry.
  - now rewrite (or_truthy _ _ HA), (or_truthy _ _ HB).
Qed.

(** X20. After a roster upload a participant gets a partner hint only from
    a pairing the upload kept, and only when their upper-cased group is the
    upper-cased first character of the id of the primary student of that
    pairing.  The pairing names the participant by the trimmed id or by the
    trimmed non-empty name; both its ids are not empty and are, up to the
    case of letters, ids of students the upload kept; and the room of the
    hint is the pair room of its two ids. *)
Theorem roster_hint_needs_group_prefix (md5 : string -> string)
    (rawStudents : list rosterPerson) (rawPairings : list rosterPairing)
    (st : serverState) (grp sid name : string) (hint : partnerHint) :
  findMatchForStudent md5
    (store_matchups (adminPostRoster rawStudents rawPairings st))
    grp sid name
  = Some hint ->
  exists pair : rosterPairing,
    pair ∈ (normalizeRosterPayload rawStudents rawPairings).2
    /\ Js.toUpperCase grp
       = Js.toUpperCase (JsText.charAt0 (person_id (pairing_primary pair)))
    /\ (Js.trim sid = person_id (pairing_primary pair)
        \/ Js.trim sid = person_id (pairing_partner pair)
        \/ (Js.trim name <> ""
            /\ (Js.trim name = person_name (pairing_primary pair)
                \/ Js.trim name = person_name (pairing_partner pair))))
    /\ pairingNormal pair
    /\ knownStudent (normalizeRosterPayload rawStudents rawPairings).1
         (person_id (pairing_primary pair))
    /\ knownStudent (normalizeRosterPayload rawStudents rawPairings).1
         (person_id (pairing_partner pair))
    /\ hint_roomId hint
       = makePairRoomId md5 (person_id (pairing_primary pair))
           (person_id (pairing_partner pair)).
Proof.
  unfold findMatchForStudent, adminPostRoster.
  destruct (normalizeRosterPayload rawStudents rawPairings)
    as [students pairings] eqn:Hnorm.
  simpl. intros Hfind.
  assert (Hall : forall pair, pair ∈ pairings ->
            pairingNormal pair
            /\ knownStudent students (person_id (pairing_primary pair))
            /\ knownStudent students (person_id (pairing_partner pair))).
  { intros pair Hin.
    pose proof (normalizeRosterPayload_pairings rawStudents rawPairings pair)
      as Hp.
    rewrite Hnorm in Hp. now apply Hp. }
  apply findMatch_rows_roster in Hfind
    as (pair & Hin & Hgroup & Hmatch & Hroom).
  - exists pair. destruct (Hall pair Hin) as (Hn & Ha & Hb). auto 10.
  - apply Forall_forall. intros pair Hin. now apply Hall.
Qed.

Lemma roster_hint_needs_group_prefix_witness :
  exists pair : rosterPairing,
    pair ∈ (normalizeRosterPayload sampleRosterStudents
              sampleRosterPairings).2
    /\ Js.toUpperCase "a"
       = Js.toUpperCase (JsText.charAt0 (person_id (pairing_primary pair)))
    /\ (Js.trim " A02 " = person_id (pairing_primary pair)
        \/ Js.trim " A02 " = person_id (pairing_partner pair)
        \/ (Js.trim "Lee" <> ""
            /\ (Js.trim "Lee" = person_name (pairing_primary pair)
                \/ Js.trim "Lee" = person_name (pairing_partner pair))))
    /\ pairingNormal pair
    /\ knownStudent
         (normalizeRosterPayload sampleRosterStudents sampleRosterPairings).1
         (person_id (pairing_primary pair))
    /\ knownStudent
         (normalizeRosterPayload sampleRosterStudents sampleRosterPairings).1
         (person_id (pairing_partner pair))
    /\ hint_roomId
         {| hint_roomId := makePairRoomId sampleDigest "A01" "A02";
            hint_partnerId := "A01";
            hint_partnerName := "Kim";
            hint_keyA := "A01";
            hint_keyB := "A02" |}
       = makePairRoomId sampleDigest (person_id (pairing_primary pair))
           (person_id (pairing_partner pair)).
Proof.
  apply (roster_hint_needs_group_prefix sampleDigest sampleRosterStudents
           sampleRosterPairings initialState "a" " A02 " "Lee").
  vm_compute. reflexivity.
Defined.

(** ** Export scopes *)

Lemma toLowerCase_empty (s : string) : JsText.toLowerCase s = "" <-> s = "".
Proof. destruct s; simpl; split; congruence. Qed.

Lemma elem_of_normalized_scopes (items : list string) (x : string) :
  x ∈ filter (fun item => Js.truthy item = true)
        (map (fun item => JsText.toLowerCase (Js.trim item)) items)
  <-> x <> ""
      /\ exists item : string,
           item ∈ items /\ JsText.toLowerCase (Js.trim item) = x.
Proof.
  rewrite list_elem_of_filter, list_elem_of_fmap, truthy_true.
  split; intros (Hx & item & H1 & H2); (split; [exact Hx|]); exists item;
    auto.
Qed.

(** X21. The sheets of an export.  A sheet is included exactly when no
    scope is usable (every item is blank) or some item is, trimmed and in
    lower case, [all] or the name of the sheet.  A comma-separated string
    selects as the array of its pieces does; with no [scopes] parameter
    every sheet is included. *)
Theorem export_scope_selection (items : list string) (value : string) :
  (shouldIncludeScope (parseExportScopes (ScopesArray items)) value = true
   <-> Forall (fun item => Js.trim item = "") items
       \/ exists item : string,
            item ∈ items
            /\ (JsText.toLowerCase (Js.trim item) = "all"
                \/ (value <> ""
                    /\ JsText.toLowerCase (Js.trim item) = value)))
  /\ (forall s : string,
        parseExportScopes (ScopesString s)
        = parseExportScopes (ScopesArray (JsText.split "," s)))
  /\ shouldIncludeScope (parseExportScopes ScopesAbsent) value = true.
Proof.
  split; [|split].
  - unfold parseExportScopes, shouldIncludeScope.
    pose proof (elem_of_normalized_scopes items) as Hmem.
    destruct (filter _ _) as [|x rest] eqn:Hnorm.
    + split;
        [intros _
        |intros _; apply orb_true_iff; left; apply bool_decide_eq_true_2;
         left].
      left.
      apply Forall_forall. intros item Hin.
      destruct (decide (JsText.toLowerCase (Js.trim item) = ""))
        as [E|E]; [exact (proj1 (toLowerCase_empty _) E)|].
      exfalso. apply (proj1 (elem_of_nil (JsText.toLowerCase (Js.trim item)))).
      apply Hmem. eauto.
    + rewrite orb_true_iff, !bool_decide_eq_true, !Hmem. split.
      * intros [(_ & item & Hin & E)|(Hv & item & Hin & E)];
          right; exists item; auto.
      * intros [Hblank|(item & Hin & [E|[Hv E]])].
        -- exfalso. assert (Hx : x ∈ x :: rest) by left.
           apply Hmem in Hx as (Hx & item & Hin & E).
           rewrite Forall_forall in Hblank.
           rewrite (Hblank item Hin) in E. now apply Hx.
        -- left. split; [discriminate | eauto].
        -- right. eauto.
  - intros s. unfold parseExportScopes.
    destruct (Js.truthy s) eqn:Hs; simpl; [reflexivity|].
    apply truthy_false in Hs. now subst s.
  - apply orb_true_iff. left. apply bool_decide_eq_true_2. left.
Qed.

(** ** Presence of a pair *)

Lemma readPresence_other (room sid : string)
    (presenceMap presenceMap' : gmap string Z) :
  presenceMap' !! presenceKey room sid = presenceMap !! presenceKey room sid ->
  readPresence room sid presenceMap' = readPresence room sid presenceMap.
Proof. intros H. unfold readPresence. now rewrite H. Qed.

(** X22. Heartbeats of a pair.  A presence touch of a session with a room
    and a participant id answers with the time of the call and records it
    for that room and participant only; until the TTL has passed, the
    summary of a partner, a session of the same room whose partner id is the
    id of the session, shows the partner online with that time.  After the
    session leaves, its own summary and that of the partner show it with
    [lastSeen = 0] and not online.  Both calls leave the sessions as they
    are. *)
Theorem presence_touch_then_leave (now later : Z) (key : string)
    (st : serverState) (i : nat) (record : session) :
  findSession key (store_sessions st) = Some (i, record) ->
  roomId record <> "" -> studentId record <> "" -> now <> 0 ->
  (postPresenceTouch now key st).2
  = Ok {| ok := true; timestamp := Some now |}
  /\ store_sessions (postPresenceLeave key (postPresenceTouch now key st).1)
     = store_sessions st
  /\ (forall room sid : string,
        presenceKey room sid
        <> presenceKey (roomId record) (studentId record) ->
        readPresence room sid
          (presence_entries (postPresenceTouch now key st).1)
        = readPresence room sid (presence_entries st))
  /\ (forall peer : session,
        roomId peer = roomId record ->
        partnerStudentId peer = studentId record ->
        (later - now < PRESENCE_TTL_MS ->
         partner
           (buildPresenceSummary later (roomId peer) (studentId peer)
              (partnerStudentId peer)
              (presence_entries (postPresenceTouch now key st).1))
         = Some {| lastSeen := now; online := Js.VBool true |})
        /\ partner
             (buildPresenceSummary later (roomId peer) (studentId peer)
                (partnerStudentId peer)
                (presence_entries
                   (postPresenceLeave key (postPresenceTouch now key st).1)))
           = Some {| lastSeen := 0; online := Js.VNum 0 |})
  /\ self
       (buildPresenceSummary later (roomId record) (studentId record)
          (partnerStudentId record)
          (presence_entries
             (postPresenceLeave key (postPresenceTouch now key st).1)))
     = {| lastSeen := 0; online := Js.VNum 0 |}.
Proof.
  intros Hf Hroom Hsid Hnow.
  unfold postPresenceTouch, postPresenceLeave, touchPresence.
  pose proof Hroom as Hr. pose proof Hsid as Hs.
  apply truthy_true in Hr, Hs. rewrite Hf, Hr, Hs. simpl. rewrite Hf. simpl.
  split; [reflexivity|]. split; [reflexivity|]. split.
  { intros room sid Hother. apply readPresence_other.
    now apply lookup_insert_ne. }
  assert (Hgone :
    readPresence (roomId record) (studentId record)
      (markLeave (roomId record) (studentId record)
         (<[presenceKey (roomId record) (studentId record) := now]>
            (presence_entries st))) = 0).
  { apply readPresence_absent. apply lookup_delete_eq. }
  assert (Hseen :
    readPresence (roomId record) (studentId record)
      (<[presenceKey (roomId record) (studentId record) := now]>
         (presence_entries st)) = now).
  { apply readPresence_recorded; try assumption. apply lookup_insert_eq. }
  split.
  - intros peer -> ->. unfold buildPresenceSummary. rewrite Hs. split.
    + intros Hfresh. rewrite Hseen. unfold isOnline.
      destruct (Z.eqb_spec now 0); [contradiction|].
      apply Z.ltb_lt in Hfresh. now rewrite Hfresh.
    + now rewrite Hgone.
  - unfold buildPresenceSummary. simpl. now rewrite Hgone.
Qed.

Lemma presence_touch_then_leave_witness :
  (postPresenceTouch 1500 "A|S1" sampleState).2
  = Ok {| ok := true; timestamp := Some 1500 |}
  /\ partner
       (buildPresenceSummary 2000
          (roomId (pairedSession "S2" "Lee" "S1" "Kim"))
          (studentId (pairedSession "S2" "Lee" "S1" "Kim"))
          (partnerStudentId (pairedSession "S2" "Lee" "S1" "Kim"))
          (presence_entries (postPresenceTouch 1500 "A|S1" sampleState).1))
     = Some {| lastSeen := 1500; online := Js.VBool true |}
  /\ readPresence "r_0123456789ab" "S2"
       (presence_entries (postPresenceTouch 1500 "A|S1" sampleState).1)
     = readPresence "r_0123456789ab" "S2" (presence_entries sampleState).
Proof.
  split; [|split].
  - apply (proj1 (presence_touch_then_leave 1500 2000 "A|S1" sampleState 0%nat
                    (pairedSession "S1" "Kim" "S2" "Lee")
                    eq_refl ltac:(discriminate) ltac:(discriminate)
                    ltac:(discriminate))).
  - apply (proj1 (proj1 (proj2 (proj2 (proj2
             (presence_touch_then_leave 1500 2000 "A|S1" sampleState 0%nat
                (pairedSession "S1" "Kim" "S2" "Lee")
                eq_refl ltac:(discriminate) ltac:(discriminate)
                ltac:(discriminate)))))
             (pairedSession "S2" "Lee" "S1" "Kim") eq_refl eq_refl)).
    reflexivity.
  - apply (proj1 (proj2 (proj2
             (presence_touch_then_leave 1500 2000 "A|S1" sampleState 0%nat
                (pairedSession "S1" "Kim" "S2" "Lee")
                eq_refl ltac:(discriminate) ltac:(discriminate)
                ltac:(discriminate))))).
    discriminate.
Defined.

(** ** Pairing by the administrator *)

Lemma findSession_NoDup (sessions : list session) (i : nat)
    (record : session) :
  NoDup (map sessionKey sessions) ->
  sessions !! i = Some record ->
  findSession (sessionKey record) sessions = Some (i, record).
Proof.
  intros Hnodup Hi. unfold findSession. apply list_find_Some.
  split; [exact Hi|]. split; [reflexivity|].
  intros k y Hk Hlt Hkey.
  assert (k = i); [|lia].
  eapply NoDup_lookup; [exact Hnodup| |].
  - change (map sessionKey sessions) with (sessionKey <$> sessions).
    rewrite list_lookup_fmap, Hk. reflexivity.
  - change (map sessionKey sessions) with (sessionKey <$> sessions).
    rewrite list_lookup_fmap, Hi. simpl. now rewrite Hkey.
Qed.

Lemma sound_key_nonempty (record : session) :
  sessionSound record -> sessionKey record <> "".
Proof.
  intros (Hk & _ & Hg & _). rewrite Hk.
  destruct (group record); [contradiction | discriminate].
Qed.

(** X23. Pairing two sessions of one group and clearing the pairing, in a
    sound store.  The assignment by session key succeeds; afterwards the
    partner snapshot of each of the two sessions shows the id, the name and
    the session key of the other, and both are in the room the first session
    had.  Clearing the partner of the first session then leaves both
    sessions without a partner snapshot; both stay in that room. *)
Theorem admin_pairing_round_trip (md5 : string -> string) (t1 t2 : Z)
    (k1 k2 : string) (st : serverState) (i j : nat) (P Q : session) :
  storeSound (store_sessions st) ->
  findSession k1 (store_sessions st) = Some (i, P) ->
  findSession k2 (store_sessions st) = Some (j, Q) ->
  k1 <> k2 -> Js.trim k2 = k2 -> group Q = group P ->
  exists (linked cleared : serverState) (P1 Q1 P2 Q2 : session),
    adminAssignPartner md5 t1 k1 (pairWithKey k2) st = (linked, Ok tt)
    /\ findSession k1 (store_sessions linked) = Some (i, P1)
    /\ findSession k2 (store_sessions linked) = Some (j, Q1)
    /\ buildPartnerSnapshot P1 (store_sessions linked)
       = Some {| snap_id := studentId Q;
                 snap_name := studentName Q;
                 snap_sessionKey := k2 |}
    /\ buildPartnerSnapshot Q1 (store_sessions linked)
       = Some {| snap_id := studentId P;
                 snap_name := studentName P;
                 snap_sessionKey := k1 |}
    /\ (roomId P1 = roomId P /\ roomId Q1 = roomId P)
    /\ adminClearPartner t2 k1 linked = (cleared, Ok tt)
    /\ findSession k1 (store_sessions cleared) = Some (i, P2)
    /\ findSession k2 (store_sessions cleared) = Some (j, Q2)
    /\ buildPartnerSnapshot P2 (store_sessions cleared) = None
    /\ buildPartnerSnapshot Q2 (store_sessions cleared) = None
    /\ (roomId P2 = roomId P /\ roomId Q2 = roomId P).
Proof.
  intros Hs Hf1 Hf2 Hk Htrim Hgroup.
  destruct (findSession_lookup _ _ _ _ Hf1) as [Hi HkP].
  destruct (findSession_lookup _ _ _ _ Hf2) as [Hj HkQ].
  pose proof (storeSound_lookup _ _ _ Hs Hi) as HP.
  pose proof (storeSound_lookup _ _ _ Hs Hj) as HQ.
  assert (Hij : i <> j).
  { intros ->. rewrite Hi in Hj. injection Hj as ->. congruence. }
  assert (Hk2 : Js.truthy k2 = true).
  { apply truthy_true. rewrite <- HkQ. now apply sound_key_nonempty. }
  destruct HP as (_ & _ & _ & HsidP & HroomP & _).
  destruct HQ as (_ & _ & _ & HsidQ & _ & _).
  (* the assignment *)
  set (P1 := set_updatedAt t1
               (set_partner (studentId Q) (studentName Q)
                  (set_roomId (roomId P) P))).
  set (Q1 := set_updatedAt t1
               (set_partner (studentId P) (studentName P)
                  (set_roomId (roomId P) Q))).
  set (sessions1 := <[j := Q1]> (<[i := P1]> (store_sessions st))).
  assert (Hassign : assignPartnerRecord md5 t1 i (pairWithKey k2)
                      (store_sessions st) = Ok sessions1).
  { unfold assignPartnerRecord, resolvePartner. rewrite Hi. simpl.
    rewrite Htrim, Hk2, Hf2, HkP, HkQ.
    assert (Hne : String.eqb k2 k1 = false) by (apply String.eqb_neq; auto).
    rewrite Hne, (or_truthy _ _ HroomP). reflexivity. }
  assert (Hs1 : storeSound sessions1)
    by (eapply storeSound_assign; eauto).
  assert (Hi1 : sessions1 !! i = Some P1).
  { unfold sessions1. rewrite list_lookup_insert_ne by congruence.
    apply list_lookup_insert_eq. eapply lookup_lt_Some. exact Hi. }
  assert (Hj1 : sessions1 !! j = Some Q1).
  { unfold sessions1. apply list_lookup_insert_eq. rewrite length_insert.
    eapply lookup_lt_Some. exact Hj. }
  pose proof (storeSound_uniqueIds _ Hs1) as Hu1.
  assert (HfP1 : findSession k1 sessions1 = Some (i, P1)).
  { rewrite <- HkP. apply (findSession_NoDup sessions1 i P1);
      [apply Hs1 | exact Hi1]. }
  assert (HfQ1 : findSession k2 sessions1 = Some (j, Q1)).
  { rewrite <- HkQ. apply (findSession_NoDup sessions1 j Q1);
      [apply Hs1 | exact Hj1]. }
  assert (HpP1 : findPartner P1 sessions1 = Some (j, Q1))
    by (apply findPartner_unique; auto).
  assert (HpQ1 : findPartner Q1 sessions1 = Some (i, P1))
    by (apply findPartner_unique; auto).
  (* the clearing *)
  set (P2 := set_updatedAt t2 (set_partner "" "" P1)).
  set (Q2 := set_updatedAt t2 (set_partner "" "" Q1)).
  set (sessions2 := <[i := P2]> (<[j := Q2]> sessions1)).
  assert (Hclear : clearPartnerRecord t2 i sessions1 = sessions2).
  { unfold clearPartnerRecord. rewrite Hi1.
    change (partnerStudentId P1) with (studentId Q).
    apply truthy_true in HsidQ as Ht. rewrite Ht, HpP1.
    change (partnerStudentId Q1) with (studentId P).
    change (studentId P1) with (studentId P).
    rewrite String.eqb_refl.
    rewrite list_lookup_insert_ne by congruence. now rewrite Hi1. }
  assert (Hs2 : storeSound sessions2)
    by (rewrite <- Hclear; now apply storeSound_clear).
  assert (Hi2 : sessions2 !! i = Some P2).
  { unfold sessions2. apply list_lookup_insert_eq. rewrite length_insert.
    eapply lookup_lt_Some. exact Hi1. }
  assert (Hj2 : sessions2 !! j = Some Q2).
  { unfold sessions2. rewrite list_lookup_insert_ne by congruence.
    apply list_lookup_insert_eq. eapply lookup_lt_Some. exact Hj1. }
  exists (with_sessions sessions1 st),
         (with_sessions sessions2 (with_sessions sessions1 st)),
         P1, Q1, P2, Q2.
  split.
  { unfold adminAssignPartner. now rewrite Hf1, Hassign. }
  split; [exact HfP1|]. split; [exact HfQ1|].
  split.
  { unfold buildPartnerSnapshot. simpl store_sessions.
    change (partnerStudentId P1) with (studentId Q).
    apply truthy_true in HsidQ as Ht. rewrite Ht, HpP1. simpl.
    now rewrite !or_empty, HkQ. }
  split.
  { unfold buildPartnerSnapshot. simpl store_sessions.
    change (partnerStudentId Q1) with (studentId P).
    apply truthy_true in HsidP as Ht. rewrite Ht, HpQ1. simpl.
    now rewrite !or_empty, HkP. }
  split; [split; reflexivity|].
  split.
  { unfold adminClearPartner. simpl store_sessions.
    now rewrite HfP1, Hclear. }
  split.
  { simpl store_sessions. rewrite <- HkP.
    apply (findSession_NoDup sessions2 i P2); [apply Hs2 | exact Hi2]. }
  split.
  { simpl store_sessions. rewrite <- HkQ.
    apply (findSession_NoDup sessions2 j Q2); [apply Hs2 | exact Hj2]. }
  repeat split.
Qed.

Lemma admin_pairing_round_trip_witness :
  exists (linked cleared : serverState) (P2 Q2 : session),
    adminAssignPartner sampleDigest 3000 "A|S1" (pairWithKey "A|S2")
      sampleState
    = (linked, Ok tt)
    /\ adminClearPartner 4000 "A|S1" linked = (cleared, Ok tt)
    /\ findSession "A|S1" (store_sessions cleared) = Some (0%nat, P2)
    /\ findSession "A|S2" (store_sessions cleared) = Some (1%nat, Q2)
    /\ buildPartnerSnapshot P2 (store_sessions cleared) = None
    /\ buildPartnerSnapshot Q2 (store_sessions cleared) = None.
Proof.
  destruct (admin_pairing_round_trip sampleDigest 3000 4000 "A|S1" "A|S2"
              sampleState 0%nat 1%nat
              (pairedSession "S1" "Kim" "S2" "Lee")
              (pairedSession "S2" "Lee" "S1" "Kim"))
    as (linked & cleared & P1 & Q1 & P2 & Q2 & Hassign & _ & _ & _ & _ & _
        & Hclear & HfP & HfQ & HsP & HsQ & _).
  - split; [|by_evaluation].
    repeat (constructor;
            [repeat split; try reflexivity; try discriminate;
             vm_compute; discriminate|]).
    constructor.
  - reflexivity.
  - reflexivity.
  - discriminate.
  - reflexivity.
  - reflexivity.
  - exists linked, cleared, P2, Q2. auto 10.
Defined.

(** ** The prewriting is written once *)

Lemma prewritingsKept_refl (sessions : list session) :
  prewritingsKept sessions sessions.
Proof. intros r Hr _. exists r. repeat split; assumption. Qed.

Lemma prewritingsKept_trans (l1 l2 l3 : list session) :
  prewritingsKept l1 l2 -> prewritingsKept l2 l3 -> prewritingsKept l1 l3.
Proof.
  intros H12 H23 r Hr Hpre.
  destruct (H12 r Hr Hpre) as (r2 & Hr2 & Hk2 & Hp2 & Ht2).
  assert (Hpre2 : preText r2 <> "") by congruence.
  destruct (H23 r2 Hr2 Hpre2) as (r3 & Hr3 & Hk3 & Hp3 & Ht3).
  exists r3. split; [exact Hr3|]. unfold samePrewriting. repeat split; congruence.
Qed.

Lemma prewritingsKept_insert (sessions : list session) (i : nat)
    (old new : session) :
  sessions !! i = Some old ->
  (preText old <> "" -> samePrewriting old new) ->
  prewritingsKept sessions (<[i := new]> sessions).
Proof.
  intros Hi Hsame r Hr Hpre.
  apply list_elem_of_lookup in Hr as [k Hk].
  destruct (decide (k = i)) as [->|Hne].
  - rewrite Hi in Hk. injection Hk as <-. exists new.
    split; [|auto]. apply (list_elem_of_lookup_2 _ i).
    apply list_lookup_insert_eq. eapply lookup_lt_Some. exact Hi.
  - exists r. split; [|repeat split].
    apply (list_elem_of_lookup_2 _ k).
    rewrite list_lookup_insert_ne by congruence. exact Hk.
Qed.

Lemma handler_keeps_prewriting (now : Z) (req : request)
    (record record' : session) :
  requestHandler now req record = Ok record' ->
  preText record <> "" -> samePrewriting record record'.
Proof.
  intros Hrun Hpre. apply truthy_true in Hpre. revert Hrun.
  destruct req as [k t|k t|k t|k t|k|k|k n|k]; simpl;
    unfold_handlers; rewrite ?Hpre; try discriminate;
    split_tests; intros [= <-]; repeat split.
Qed.

Lemma ensureSession_keeps_prewriting (md5 : string -> string) (now : Z)
    (matchups : list matchup) (sessions sessions' : list session)
    (grp sid name : string) (record : session) :
  ensureSession md5 now matchups sessions grp sid name
  = Ok (record, sessions') ->
  prewritingsKept sessions sessions'.
Proof.
  unfold ensureSession.
  destruct (buildSessionKey grp sid) as [key|e] eqn:Hkey; simpl;
    [|discriminate].
  generalize (if String.eqb (Js.toUpperCase grp) "A"
                 || String.eqb (Js.toUpperCase grp) "B"
              then findMatchForStudent md5 matchups grp sid name
              else None).
  intros hint.
  destruct (findSession key sessions) as [[i r]|] eqn:Hf.
  - intros [= <- <-]. apply findSession_lookup in Hf as [Hi _].
    apply (prewritingsKept_insert _ _ r); [exact Hi|]. intros _.
    destruct hint, (negb (Js.truthy (roomId _))); repeat split.
  - destruct (createSession md5 now grp sid name hint) as [r|e];
      simpl; [|discriminate].
    intros [= <- <-] r0 Hr0 _. exists r0.
    split; [apply elem_of_app; now left | repeat split].
Qed.

Lemma assign_keeps_prewriting (md5 : string -> string) (now : Z) (i : nat)
    (payload : partnerPayload) (sessions sessions' : list session) :
  assignPartnerRecord md5 now i payload sessions = Ok sessions' ->
  prewritingsKept sessions sessions'.
Proof.
  unfold assignPartnerRecord.
  destruct (sessions !! i) as [P|] eqn:Hi;
    [|intros [= <-]; apply prewritingsKept_refl].
  destruct (resolvePartner P payload sessions) as [[j Q]|] eqn:Hres.
  - pose proof (resolvePartner_lookup _ _ _ _ _ Hres) as Hj.
    destruct (String.eqb (sessionKey Q) (sessionKey P)) eqn:Hkey;
      [discriminate|].
    intros [= <-].
    assert (Hij : i <> j).
    { intros ->. rewrite Hi in Hj. injection Hj as ->.
      now rewrite String.eqb_refl in Hkey. }
    eapply prewritingsKept_trans.
    2:{ apply (prewritingsKept_insert _ j Q);
          [now rewrite list_lookup_insert_ne by congruence|].
        intros _. repeat split. }
    apply (prewritingsKept_insert _ i P); [exact Hi|].
    intros _. repeat split.
  - intros [= <-]. apply (prewritingsKept_insert _ i P); [exact Hi|].
    intros _. repeat split.
Qed.

Lemma clear_keeps_prewriting (now : Z) (i : nat) (sessions : list session) :
  prewritingsKept sessions (clearPartnerRecord now i sessions).
Proof.
  unfold clearPartnerRecord.
  destruct (sessions !! i) as [P|] eqn:Hi; [|apply prewritingsKept_refl].
  match goal with
  | |- context [match ?l !! i with _ => _ end] =>
      set (sessions1 := l); assert (H1 : prewritingsKept sessions sessions1)
  end.
  { subst sessions1.
    destruct (Js.truthy (partnerStudentId P)); [|apply prewritingsKept_refl].
    destruct (findPartner P sessions) as [[j Q]|] eqn:Hf;
      [|apply prewritingsKept_refl].
    destruct (String.eqb (partnerStudentId Q) (studentId P));
      [|apply prewritingsKept_refl].
    unfold findPartner in Hf. apply list_find_Some in Hf as (Hj & _ & _).
    apply (prewritingsKept_insert _ j Q); [exact Hj|].
    intros _. repeat split. }
  destruct (sessions1 !! i) as [P1|] eqn:Hi1; [|exact H1].
  eapply prewritingsKept_trans; [exact H1|].
  apply (prewritingsKept_insert _ i P1); [exact Hi1|].
  intros _. repeat split.
Qed.

Lemma handleCall_keeps_prewriting (md5 : string -> string) (now : Z)
    (call : apiCall) (st : serverState) :
  keepsSessions call ->
  prewritingsKept (store_sessions st)
    (store_sessions (handleCall md5 now call st)).
Proof.
  destruct call as [grp sid name|req|k|k|ch body|k p|k|keys|studs pairs];
    simpl; intros Hcall; try contradiction.
  - unfold postSessionStart.
    destruct (requireBodyFields _); [|apply prewritingsKept_refl].
    destruct (ensureSession md5 now (store_matchups st) (store_sessions st)
                grp sid name) as [[record sessions']|e] eqn:He;
      [|apply prewritingsKept_refl].
    simpl. eapply ensureSession_keeps_prewriting. exact He.
  - destruct (serve_store now req (store_sessions st))
      as [->|(i & r & r' & Hi & Hh & ->)]; [apply prewritingsKept_refl|].
    apply (prewritingsKept_insert _ i r); [exact Hi|].
    now apply (handler_keeps_prewriting now req).
  - unfold postPresenceTouch.
    destruct (findSession k (store_sessions st)) as [[i r]|];
      [|apply prewritingsKept_refl].
    destruct (touchPresence now (roomId r) (studentId r)
                (presence_entries st)).
    apply prewritingsKept_refl.
  - unfold postPresenceLeave.
    destruct (findSession k (store_sessions st)) as [[i r]|];
      apply prewritingsKept_refl.
  - apply prewritingsKept_refl.
  - unfold adminAssignPartner.
    destruct (findSession k (store_sessions st)) as [[i r]|];
      [|apply prewritingsKept_refl].
    destruct (assignPartnerRecord md5 now i p (store_sessions st))
      as [sessions'|e] eqn:Ha; [|apply prewritingsKept_refl].
    simpl. eapply assign_keeps_prewriting. exact Ha.
  - unfold adminClearPartner.
    destruct (findSession k (store_sessions st)) as [[i r]|];
      [|apply prewritingsKept_refl].
    simpl. apply clear_keeps_prewriting.
  - unfold adminPostRoster.
    destruct (normalizeRosterPayload studs pairs).
    apply prewritingsKept_refl.
Qed.

(** X24. A submitted prewriting is permanent.  Whatever calls other than a
    bulk deletion the server handles (session start, session requests,
    presence, chat, partner assignment and clearing, roster upload), a
    session that holds a prewriting is still in the store afterwards, under
    the same key and with the same prewriting text and submission time. *)
Theorem prewriting_is_permanent (md5 : string -> string)
    (calls : list (Z * apiCall)) (st : serverState) (record : session) :
  Forall (fun call => keepsSessions call.2) calls ->
  record ∈ store_sessions st -> preText record <> "" ->
  exists record' : session,
    record' ∈ store_sessions (handleCalls md5 calls st)
    /\ sessionKey record' = sessionKey record
    /\ preText record' = preText record
    /\ preSubmittedAt record' = preSubmittedAt record.
Proof.
  intros Hcalls Hin Hpre.
  assert (Hkept : prewritingsKept (store_sessions st)
                    (store_sessions (handleCalls md5 calls st))).
  { clear Hin Hpre. revert st.
    induction Hcalls as [|[now call] calls Hcall _ IH]; intros st.
    - apply prewritingsKept_refl.
    - simpl. eapply prewritingsKept_trans; [|apply IH].
      now apply handleCall_keeps_prewriting. }
  exact (Hkept record Hin Hpre).
Qed.

Lemma prewriting_is_permanent_witness :
  exists record' : session,
    record'
    ∈ store_sessions
        (handleCalls sampleDigest
           [(2000, SessionRequest (PostPrewriting "A|S1" "again"));
            (3000, SessionRequest (PostJump "A|S1" (Js.Finite 1)));
            (4000, SessionStart "a" "S1" "Kim");
            (5000, AdminClearPartner "A|S1")]
           (with_sessions [sampleSession "A" 2 "idea" "" "" ""] initialState))
    /\ sessionKey record' = sessionKey (sampleSession "A" 2 "idea" "" "" "")
    /\ preText record' = preText (sampleSession "A" 2 "idea" "" "" "")
    /\ preSubmittedAt record'
       = preSubmittedAt (sampleSession "A" 2 "idea" "" "" "").
Proof.
  apply prewriting_is_permanent.
  - repeat constructor.
  - in_list.
  - discriminate.
Defined.
